(** * S402 payment gating: the server-side protocol core

    A shallow embedding of the payment-gating code of the repository
    (server/services/s402Service.ts, server/services/blockchainService.ts,
    server/middleware/s402Middleware.ts, server/middleware/errorHandler.ts,
    server/services/pricingService.ts, server/utils/http.ts,
    server/utils/crypto.ts, shared/schema.ts) and the properties of it that
    the specification states.

    Conventions of the embedding:
    - JavaScript strings are [string]s of ASCII characters; every string the
      code lower-cases or pattern-matches is an address, a hash or a decimal
      number, all ASCII.
    - JavaScript integers ([number] holding an integer, [bigint]) are [Z]; a
      [number] is a double, so a [Z] in a [number] field stands for an
      integer-valued double, and where the code renders a [number] that may
      lie beyond the safe integers its rendering is [Number_toString].
    - a function that may throw returns [JsError + A]; a function that also
      logs or talks to the chain client returns [M A], a writer of [Event]s
      over that sum.
    - the collaborators the code imports (the ethers library, the chain
      client, the clock, the random source) are passed in as records. *)

From Stdlib Require Import String Ascii ZArith List Bool Lia.
From Stdlib Require Import DecimalString DecimalZ.
From Stdlib.Strings Require Byte.
Import ListNotations.

Local Open Scope string_scope.
Local Open Scope Z_scope.

(** ** JavaScript strings and numbers *)

Module Js.

(** [String.prototype.toLowerCase] on ASCII text. *)
Definition lowerChar (c : ascii) : ascii :=
  let n := nat_of_ascii c in
  if andb (Nat.leb 65 n) (Nat.leb n 90) then ascii_of_nat (n + 32) else c.

Fixpoint toLowerCase (s : string) : string :=
  match s with
  | EmptyString => EmptyString
  | String c t => String (lowerChar c) (toLowerCase t)
  end.

(** [String.prototype.includes]: [sub] occurs somewhere in [s]. *)
Fixpoint includes (sub s : string) : bool :=
  if prefix sub s then true
  else match s with
       | EmptyString => false
       | String _ t => includes sub t
       end.

(** [Array.prototype.join]. *)
Definition join (sep : string) (l : list string) : string := String.concat sep l.

(** [toString] of a [bigint], and of a [number] that is a safe integer: the
    decimal rendering, with a leading minus sign for a negative value and no
    leading zeros. *)
Definition toString (z : Z) : string := NilZero.string_of_int (Z.to_int z).

(** [Number.isSafeInteger] on an integer: below 2^53 in absolute value. *)
Definition isSafeInteger (z : Z) : bool := Z.abs z <? 2 ^ 53.

(** The integers a [number] can hold: those with at most 53 significant
    bits, below 2^1024. *)
Definition isDouble (z : Z) : bool :=
  orb (isSafeInteger z)
      (andb (Z.abs z mod 2 ^ (Z.log2 (Z.abs z) - 52) =? 0) (Z.log2 (Z.abs z) <? 1024)).

(** [v] is read as the double [z], for [z >= 2^53]: it lies between the
    midpoints to the doubles next to [z], the midpoints themselves counting
    when the significand of [z] is even (round to nearest, ties to even).
    The double below a power of two is half as far as the one above.  The
    bounds are doubled to stay in the integers. *)
Definition roundsTo (z v : Z) : bool :=
  let ulp := 2 ^ (Z.log2 z - 52) in
  let significand := z / ulp in
  let lo2 := if significand =? 2 ^ 52 then 2 * z - ulp / 2 else 2 * z - ulp in
  let hi2 := 2 * z + ulp in
  if Z.even significand
  then andb (lo2 <=? 2 * v) (2 * v <=? hi2)
  else andb (lo2 <? 2 * v) (2 * v <? hi2).

(** Of the two multiples of [unit] around [z], the one read as [z]; the
    nearer one when both are, the even one when they are as near. *)
Definition closestMultiple (z unit : Z) : option Z :=
  let a := z / unit * unit in
  let b := a + unit in
  match roundsTo z a, roundsTo z b with
  | true, true =>
      Some (if z - a <? b - z then a
            else if b - z <? z - a then b
            else if Z.even (z / unit) then a else b)
  | true, false => Some a
  | false, true => Some b
  | false, false => None
  end.

(** The number with the fewest significant digits that is read as [z]:
    the multiple of the highest power of ten, from [10^p] down. *)
Fixpoint shortest (z : Z) (p : nat) : Z :=
  match closestMultiple z (10 ^ Z.of_nat p) with
  | Some v => v
  | None => match p with
            | O => z
            | S p' => shortest z p'
            end
  end.

Fixpoint dropTrailingZeros (s : string) : string :=
  match s with
  | EmptyString => EmptyString
  | String c t =>
      match dropTrailingZeros t with
      | EmptyString => if Ascii.eqb c "0" then EmptyString else String c EmptyString
      | t' => String c t'
      end
  end.

(** The rendering of a double [z >= 2^53] (Number::toString, radix 10): the
    digits [s] of the shortest number read as [z], followed by zeros up to
    its [n] digits when [n <= 21], and in exponent form, [d.ddde+(n-1)],
    beyond. *)
Definition renderLarge (z : Z) : string :=
  let v := toString (shortest z (String.length (toString z))) in
  let n := Z.of_nat (String.length v) in
  if n <=? 21 then v
  else match dropTrailingZeros v with
       | String d EmptyString => String d ("e+" ++ toString (n - 1))
       | String d rest => String d ("." ++ rest ++ "e+" ++ toString (n - 1))
       | EmptyString => v
       end.

(** [Number.prototype.toString] of an integer-valued double: the decimal
    rendering for a safe integer, which is the shortest number read as it;
    [1152921504606847000] for 2^60, [1e+21] for 10^21. *)
Definition Number_toString (z : Z) : string :=
  if isSafeInteger z then toString z
  else if z <? 0 then "-" ++ renderLarge (- z)
  else renderLarge z.

Definition isDigit (c : ascii) : bool :=
  let n := nat_of_ascii c in andb (Nat.leb 48 n) (Nat.leb n 57).

(** The characters a rendered integer is made of. *)
Definition isNumberChar (c : ascii) : bool := orb (isDigit c) (Ascii.eqb c "-").

Definition isHexDigit (c : ascii) : bool :=
  let n := nat_of_ascii c in
  orb (isDigit c)
      (orb (andb (Nat.leb 65 n) (Nat.leb n 70)) (andb (Nat.leb 97 n) (Nat.leb n 102))).

Fixpoint allChars (p : ascii -> bool) (s : string) : bool :=
  match s with
  | EmptyString => true
  | String c t => andb (p c) (allChars p t)
  end.

(** The regular expression [/^\d+$/]. *)
Definition isDecimalString (s : string) : bool :=
  match s with
  | EmptyString => false
  | _ => allChars isDigit s
  end.

(** The regular expression [/^0x[0-9a-fA-F]{n}$/i]; the [i] flag lets the
    prefix be written [0X] as well. *)
Definition isHexOfLength (n : nat) (s : string) : bool :=
  match s with
  | String "0" (String x t) =>
      andb (orb (Ascii.eqb x "x") (Ascii.eqb x "X"))
           (andb (Nat.eqb (String.length t) n) (allChars isHexDigit t))
  | _ => false
  end.

(** A thrown value: an [Error] object with the fields the handlers read. *)
Record JsError : Type := mkJsError {
  err_name : string;
  err_message : string;
  err_status : option Z;
  err_code : option string;
  err_stack : string
}.

(** [new Error(message)]; the stack starts with the name and the message
    (its frames are left out). *)
Definition newError (message : string) : JsError :=
  mkJsError "Error" message None None ("Error: " ++ message).

Definition syntaxError (message : string) : JsError :=
  mkJsError "SyntaxError" message None None ("SyntaxError: " ++ message).

(** The digits of a decimal string as a number. *)
Definition digitsValue (s : string) : option Z :=
  if isDecimalString s then option_map Z.of_uint (NilZero.uint_of_string s)
  else None.

(** White space and line terminators, as far as ASCII has them. *)
Definition isWhiteSpace (c : ascii) : bool :=
  let n := nat_of_ascii c in orb (andb (Nat.leb 9 n) (Nat.leb n 13)) (Nat.eqb n 32).

Fixpoint trimStart (s : string) : string :=
  match s with
  | EmptyString => EmptyString
  | String c t => if isWhiteSpace c then trimStart t else s
  end.

Fixpoint trimEnd (s : string) : string :=
  match s with
  | EmptyString => EmptyString
  | String c t =>
      match trimEnd t with
      | EmptyString => if isWhiteSpace c then EmptyString else String c EmptyString
      | t' => String c t'
      end
  end.

(** [String.prototype.trim]. *)
Definition trim (s : string) : string := trimEnd (trimStart s).

(** The value of a digit or letter as a digit of a radix up to 16. *)
Definition digitOf (c : ascii) : option Z :=
  let n := nat_of_ascii c in
  if andb (Nat.leb 48 n) (Nat.leb n 57) then Some (Z.of_nat n - 48)
  else if andb (Nat.leb 97 n) (Nat.leb n 102) then Some (Z.of_nat n - 87)
  else if andb (Nat.leb 65 n) (Nat.leb n 70) then Some (Z.of_nat n - 55)
  else None.

Fixpoint radixDigits (radix acc : Z) (s : string) : option Z :=
  match s with
  | EmptyString => Some acc
  | String c t =>
      match digitOf c with
      | Some d => if d <? radix then radixDigits radix (acc * radix + d) t else None
      | None => None
      end
  end.

(** One digit or more, read in the radix. *)
Definition radixValue (radix : Z) (s : string) : option Z :=
  match s with
  | EmptyString => None
  | _ => radixDigits radix 0 s
  end.

(** The radix a literal's prefix announces ([0x], [0o], [0b], in either
    case), with the digits that follow. *)
Definition radixPrefix (s : string) : option (Z * string) :=
  match s with
  | String z (String x t) =>
      if Ascii.eqb z "0" then
        if orb (Ascii.eqb x "x") (Ascii.eqb x "X") then Some (16, t)
        else if orb (Ascii.eqb x "o") (Ascii.eqb x "O") then Some (8, t)
        else if orb (Ascii.eqb x "b") (Ascii.eqb x "B") then Some (2, t)
        else None
      else None
  | _ => None
  end.

(** StringToBigInt: white space around the literal is dropped; nothing is
    zero; a hexadecimal, octal or binary literal carries no sign; a decimal
    one may carry one. *)
Definition stringToBigInt (s : string) : option Z :=
  let text := trim s in
  match text with
  | EmptyString => Some 0
  | String c t =>
      if Ascii.eqb c "-" then option_map Z.opp (digitsValue t)
      else if Ascii.eqb c "+" then digitsValue t
      else match radixPrefix text with
           | Some (radix, digits) => radixValue radix digits
           | None => digitsValue text
           end
  end.

(** [BigInt(s)] for a string argument; text that is no integer literal is a
    SyntaxError. *)
Definition BigInt (s : string) : JsError + Z :=
  match stringToBigInt s with
  | Some z => inr z
  | None => inl (syntaxError ("Cannot convert " ++ s ++ " to a BigInt"))
  end.

Definition hexDigit (n : N) : ascii :=
  ascii_of_N (if (n <? 10)%N then 48 + n else 87 + n)%N.

(** [Buffer.prototype.toString("hex")]: two lower-case hex digits per byte. *)
Fixpoint toHex (bytes : list Byte.byte) : string :=
  match bytes with
  | [] => EmptyString
  | b :: rest =>
      let n := Byte.to_N b in
      String (hexDigit (n / 16)%N) (String (hexDigit (n mod 16)%N) (toHex rest))
  end.

End Js.

Import Js.

(** ** Effects: thrown errors, log lines and chain-client calls *)

Inductive Level : Type := Debug | Info | Warn | Error.

(** What a run leaves behind: the lines handed to the logger (level and
    message; the structured payload is not kept) and the calls made to the
    chain client. *)
Inductive Event : Type :=
| EvLog (level : Level) (msg : string)
| EvGetTransactionReceipt (txHash : string)
| EvGetBlockNumber
| EvGetTransaction (txHash : string).

Definition M (A : Type) : Type := (list Event * (JsError + A))%type.

Definition ret {A} (a : A) : M A := ([], inr a).

Definition throw {A} (e : JsError) : M A := ([], inl e).

Definition bind {A B} (m : M A) (f : A -> M B) : M B :=
  match m with
  | (t, inl e) => (t, inl e)
  | (t, inr a) => let (t', r) := f a in ((t ++ t')%list, r)
  end.

Definition log (level : Level) (msg : string) : M unit := ([EvLog level msg], inr tt).

(** A pure computation that may throw, run inside an effectful one. *)
Definition lift {A} (r : JsError + A) : M A := ([], r).

(** [try { m } catch (error) { handler error }]. *)
Definition tryCatch {A} (m : M A) (handler : JsError -> M A) : M A :=
  match m with
  | (t, inl e) => let (t', r) := handler e in ((t ++ t')%list, r)
  | (t, inr a) => (t, inr a)
  end.

Declare Scope monad_scope.
Delimit Scope monad_scope with monad.
Notation "x <- m ;; k" := (bind m (fun x => k))
  (at level 61, m at next level, right associativity) : monad_scope.
Notation "m ;;; k" := (bind m (fun _ => k))
  (at level 61, right associativity) : monad_scope.
Local Open Scope monad_scope.

(** ** Data model (shared/schema.ts) *)

Record PaymentData : Type := mkPaymentData {
  owner : string;
  value : string;
  deadline : Z;
  recipient : string;
  nonce : string
}.

Record Signature : Type := mkSignature {
  sig_v : Z;
  sig_r : string;
  sig_s : string
}.

Record S402Proof : Type := mkS402Proof {
  payment : PaymentData;
  permitSig : option Signature;
  authSig : Signature;
  txHash : option string
}.

Record EIP712Domain : Type := mkEIP712Domain {
  domain_name : string;
  domain_version : string;
  domain_chainId : Z;
  verifyingContract : string
}.

(** [PAYMENT_AUTHORIZATION_TYPES.PaymentAuthorization]: field names and types. *)
Definition PAYMENT_AUTHORIZATION_TYPES : list (string * string) :=
  [ ("owner", "address"); ("spender", "address"); ("value", "uint256");
    ("deadline", "uint256"); ("recipient", "address"); ("nonce", "bytes32") ].

(** The outcome of the settlement verifier. *)
Record VerifyResult : Type := mkVerifyResult {
  verified : bool;
  confirmations : Z;
  error : option string
}.

(** A promise is identified with the computation it settles with: the events
    of its run and its fulfilment ([inr]) or rejection ([inl]). *)
Definition Promise (A : Type) : Type := M A.

(** A call of the chain client: where an [async] function awaits. *)
Definition isChainCall (ev : Event) : bool :=
  match ev with
  | EvLog _ _ => false
  | _ => true
  end.

(** A run cut at its first [await]: the events up to the first call of the
    chain client, that call included, and the events after it. *)
Fixpoint untilFirstAwait (t : list Event) : list Event * list Event :=
  match t with
  | [] => ([], [])
  | ev :: rest =>
      if isChainCall ev then ([ev], rest)
      else let (before, after) := untilFirstAwait rest in (ev :: before, after)
  end.

(** An [async] function that is called runs at once as far as its first
    [await]: these events happen at the call.  The chain client answers in
    a later turn of the event loop, so the events after the first [await]
    happen once the caller, who does not wait, has run to its end. *)
Definition startedEvents {A} (p : Promise A) : list Event := fst (untilFirstAwait (fst p)).

Definition pendingEvents {A} (p : Promise A) : list Event := snd (untilFirstAwait (fst p)).

(** [const promise = f(...)], not awaited: the function is started and the
    promise handed back. *)
Definition start {A} (p : Promise A) : M (Promise A) := (startedEvents p, inr p).

Record S402Context : Type := mkS402Context {
  ctx_owner : string;
  ctx_value : Z;
  ctx_payment : PaymentData;
  ctx_txHash : option string;
  verifiedAsync : option bool;
  verificationPromise : option (Promise VerifyResult)
}.

Record PaymentRequired402 : Type := mkPaymentRequired402 {
  pr_error : string;
  pr_message : string;
  pr_facilitator : string;
  pr_token : string;
  pr_chainId : Z;
  pr_routeKey : string;
  pr_payment : PaymentData;
  pr_domain : EIP712Domain;
  pr_types : list (string * string)
}.

(** *** Zod schemas *)

Definition addressSchema (s : string) : bool := isHexOfLength 40 s.
Definition hex32Schema (s : string) : bool := isHexOfLength 64 s.
Definition txHashSchema (s : string) : bool := isHexOfLength 64 s.

Definition signatureSchema (sg : Signature) : bool :=
  andb (andb (27 <=? sig_v sg) (sig_v sg <=? 28))
       (andb (hex32Schema (sig_r sg)) (hex32Schema (sig_s sg))).

Definition paymentDataSchema (p : PaymentData) : bool :=
  andb (addressSchema (owner p))
  (andb (isDecimalString (value p))
  (andb (0 <? deadline p)
  (andb (addressSchema (recipient p)) (hex32Schema (nonce p))))).

Definition s402ProofSchema (pf : S402Proof) : bool :=
  andb (paymentDataSchema (payment pf))
  (andb (match permitSig pf with Some sg => signatureSchema sg | None => true end)
  (andb (signatureSchema (authSig pf))
        (match txHash pf with Some h => txHashSchema h | None => true end))).

(** The error [schema.parse] throws; its message stands for the JSON list of
    issues Zod renders. *)
Definition zodError : JsError :=
  mkJsError "ZodError" "[zod issues]" None None "ZodError: [zod issues]".

(** [s402ProofSchema.parse]: the proof itself when every field passes. *)
Definition s402ProofSchema_parse (pf : S402Proof) : JsError + S402Proof :=
  if s402ProofSchema pf then inr pf else inl zodError.

(** ** Configuration (server/config/env.ts, server/config/constants.ts) *)

Definition S402_FACILITATOR : string := "0x605c5c8d83152bd98ecAc9B77a845349DA3c48a3".
Definition USD1_TOKEN : string := "0x8d0D000Ee44948FC98c9B98A4FA4921476f08B0d".

(** The validated configuration object; [PRICE_TABLE] is the object that
    [getPriceTable] parses out of [PRICE_TABLE_JSON]. *)
Record Config : Type := mkConfig {
  NODE_ENV : string;
  CHAIN_ID : Z;
  RECIPIENT : string;
  BASE_PRICE_USD1 : string;
  PRICE_TABLE : list (string * string);
  MINIMUM_CONFIRMATIONS : Z
}.

(** ** Collaborators *)

Record Log : Type := mkLog {
  log_topics : list string;
  log_data : string
}.

Record TransactionReceipt : Type := mkTransactionReceipt {
  blockNumber : Z;
  status : option Z;
  receipt_to : option string;
  logs : list Log
}.

Record TransactionResponse : Type := mkTransactionResponse {
  tx_data : string;
  tx_value : Z;
  tx_from : option string
}.

(** The chain client ([ethers.JsonRpcProvider]): each call either rejects or
    answers; a receipt or transaction the node does not know is [None]. *)
Record ChainClient : Type := mkChainClient {
  getTransactionReceipt : string -> JsError + option TransactionReceipt;
  getBlockNumber : JsError + Z;
  getTransaction : string -> JsError + option TransactionResponse
}.

(** The arguments of a decoded event; a name the event does not have reads
    as [undefined] ([None]). *)
Record EventArgs : Type := mkEventArgs {
  arg_from : option string;
  arg_to : option string;
  arg_nonce : option string;
  arg_value : option Z;
  arg_platformFee : option Z
}.

Record LogDescription : Type := mkLogDescription {
  ld_name : string;
  ld_args : EventArgs
}.

(** The payment struct found in decoded call data. *)
Record TxPayment : Type := mkTxPayment {
  tp_owner : option string;
  tp_recipient : option string;
  tp_value : option Z;
  tp_deadline : option Z;
  tp_nonce : option string
}.

(** A decoded call: [args.payment] and [args[0]]. *)
Record TransactionDescription : Type := mkTransactionDescription {
  td_name : string;
  td_args_payment : option TxPayment;
  td_args_0 : option TxPayment
}.

(** The typed-data value handed to [ethers.verifyTypedData]. *)
Record TypedValue : Type := mkTypedValue {
  tv_owner : string;
  tv_spender : string;
  tv_value : string;
  tv_deadline : Z;
  tv_recipient : string;
  tv_nonce : string
}.

(** The ethers library and the facilitator contract's interface (its ABI,
    server/libs/abi/S402Facilitator.json, is not part of the sources, so the
    decoders are taken as given): [Signature.from], [verifyTypedData] (which
    returns the recovered address), [interface.parseLog] and
    [interface.parseTransaction] (which return [null] when nothing in the ABI
    matches). *)
Record Ethers : Type := mkEthers {
  Signature_from : Z -> string -> string -> JsError + Signature;
  verifyTypedData :
    EIP712Domain -> list (string * string) -> TypedValue -> Signature -> JsError + string;
  parseLog : Log -> JsError + option LogDescription;
  parseTransaction : string -> Z -> JsError + option TransactionDescription
}.

(** The body of an inbound request, as far as the middleware reads it. *)
Record Request : Type := mkRequest {
  body_s402Proof : option S402Proof;
  body_owner : option string
}.

Inductive Body : Type :=
| BodyPaymentRequired (r : PaymentRequired402)
| BodyError (error_code : string) (message : string) (details : option string).

(** How a middleware leaves a request: a response is sent, the next handler
    (the protected one) runs with [req.s402] set, or the error is passed on
    with [next(error)]. *)
Inductive Outcome : Type :=
| Respond (status_code : Z) (body : Body)
| Next (s402 : S402Context)
| NextError (e : JsError).

(** ** Helpers for reading decoded values *)

Definition typeError (message : string) : JsError :=
  mkJsError "TypeError" message None None ("TypeError: " ++ message).

(** Reading a property of [undefined] throws. *)
Definition required {A} (what : string) (o : option A) : JsError + A :=
  match o with
  | Some a => inr a
  | None => inl (typeError ("Cannot read properties of undefined (reading '" ++ what ++ "')"))
  end.

Definition ebind {A B} (r : JsError + A) (f : A -> JsError + B) : JsError + B :=
  match r with
  | inl e => inl e
  | inr a => f a
  end.

(** [a.toLowerCase() === b.toLowerCase()]. *)
Definition eqIgnoreCase (a b : string) : bool :=
  String.eqb (toLowerCase a) (toLowerCase b).

(** [a?.toLowerCase() === b.toLowerCase()]: [undefined] equals no string. *)
Definition eqIgnoreCaseOpt (a : option string) (b : string) : bool :=
  match a with
  | Some a' => eqIgnoreCase a' b
  | None => false
  end.

(** [a === b] for a possibly undefined [a] and a string [b]. *)
Definition strictEqOpt (a : option string) (b : string) : bool :=
  match a with
  | Some a' => String.eqb a' b
  | None => false
  end.

(** [a?.toString() === b] for a possibly undefined integer [a]. *)
Definition toStringEqOpt (a : option Z) (b : string) : bool :=
  match a with
  | Some z => String.eqb (toString z) b
  | None => false
  end.

(** Truthiness of an optional string: [undefined] and the empty string are falsy. *)
Definition truthy (o : option string) : bool :=
  match o with
  | Some s => negb (String.eqb s "")
  | None => false
  end.

(** ** Pricing (server/services/pricingService.ts) *)

(** An object's own property of the given name. *)
Fixpoint lookup (key : string) (table : list (string * string)) : option string :=
  match table with
  | [] => None
  | (k, v) :: rest => if String.eqb k key then Some v else lookup key rest
  end.

(** What every plain object inherits from [Object.prototype]: eleven
    functions and the accessor [__proto__], each written as the text it
    converts to (a function or object is truthy as this text is, and
    [BigInt] of it is [BigInt] of this text). *)
Definition objectPrototype : list (string * string) :=
  [ ("constructor", "function Object() { [native code] }");
    ("__defineGetter__", "function __defineGetter__() { [native code] }");
    ("__defineSetter__", "function __defineSetter__() { [native code] }");
    ("hasOwnProperty", "function hasOwnProperty() { [native code] }");
    ("__lookupGetter__", "function __lookupGetter__() { [native code] }");
    ("__lookupSetter__", "function __lookupSetter__() { [native code] }");
    ("isPrototypeOf", "function isPrototypeOf() { [native code] }");
    ("propertyIsEnumerable", "function propertyIsEnumerable() { [native code] }");
    ("toString", "function toString() { [native code] }");
    ("valueOf", "function valueOf() { [native code] }");
    ("__proto__", "[object Object]");
    ("toLocaleString", "function toLocaleString() { [native code] }") ].

(** [object[key]] on a plain object: its own property, else the inherited
    one. *)
Definition getProperty (key : string) (table : list (string * string)) : option string :=
  match lookup key table with
  | Some v => Some v
  | None => lookup key objectPrototype
  end.

Section Services.

Variable cfg : Config.
Variable eth : Ethers.
Variable chain : ChainClient.
(** [Date.now()], in milliseconds. *)
Variable dateNow : Z.
(** The operating system's random generator behind [crypto.randomBytes]:
    the bytes it hands out, in order. *)
Variable entropy : nat -> Byte.byte.
(** [process.env]: the variables of the server's environment. *)
Variable processEnv : string -> option string.

Definition getChainId : Z := CHAIN_ID cfg.

Definition getMinimumConfirmations : Z := MINIMUM_CONFIRMATIONS cfg.

Definition getPriceForRoute (routeKey : string) : M Z :=
  if truthy (getProperty routeKey (PRICE_TABLE cfg)) then
    price <- lift (BigInt (match getProperty routeKey (PRICE_TABLE cfg) with
                           | Some v => v
                           | None => EmptyString
                           end)) ;;
    log Debug "Route-specific price" ;;;
    ret price
  else
    basePrice <- lift (BigInt (BASE_PRICE_USD1 cfg)) ;;
    log Debug "Using base price" ;;;
    ret basePrice.

Definition getRecipientForRoute (routeKey : string) : string := RECIPIENT cfg.

(** ** Settlement verifier (server/services/blockchainService.ts) *)

Definition callGetTransactionReceipt (h : string) : M (option TransactionReceipt) :=
  ([EvGetTransactionReceipt h], getTransactionReceipt chain h).

Definition callGetBlockNumber : M Z := ([EvGetBlockNumber], getBlockNumber chain).

Definition callGetTransaction (h : string) : M (option TransactionResponse) :=
  ([EvGetTransaction h], getTransaction chain h).

(** The comparison made on a decoded [PaymentSettled] event; reading a
    missing argument or converting a malformed amount throws. *)
Definition paymentSettledMatches (args : EventArgs) (payment : PaymentData)
  : JsError + bool :=
  ebind (required "toLowerCase" (arg_from args)) (fun from =>
  let fromMatches := eqIgnoreCase from (owner payment) in
  ebind (required "toLowerCase" (arg_to args)) (fun to =>
  let toMatches := eqIgnoreCase to (recipient payment) in
  let nonceMatches := strictEqOpt (arg_nonce args) (nonce payment) in
  ebind (required "toString" (arg_value args)) (fun eventValue =>
  let platformFee :=
    match arg_platformFee args with
    | Some fee => if fee =? 0 then 0 else fee
    | None => 0
    end in
  let totalSettled := eventValue + platformFee in
  ebind (BigInt (value payment)) (fun expectedValue =>
  let valueMatches := orb (eventValue =? expectedValue) (totalSettled =? expectedValue) in
  inr (andb (andb fromMatches toMatches) (andb nonceMatches valueMatches)))))).

(** One turn of the loop over [receipt.logs]: whatever is thrown while a log
    is parsed or compared is swallowed and the log skipped. *)
Definition logMatches (payment : PaymentData) (l : Log) : bool :=
  match parseLog eth l with
  | inr (Some parsed) =>
      if String.eqb (ld_name parsed) "PaymentSettled" then
        match paymentSettledMatches (ld_args parsed) payment with
        | inr b => b
        | inl _ => false
        end
      else false
  | inr None => false
  | inl _ => false
  end.

(** The loop: [matchedEvent] after it, the scan stopping at the first match. *)
Fixpoint matchedEvent (payment : PaymentData) (ls : list Log) : bool :=
  match ls with
  | [] => false
  | l :: rest => if logMatches payment l then true else matchedEvent payment rest
  end.

(** [parsedTx.args?.payment ?? parsedTx.args?.[0]]. *)
Definition txPaymentOf (parsedTx : TransactionDescription) : option TxPayment :=
  match td_args_payment parsedTx with
  | Some p => Some p
  | None => td_args_0 parsedTx
  end.

(** [Object.values(calldataMatches).every(Boolean)]; [txPayment.deadline] is
    a [bigint], [payment.deadline] a [number], and the two are compared
    through their renderings. *)
Definition calldataMatches (txPayment : TxPayment) (tx : TransactionResponse)
    (payment : PaymentData) : bool :=
  forallb (fun b : bool => b)
    [ eqIgnoreCaseOpt (tp_owner txPayment) (owner payment);
      eqIgnoreCaseOpt (tp_recipient txPayment) (recipient payment);
      toStringEqOpt (tp_value txPayment) (value payment);
      toStringEqOpt (tp_deadline txPayment) (Number_toString (deadline payment));
      strictEqOpt (tp_nonce txPayment) (nonce payment);
      eqIgnoreCaseOpt (tx_from tx) (owner payment) ].

Definition isSettlementFunction (name : string) : bool :=
  orb (String.eqb name "settlePayment") (String.eqb name "settlePaymentWithPermit").

(** The fallback on the call data, entered after the log scan found nothing. *)
Definition verifyViaCalldata (h : string) (payment : PaymentData) (confirmations : Z)
  : M VerifyResult :=
  log Warn "No PaymentSettled event found, verifying via calldata" ;;;
  tx <- callGetTransaction h ;;
  match tx with
  | None =>
      log Error "Unable to fetch transaction data for settlement verification" ;;;
      ret (mkVerifyResult false confirmations (Some "Transaction data unavailable"))
  | Some tx =>
      match parseTransaction eth (tx_data tx) (tx_value tx) with
      | inl _ =>
          log Error "Failed to parse transaction calldata" ;;;
          ret (mkVerifyResult false confirmations (Some "Unable to parse transaction calldata"))
      | inr parsedTx =>
          match parsedTx with
          | Some parsed =>
              if isSettlementFunction (td_name parsed) then
                match txPaymentOf parsed with
                | None =>
                    log Error "Parsed transaction missing payment args" ;;;
                    ret (mkVerifyResult false confirmations (Some "Missing payment arguments"))
                | Some txPayment =>
                    if calldataMatches txPayment tx payment then
                      log Info "Transaction verified successfully via calldata inspection" ;;;
                      ret (mkVerifyResult true confirmations None)
                    else
                      log Warn "Transaction calldata does not match expected payment" ;;;
                      ret (mkVerifyResult false confirmations (Some "Payment parameters mismatch"))
                end
              else
                log Warn "Transaction did not call a settlement function" ;;;
                ret (mkVerifyResult false confirmations (Some "Unexpected function call"))
          | None =>
              log Warn "Transaction did not call a settlement function" ;;;
              ret (mkVerifyResult false confirmations (Some "Unexpected function call"))
          end
      end
  end.

(** The body of the [try] block of [verifyTransactionSettlement]. *)
Definition verifyTransactionSettlement_try (h : string) (payment : PaymentData)
  : M VerifyResult :=
  let minimumConfirmations := getMinimumConfirmations in
  receipt <- callGetTransactionReceipt h ;;
  match receipt with
  | None =>
      log Warn "Transaction not found on-chain" ;;;
      ret (mkVerifyResult false 0 (Some "Transaction not found"))
  | Some receipt =>
      currentBlock <- callGetBlockNumber ;;
      let confirmations := currentBlock - blockNumber receipt + 1 in
      log Debug "Checking transaction confirmations" ;;;
      if confirmations <? minimumConfirmations then
        log Warn "Insufficient confirmations" ;;;
        ret (mkVerifyResult false confirmations
               (Some ("Insufficient confirmations: " ++ toString confirmations
                      ++ "/" ++ toString minimumConfirmations)))
      else if negb (match status receipt with Some st => st =? 1 | None => false end) then
        log Warn "Transaction failed on-chain" ;;;
        ret (mkVerifyResult false confirmations (Some "Transaction failed"))
      else if negb (eqIgnoreCaseOpt (receipt_to receipt) S402_FACILITATOR) then
        log Warn "Transaction did not call S402Facilitator contract" ;;;
        ret (mkVerifyResult false confirmations (Some "Wrong contract called"))
      else if matchedEvent payment (logs receipt) then
        log Info "Transaction verified successfully via PaymentSettled event" ;;;
        ret (mkVerifyResult true confirmations None)
      else
        verifyViaCalldata h payment confirmations
  end.

(** What the [catch] of [verifyTransactionSettlement] returns. *)
Definition verificationFailed : VerifyResult :=
  mkVerifyResult false 0 (Some "Verification failed").

Definition verifyTransactionSettlement (h : string) (payment : PaymentData)
  : M VerifyResult :=
  tryCatch (verifyTransactionSettlement_try h payment)
    (fun _ => log Error "Failed to verify transaction" ;;; ret verificationFailed).

(** ** Challenge builder and proof validators (server/services/s402Service.ts) *)

Definition buildEIP712Domain : EIP712Domain :=
  mkEIP712Domain "S402Facilitator" "1" getChainId S402_FACILITATOR.

(** [crypto.randomBytes(n)]: the next [n] bytes of the generator. *)
Definition randomBytes (n : nat) : list Byte.byte := map entropy (seq 0 n).

(** server/utils/crypto.ts *)
Definition generateNonce : string := "0x" ++ toHex (randomBytes 32).

Definition ZERO_ADDRESS : string := "0x0000000000000000000000000000000000000000".

Definition buildPaymentRequest (routeKey : string) (price : Z) (recipient' : string)
    (owner' : option string) : M (PaymentData * EIP712Domain * list (string * string)) :=
  let deadline' := dateNow / 1000 + 600 in
  let nonce' := generateNonce in
  let payment' :=
    mkPaymentData (if truthy owner'
                   then match owner' with Some o => o | None => ZERO_ADDRESS end
                   else ZERO_ADDRESS)
                  (toString price) deadline' recipient' nonce' in
  let domain := buildEIP712Domain in
  log Debug "Built payment request" ;;;
  ret (payment', domain, PAYMENT_AUTHORIZATION_TYPES).

(** The typed-data value [verifyEIP712Signature] rebuilds from a payment. *)
Definition typedValueOf (payment : PaymentData) : TypedValue :=
  mkTypedValue (owner payment) S402_FACILITATOR (value payment) (deadline payment)
               (recipient payment) (nonce payment).

Definition verifyEIP712Signature (payment : PaymentData) (authSig' : Signature)
    (domain : EIP712Domain) : M bool :=
  tryCatch
    (signature <- lift (Signature_from eth (sig_v authSig') (sig_r authSig') (sig_s authSig')) ;;
     recoveredAddress <-
       lift (verifyTypedData eth domain PAYMENT_AUTHORIZATION_TYPES
               (typedValueOf payment) signature) ;;
     let isValid := eqIgnoreCase recoveredAddress (owner payment) in
     (if negb isValid
      then log Warn "EIP-712 signature verification failed: signer mismatch"
      else log Debug "EIP-712 signature verified successfully") ;;;
     ret isValid)
    (fun _ => log Error "EIP-712 signature verification error" ;;; ret false).

(** The parameter checks both validators start with: the list [errors] once
    every check has run. *)
Definition parameterErrors (proof : S402Proof) (expectedPrice : Z)
    (expectedRecipient : string) : list string :=
  let chainId := getChainId in
  let now := dateNow / 1000 in
  List.concat
    [ if negb (truthy (txHash proof))
      then ["Transaction hash is required for verification"] else [];
      if negb (String.eqb (value (payment proof)) (toString expectedPrice))
      then ["Invalid payment value: expected " ++ toString expectedPrice
            ++ ", got " ++ value (payment proof)] else [];
      if negb (eqIgnoreCase (recipient (payment proof)) expectedRecipient)
      then ["Invalid recipient: expected " ++ expectedRecipient
            ++ ", got " ++ recipient (payment proof)] else [];
      if deadline (payment proof) <=? now
      then ["Payment deadline expired: " ++ toString (deadline (payment proof))
            ++ " <= " ++ toString now] else [];
      if negb (chainId =? 56)
      then ["Invalid chain ID: expected 56, configured as " ++ toString chainId] else [] ].

(** The text [validateSubmittedProof] and [validateSubmittedProofAsync] have
    in common, line for line, up to the start of the on-chain check:
    parameter checks, then the signature check. *)
Definition validateParametersAndSignature (proof : S402Proof) (expectedPrice : Z)
    (expectedRecipient : string) : M unit :=
  let errors := parameterErrors proof expectedPrice expectedRecipient in
  (if (0 <? Z.of_nat (List.length errors))
   then log Warn "Proof validation failed" ;;;
        throw (newError ("Proof validation failed: " ++ join ", " errors))
   else ret tt) ;;;
  let domain := buildEIP712Domain in
  signatureValid <- verifyEIP712Signature (payment proof) (authSig proof) domain ;;
  (if negb signatureValid
   then log Error "Invalid EIP-712 signature - rejecting proof" ;;;
        throw (newError "Invalid signature: EIP-712 signature verification failed")
   else ret tt) ;;;
  log Debug "EIP-712 signature verified".

(** [proof.txHash!]: the hash, present once the parameter checks have passed. *)
Definition txHashOf (proof : S402Proof) : string :=
  match txHash proof with
  | Some h => h
  | None => EmptyString
  end.

(** The template literal's rendering of [verification.error]. *)
Definition renderError (e : option string) : string :=
  match e with
  | Some s => s
  | None => "undefined"
  end.

Definition validateSubmittedProof (proof : S402Proof) (expectedPrice : Z)
    (expectedRecipient : string) : M S402Context :=
  validateParametersAndSignature proof expectedPrice expectedRecipient ;;;
  log Debug "Verifying transaction on-chain..." ;;;
  verification <- verifyTransactionSettlement (txHashOf proof) (payment proof) ;;
  (if negb (verified verification)
   then log Error "Transaction verification failed" ;;;
        throw (newError ("Transaction verification failed: "
                         ++ renderError (error verification)))
   else ret tt) ;;;
  log Info "Payment proof validated successfully with on-chain transaction verification" ;;;
  value' <- lift (BigInt (value (payment proof))) ;;
  ret (mkS402Context (owner (payment proof)) value' (payment proof) (txHash proof)
         None None).

(** The verifier is started, not awaited: its events up to its first
    [await] happen here.  ([BigInt] below does not throw: the value has
    passed the comparison with the rendering of the price.) *)
Definition validateSubmittedProofAsync (proof : S402Proof) (expectedPrice : Z)
    (expectedRecipient : string) : M S402Context :=
  validateParametersAndSignature proof expectedPrice expectedRecipient ;;;
  verificationPromise' <-
    start (verifyTransactionSettlement (txHashOf proof) (payment proof)) ;;
  value' <- lift (BigInt (value (payment proof))) ;;
  ret (mkS402Context (owner (payment proof)) value' (payment proof) (txHash proof)
         (Some true) (Some verificationPromise')).

(** ** Responses (server/utils/http.ts) *)

Definition buildPaymentRequired (facilitator token : string) (chainId : Z)
    (routeKey : string) (payment' : PaymentData) (domain : EIP712Domain)
  : PaymentRequired402 :=
  mkPaymentRequired402 "PAYMENT_REQUIRED" "Payment required via S402."
    facilitator token chainId routeKey payment' domain PAYMENT_AUTHORIZATION_TYPES.

Definition errorResponse (error' message : string) (details : option string) : Body :=
  BodyError error' message details.

(** ** Gating middleware (server/middleware/s402Middleware.ts) *)

(** The branch taken when the request carries no proof; the same text in
    both middlewares. *)
Definition paymentRequired (routeKey : string) (req : Request) (chainId price : Z)
    (recipient' : string) : M Outcome :=
  let owner' := if truthy (body_owner req) then body_owner req else None in
  built <- buildPaymentRequest routeKey price recipient' owner' ;;
  let '(payment', domain, _) := built in
  let response :=
    buildPaymentRequired S402_FACILITATOR USD1_TOKEN chainId routeKey payment' domain in
  log Info "Returning 402 Payment Required" ;;;
  ret (Respond 402 (BodyPaymentRequired response)).

(** The [catch] block; the same text in both middlewares but for the line
    logged. *)
Definition onVerificationError (logged : string) (error' : JsError) : list Event * Outcome :=
  ([EvLog Error logged],
   if orb (includes "validation failed" (err_message error'))
          (orb (includes "not settled" (err_message error'))
               (includes "Invalid signature" (err_message error')))
   then Respond 403
          (BodyError "PAYMENT_VERIFICATION_FAILED" (err_message error')
             (Some "Either the signature is invalid, payment parameters are incorrect, or the payment was not settled on-chain."))
   else if String.eqb (err_name error') "ZodError"
   then Respond 400
          (BodyError "INVALID_PROOF_FORMAT" "S402 proof has invalid format"
             (Some (err_message error')))
   else NextError error').

(** Runs a [try] block whose [catch] always ends the middleware. *)
Definition settle (m : M Outcome) (handler : JsError -> list Event * Outcome)
  : list Event * Outcome :=
  match m with
  | (t, inr o) => (t, o)
  | (t, inl e) => let (t', o) := handler e in ((t ++ t')%list, o)
  end.

(** Synchronous discipline. *)
Definition requireS402 (routeKey : string) (req : Request) : list Event * Outcome :=
  settle
    (let chainId := getChainId in
     price <- getPriceForRoute routeKey ;;
     let recipient' := getRecipientForRoute routeKey in
     log Debug "S402 middleware invoked" ;;;
     match body_s402Proof req with
     | None => paymentRequired routeKey req chainId price recipient'
     | Some proof =>
         validatedProof <- lift (s402ProofSchema_parse proof) ;;
         log Info "S402 proof submitted - beginning validation" ;;;
         context <- validateSubmittedProof validatedProof price recipient' ;;
         log Info "✅ Payment VERIFIED (signature + on-chain) - granting API access" ;;;
         ret (Next context)
     end)
    (onVerificationError "❌ S402 verification failed").

(** What happens after the middleware has handed over: the rest of the
    verification that was started, then the line the callbacks attached to
    [context.verificationPromise] log once the promise settles. *)
Definition backgroundVerification (context : S402Context) : list Event :=
  match verificationPromise context with
  | None => []
  | Some promise =>
      pendingEvents promise
      ++ [ match snd promise with
           | inr result =>
               if verified result
               then EvLog Info "✅ Background blockchain verification completed successfully"
               else EvLog Warn "⚠️ Background blockchain verification failed (API access already granted)"
           | inl _ =>
               EvLog Warn "⚠️ Background blockchain verification error (API access already granted)"
           end ]
  end%list.

(** Asynchronous discipline: the events up to the moment the middleware
    returns (the start of the verification among them), how it leaves the
    request, and the events of the detached verification that follow. *)
Definition requireS402Async (routeKey : string) (req : Request)
  : list Event * Outcome * list Event :=
  let '(t, o) :=
    settle
      (let chainId := getChainId in
       price <- getPriceForRoute routeKey ;;
       let recipient' := getRecipientForRoute routeKey in
       log Debug "S402 async middleware invoked" ;;;
       match body_s402Proof req with
       | None => paymentRequired routeKey req chainId price recipient'
       | Some proof =>
           validatedProof <- lift (s402ProofSchema_parse proof) ;;
           log Info "S402 proof submitted - beginning async validation" ;;;
           context <- validateSubmittedProofAsync validatedProof price recipient' ;;
           log Info "✅ Payment ACCEPTED (signature verified, blockchain verification in background) - granting API access" ;;;
           ret (Next context)
       end)
      (onVerificationError "❌ S402 async verification failed") in
  (t, o, match o with
         | Next context => backgroundVerification context
         | _ => []
         end).

(** ** Global error handler (server/middleware/errorHandler.ts) *)

(** [err instanceof ZodError] is read off the error's name; a status of 0,
    like a missing one, is falsy.  Whether the stack is disclosed is read
    from the environment variable NODE_ENV, not from the configuration. *)
Definition errorHandler (err : JsError) : list Event * Outcome :=
  ([EvLog Error "Request error"],
   if String.eqb (err_name err) "ZodError" then
     Respond 400 (errorResponse "VALIDATION_ERROR" "Invalid request data"
                    (Some (err_message err)))
   else
     match err_status err with
     | Some st =>
         if st =? 0 then
           Respond 500 (errorResponse "INTERNAL_ERROR" "An internal server error occurred"
                          (if strictEqOpt (processEnv "NODE_ENV") "development"
                           then Some (err_stack err) else None))
         else
           Respond st (errorResponse (if truthy (err_code err)
                                      then match err_code err with
                                           | Some c => c
                                           | None => "ERROR"
                                           end
                                      else "ERROR")
                                     (err_message err) None)
     | None =>
         Respond 500 (errorResponse "INTERNAL_ERROR" "An internal server error occurred"
                        (if strictEqOpt (processEnv "NODE_ENV") "development"
                         then Some (err_stack err) else None))
     end).

(** A gated route as server/routes.ts mounts it: the middleware, then, for
    an error passed to [next], the error handler registered last. *)
Definition gatedRoute (routeKey : string) (req : Request) : list Event * Outcome :=
  let (t, o) := requireS402 routeKey req in
  match o with
  | NextError e => let (t', o') := errorHandler e in ((t ++ t')%list, o')
  | _ => (t, o)
  end.

End Services.

(** ** A concrete deployment, used to exercise the definitions *)

Module Demo.

Definition cfg : Config :=
  mkConfig "production" 56 "0x0000000000000000000000000000000000000002"
           "1000000000000000" [("tool.analytics", "2000000000000000")] 2.

Definition alice : string := "0x1111111111111111111111111111111111111111".
Definition bob : string := "0x0000000000000000000000000000000000000002".
Definition nonce1 : string :=
  "0xaaaaaaaaaaaaaaaaaaaaaaaaaaaaaaaaaaaaaaaaaaaaaaaaaaaaaaaaaaaaaaaa".
Definition hash1 : string :=
  "0x4242424242424242424242424242424242424242424242424242424242424242".
Definition goodR : string :=
  "0x1111111111111111111111111111111111111111111111111111111111111111".
Definition someS : string :=
  "0x2222222222222222222222222222222222222222222222222222222222222222".

Definition pay : PaymentData := mkPaymentData alice "1000000000000000" 2000000600 bob nonce1.

Definition proof : S402Proof :=
  mkS402Proof pay None (mkSignature 27 goodR someS) (Some hash1).

(** The same proof with the amount written with a leading zero. *)
Definition proofLeadingZero : S402Proof :=
  mkS402Proof (mkPaymentData alice "01000000000000000" 2000000600 bob nonce1)
              None (mkSignature 27 goodR someS) (Some hash1).


(** A stand-in for the ethers library: a signature whose [r] is [goodR]
    recovers to the owner named in the typed data, any other to the spender;
    a recovery id other than 27 or 28 is refused; a log whose data is
    ["settled"] decodes to the event that settles [pay], call data
    ["settlePayment"] to the call that settles it, ["pause"] to another
    function of the contract, ["garbage"] makes the decoder throw. *)
Definition ethers : Ethers :=
  mkEthers
    (fun v r s =>
       if andb (27 <=? v) (v <=? 28) then inr (mkSignature v r s)
       else inl (newError "invalid signature"))
    (fun _ _ tv sg =>
       if String.eqb (sig_r sg) goodR then inr (tv_owner tv) else inr (tv_spender tv))
    (fun l =>
       if String.eqb (log_data l) "settled"
       then inr (Some (mkLogDescription "PaymentSettled"
                         (mkEventArgs (Some alice) (Some bob) (Some nonce1)
                                      (Some 1000000000000000) (Some 0))))
       else inr None)
    (fun data _ =>
       if String.eqb data "settlePayment"
       then inr (Some (mkTransactionDescription "settlePayment"
                         (Some (mkTxPayment (Some alice) (Some bob) (Some 1000000000000000)
                                            (Some 2000000600) (Some nonce1)))
                         None))
       else if String.eqb data "pause"
       then inr (Some (mkTransactionDescription "pause" None None))
       else if String.eqb data "garbage"
       then inl (newError "could not decode")
       else inr None).

Definition receiptWith (ls : list Log) : TransactionReceipt :=
  mkTransactionReceipt 100 (Some 1) (Some S402_FACILITATOR) ls.

(** A chain whose head is at block [head] and which knows one transaction,
    [hash1], mined in block 100 with the given logs and call data. *)
Definition chainAt (head : Z) (ls : list Log) (data : string) : ChainClient :=
  mkChainClient
    (fun h => if String.eqb h hash1 then inr (Some (receiptWith ls)) else inr None)
    (inr head)
    (fun h => if String.eqb h hash1
              then inr (Some (mkTransactionResponse data 0 (Some alice)))
              else inr None).

(** A chain client whose every call is rejected. *)
Definition chainDown : ChainClient :=
  mkChainClient (fun _ => inl (newError "network error"))
                (inl (newError "network error"))
                (fun _ => inl (newError "network error")).

Definition settledLog : Log := mkLog [] "settled".

(** One second before the deadline of [pay]. *)
Definition now : Z := 2000000599000.

Definition entropy (i : nat) : Byte.byte :=
  match Byte.of_nat i with
  | Some b => b
  | None => Byte.x00
  end.

(** An environment that sets NODE_ENV to "production" and nothing else. *)
Definition processEnv (name : string) : option string :=
  if String.eqb name "NODE_ENV" then Some "production" else None.

Definition requestWith (pf : S402Proof) : Request := mkRequest (Some pf) None.

Definition requestWithoutProof : Request := mkRequest None None.

End Demo.

(** * The rest of the server *)

(** ** The optional middleware (server/middleware/s402Middleware.ts) *)

Section OptionalGating.

Variable cfg : Config.
Variable eth : Ethers.
Variable chain : ChainClient.
Variable dateNow : Z.

(** [optionalS402] always calls [next()]; what it leaves behind is
    [req.s402], set or not. *)
Definition optionalS402 (routeKey : string) (req : Request)
  : list Event * option S402Context :=
  match
    (match body_s402Proof req with
     | Some proof =>
         validatedProof <- lift (s402ProofSchema_parse proof) ;;
         price <- getPriceForRoute cfg routeKey ;;
         let recipient' := getRecipientForRoute cfg routeKey in
         context <- validateSubmittedProof cfg eth chain dateNow validatedProof
                      price recipient' ;;
         ret (Some context)
     | None => ret None
     end)
  with
  | (t, inr s402) => (t, s402)
  | (t, inl _) =>
      ((t ++ [EvLog Warn "Optional S402 validation failed, proceeding anyway"])%list, None)
  end.

End OptionalGating.

(** ** More of pricing (server/services/pricingService.ts) *)

(** [{ ...table, key: v }]: the key keeps its place when the table has it,
    and comes last otherwise. *)
Fixpoint setKey (key v : string) (table : list (string * string))
  : list (string * string) :=
  match table with
  | [] => [(key, v)]
  | (k, w) :: rest =>
      if String.eqb k key then (k, v) :: rest else (k, w) :: setKey key v rest
  end.

Definition getAllRoutePrices (cfg : Config) : list (string * string) :=
  setKey "_base" (BASE_PRICE_USD1 cfg) (PRICE_TABLE cfg).

Definition validatePrice (value' : string) (expectedPrice : Z) : bool :=
  match BigInt value' with
  | inr providedPrice => providedPrice =? expectedPrice
  | inl _ => false
  end.

(** ** Formatting (server/utils/formatting.ts) *)

Definition bigintToString (value' : Z) : string := toString value'.

Definition stringToBigint (value' : string) : JsError + Z :=
  if negb (isDecimalString value')
  then inl (newError ("Invalid decimal string: " ++ value'))
  else BigInt value'.

Definition normalizeAddress (address : string) : string := toLowerCase address.

(** ** Hex helpers (server/utils/crypto.ts) *)

Definition ensureHexPrefix (hex : string) : string :=
  if prefix "0x" hex then hex else "0x" ++ hex.

(** [s.slice(2)]. *)
Definition slice2 (s : string) : string :=
  match s with
  | String _ (String _ t) => t
  | _ => EmptyString
  end.

(** [bytes] is the optional second argument; like [undefined], 0 is falsy
    and switches the length check off. *)
Definition isValidHex (hex : string) (bytes : option Z) : bool :=
  if negb (prefix "0x" hex) then false
  else
    let hexDigits := slice2 hex in
    if match bytes with
       | Some b => andb (negb (b =? 0))
                        (negb (Z.of_nat (String.length hexDigits) =? b * 2))
       | None => false
       end
    then false
    else match hexDigits with
         | EmptyString => false
         | _ => allChars isHexDigit hexDigits
         end.

(** * The client (server/sdk/payments.ts, server/sdk/client.ts) *)

Module Sdk.

(** ** Typed data (server/sdk/payments.ts) *)

Record AuthTypedData : Type := mkAuthTypedData {
  atd_domain : EIP712Domain;
  atd_types : list (string * string);
  atd_primaryType : string;
  atd_message : TypedValue
}.

Definition buildAuthTypedData (domain : EIP712Domain) (payment' : PaymentData)
  : AuthTypedData :=
  mkAuthTypedData domain PAYMENT_AUTHORIZATION_TYPES "PaymentAuthorization"
    (mkTypedValue (owner payment') (verifyingContract domain) (value payment')
                  (deadline payment') (recipient payment') (nonce payment')).

Record PermitMessage : Type := mkPermitMessage {
  pm_owner : string;
  pm_spender : string;
  pm_value : string;
  pm_nonce : Z;
  pm_deadline : Z
}.

Record PermitTypedData : Type := mkPermitTypedData {
  ptd_domain : EIP712Domain;
  ptd_types : list (string * string);
  ptd_primaryType : string;
  ptd_message : PermitMessage
}.

Definition PERMIT_TYPES : list (string * string) :=
  [ ("owner", "address"); ("spender", "address"); ("value", "uint256");
    ("nonce", "uint256"); ("deadline", "uint256") ].

(** The last parameter is [nonce: number = 0]. *)
Definition buildPermitTypedData (tokenAddress : string) (chainId : Z)
    (owner' spender : string) (value' : string) (deadline' : Z) (nonce' : option Z)
  : PermitTypedData :=
  mkPermitTypedData (mkEIP712Domain "USD1" "1" chainId tokenAddress) PERMIT_TYPES "Permit"
    (mkPermitMessage owner' spender value'
       (match nonce' with Some n => n | None => 0 end) deadline').

(** ** What the client talks to *)

(** A JSON body as far as the client reads it: a 402 challenge, an object
    with an optional [message], or anything else, kept as text. *)
Inductive Json : Type :=
| JPaymentRequired (challenge : PaymentRequired402)
| JMessage (message : option string)
| JValue (text : string).

Record HttpResponse : Type := mkHttpResponse {
  resp_status : Z;
  resp_statusText : string;
  resp_json : JsError + Json
}.

(** [response.ok]. *)
Definition resp_ok (r : HttpResponse) : bool :=
  andb (200 <=? resp_status r) (resp_status r <=? 299).

(** The body handed to [fetch]: the caller's text as it is, or the caller's
    object with the proof added. *)
Inductive FetchBody : Type :=
| NoBody
| RawBody (text : string)
| BodyWithProof (object : string) (proof : S402Proof).

(** A submitted transaction: its hash, and what [tx.wait(1)] resolves to
    (the hash in the receipt). *)
Record SentTransaction : Type := mkSentTransaction {
  sent_hash : string;
  sent_wait : JsError + string
}.

(** The collaborators of the client: [fetch], [JSON.parse], the signer, the
    splitting of a signature ([ethers.Signature.from]), the token's
    allowance and the two settlement calls of the facilitator contract. *)
Record ClientWorld : Type := mkClientWorld {
  fetch : string -> FetchBody -> JsError + HttpResponse;
  jsonParse : string -> JsError + string;
  getAddress : JsError + string;
  signAuth : EIP712Domain -> list (string * string) -> TypedValue -> JsError + string;
  signPermitData :
    EIP712Domain -> list (string * string) -> PermitMessage -> JsError + string;
  splitSignature : string -> JsError + Signature;
  allowance : string -> string -> string -> JsError + Z;
  settlePayment : PaymentData -> Signature -> JsError + SentTransaction;
  settlePaymentWithPermit :
    PaymentData -> Signature -> Signature -> JsError + SentTransaction
}.

Inductive ClientEvent : Type :=
| CFetch (url : string) (body : FetchBody)
| CGetAddress
| CSignAuth (data : AuthTypedData)
| CSignPermit (data : PermitTypedData)
| CAllowance (token owner' spender : string)
| CSettlePayment (payment' : PaymentData) (authSig' : Signature)
| CSettlePaymentWithPermit (payment' : PaymentData) (permitSig' authSig' : Signature)
| CWait (hash : string)
| CLog (line : string).

(** A run of the client ends with a thrown error or a value, or is still
    going when the steps allowed are used up. *)
Inductive Run (A : Type) : Type :=
| Finished (r : JsError + A)
| Unfinished.

Arguments Finished {A} r.
Arguments Unfinished {A}.

Definition C (A : Type) : Type := (list ClientEvent * Run A)%type.

Definition cret {A} (a : A) : C A := ([], Finished (inr a)).

Definition cthrow {A} (e : JsError) : C A := ([], Finished (inl e)).

Definition cbind {A B} (m : C A) (f : A -> C B) : C B :=
  match m with
  | (t, Finished (inr a)) => let (t', r) := f a in ((t ++ t')%list, r)
  | (t, Finished (inl e)) => (t, Finished (inl e))
  | (t, Unfinished) => (t, Unfinished)
  end.

(** A call to a collaborator, recorded. *)
Definition call {A} (ev : ClientEvent) (r : JsError + A) : C A := ([ev], Finished r).

Definition consoleLog (line : string) : C unit := ([CLog line], Finished (inr tt)).

Declare Scope client_scope.
Delimit Scope client_scope with client.
Notation "x <~ m ;; k" := (cbind m (fun x => k))
  (at level 61, m at next level, right associativity) : client_scope.
Notation "m ;;~ k" := (cbind m (fun _ => k))
  (at level 61, right associativity) : client_scope.
Local Open Scope client_scope.

(** ** The client object (server/sdk/client.ts) *)

Definition BNB_CHAIN_ID : Z := 56.

Record S402ClientOptions : Type := mkS402ClientOptions {
  opt_baseUrl : string;
  opt_facilitator : option string;
  opt_token : option string;
  opt_chainId : option Z;
  opt_maxRetries : option Z;
  opt_autoSettle : option bool;
  opt_asyncMode : option bool
}.

Record S402Client : Type := mkS402Client {
  baseUrl : string;
  facilitator : string;
  token : string;
  chainId : Z;
  maxRetries : Z;
  autoSettle : bool;
  asyncMode : bool
}.

(** [s.replace(/\/$/, "")]: one trailing slash removed. *)
Fixpoint dropTrailingSlash (s : string) : string :=
  match s with
  | EmptyString => EmptyString
  | String c EmptyString => if Ascii.eqb c "/" then EmptyString else s
  | String c t => String c (dropTrailingSlash t)
  end.

(** The constructor: [||] replaces a missing, empty or zero option by the
    default, [??] only a missing one. *)
Definition newS402Client (options : S402ClientOptions) : S402Client :=
  mkS402Client
    (dropTrailingSlash (opt_baseUrl options))
    (if truthy (opt_facilitator options)
     then match opt_facilitator options with Some a => a | None => S402_FACILITATOR end
     else S402_FACILITATOR)
    (if truthy (opt_token options)
     then match opt_token options with Some a => a | None => USD1_TOKEN end
     else USD1_TOKEN)
    (match opt_chainId options with
     | Some n => if n =? 0 then BNB_CHAIN_ID else n
     | None => BNB_CHAIN_ID
     end)
    (match opt_maxRetries options with
     | Some n => if n =? 0 then 3 else n
     | None => 3
     end)
    (match opt_autoSettle options with Some b => b | None => true end)
    (match opt_asyncMode options with Some b => b | None => false end).

Section Client.

Variable world : ClientWorld.
Variable client : S402Client.

Definition signPaymentAuth (domain : EIP712Domain) (payment' : PaymentData)
  : C Signature :=
  let typedData := buildAuthTypedData domain payment' in
  signature <~ call (CSignAuth typedData)
                 (signAuth world (atd_domain typedData) (atd_types typedData)
                    (atd_message typedData)) ;;
  sig <~ ([], Finished (splitSignature world signature)) ;;
  cret (mkSignature (sig_v sig) (sig_r sig) (sig_s sig)).

Definition signPermit (tokenAddress : string) (chainId' : Z) (spender : string)
    (value' : string) (deadline' : Z) (nonce' : option Z) : C Signature :=
  owner' <~ call CGetAddress (getAddress world) ;;
  let typedData :=
    buildPermitTypedData tokenAddress chainId' owner' spender value' deadline' nonce' in
  signature <~ call (CSignPermit typedData)
                 (signPermitData world (ptd_domain typedData) (ptd_types typedData)
                    (ptd_message typedData)) ;;
  sig <~ ([], Finished (splitSignature world signature)) ;;
  cret (mkSignature (sig_v sig) (sig_r sig) (sig_s sig)).

Definition checkAllowance (tokenAddress owner' spender : string) : C Z :=
  call (CAllowance tokenAddress owner' spender) (allowance world tokenAddress owner' spender).

(** The hash the proof will name: the submitted transaction's in
    asynchronous mode, the receipt's after one confirmation otherwise. *)
Definition awaitHash (tx : SentTransaction) (submitted settled : string) : C string :=
  if asyncMode client then
    let txHash' := sent_hash tx in
    consoleLog (submitted ++ " " ++ txHash') ;;~
    cret txHash'
  else
    txHash' <~ call (CWait (sent_hash tx)) (sent_wait tx) ;;
    consoleLog (settled ++ " " ++ txHash') ;;~
    cret txHash'.

(** What [request] does with a 402 answer, up to the retry: sign, settle,
    build the proof. *)
Definition payChallenge (paymentReq : PaymentRequired402) : C S402Proof :=
  owner' <~ call CGetAddress (getAddress world) ;;
  let payment' :=
    mkPaymentData owner' (value (pr_payment paymentReq)) (deadline (pr_payment paymentReq))
                  (recipient (pr_payment paymentReq)) (nonce (pr_payment paymentReq)) in
  authSig' <~ signPaymentAuth (pr_domain paymentReq) payment' ;;
  allowance' <~ checkAllowance (token client) owner' (facilitator client) ;;
  value' <~ ([], Finished (BigInt (value payment'))) ;;
  txHash' <~
    (if value' <=? allowance' then
       consoleLog "Settling payment (allowance exists)..." ;;~
       tx <~ call (CSettlePayment payment' authSig')
               (settlePayment world payment' authSig') ;;
       awaitHash tx "Payment submitted (async):" "Payment settled (sync):"
     else
       consoleLog "Settling payment with permit (no allowance)..." ;;~
       permitSig' <~ signPermit (token client) (chainId client) (facilitator client)
                       (value payment') (deadline payment') None ;;
       tx <~ call (CSettlePaymentWithPermit payment' permitSig' authSig')
               (settlePaymentWithPermit world payment' permitSig' authSig') ;;
       awaitHash tx "Payment submitted with permit (async):"
                    "Payment settled with permit (sync):") ;;
  cret (mkS402Proof payment' None authSig' (Some txHash')).

(** The message of the error thrown for an answer that is neither 402 nor
    ok: the body's [message] if it has one, the status text when the body
    is not JSON, "HTTP <status>" otherwise. *)
Definition failureMessage (response : HttpResponse) : string :=
  let message :=
    match resp_json response with
    | inl _ => Some (resp_statusText response)
    | inr (JPaymentRequired challenge) => Some (pr_message challenge)
    | inr (JMessage m) => m
    | inr (JValue _) => None
    end in
  if truthy message
  then match message with Some m => m | None => EmptyString end
  else "HTTP " ++ toString (resp_status response).

(** [request(path, init)]; [body] is [init.body], [proof] is
    [init.s402Proof]. Each call of the method uses up one of [steps]. *)
Fixpoint request (steps : nat) (path : string) (body : option string)
    (proof : option S402Proof) : C Json :=
  match steps with
  | O => ([], Unfinished)
  | S steps' =>
      let url := baseUrl client ++ path in
      requestBody <~
        (match proof with
         | Some pf =>
             object <~ (match body with
                        | Some text =>
                            if String.eqb text "" then cret "{}"
                            else ([], Finished (jsonParse world text))
                        | None => cret "{}"
                        end) ;;
             cret (BodyWithProof object pf)
         | None =>
             cret (match body with Some text => RawBody text | None => NoBody end)
         end) ;;
      response <~ call (CFetch url requestBody) (fetch world url requestBody) ;;
      if negb (resp_status response =? 402) then
        if negb (resp_ok response)
        then cthrow (newError (failureMessage response))
        else ([], Finished (resp_json response))
      else if negb (autoSettle client) then
        cthrow (newError "Payment required (autoSettle disabled)")
      else
        match resp_json response with
        | inl e => cthrow e
        | inr (JPaymentRequired paymentReq) =>
            proof' <~ payChallenge paymentReq ;;
            request steps' path body (Some proof')
        | inr _ =>
            (* the owner is asked for before the missing challenge is read *)
            call CGetAddress (getAddress world) ;;~
            cthrow (typeError "Cannot read properties of undefined (reading 'domain')")
        end
  end.

End Client.

End Sdk.

(** ** More of the concrete deployment *)

Module Cases.

Import Demo.

(** A chain client that knows [hash1] with the given receipt and, when
    there is one, transaction, and whose head is at block [head]. *)
Definition chainOf (rc : TransactionReceipt) (head : Z) (tx : option TransactionResponse)
  : ChainClient :=
  mkChainClient
    (fun h => if String.eqb h hash1 then inr (Some rc) else inr None)
    (inr head)
    (fun h => if String.eqb h hash1 then inr tx else inr None).

(** A reverted transaction that nevertheless shows the settling log. *)
Definition revertedReceipt : TransactionReceipt :=
  mkTransactionReceipt 100 (Some 0) (Some S402_FACILITATOR) [settledLog].

(** A successful transaction sent to another address. *)
Definition strayReceipt : TransactionReceipt :=
  mkTransactionReceipt 100 (Some 1) (Some alice) [settledLog].

(** The owner's settlement call, submitted by somebody else. *)
Definition relayedTransaction : TransactionResponse :=
  mkTransactionResponse "settlePayment" 0 (Some bob).

(** A log of another contract. *)
Definition foreignLog : Log := mkLog [] "transfer".

Definition otherR : string :=
  "0x3333333333333333333333333333333333333333333333333333333333333333".

(** The proof with a signature that is not the owner's. *)
Definition proofForged : S402Proof :=
  mkS402Proof pay None (mkSignature 27 otherR someS) (Some hash1).

(** A proof whose value is not a decimal string. *)
Definition proofMalformed : S402Proof :=
  mkS402Proof (mkPaymentData alice "12a" 2000000600 bob nonce1)
              None (mkSignature 27 goodR someS) (Some hash1).

(** A proof written for a price of 999. *)
Definition proofStale : S402Proof :=
  mkS402Proof (mkPaymentData alice "999" 2000000600 bob nonce1)
              None (mkSignature 27 goodR someS) (Some hash1).

(** The challenge the server issues at [now] for "tool.example". *)
Definition challenge : PaymentData :=
  mkPaymentData ZERO_ADDRESS "1000000000000000" 2000001199 bob
    "0x000102030405060708090a0b0c0d0e0f101112131415161718191a1b1c1d1e1f".

Definition challengeBody : PaymentRequired402 :=
  buildPaymentRequired S402_FACILITATOR USD1_TOKEN 56 "tool.example" challenge
    (buildEIP712Domain cfg).

(** The proof the client builds for it. *)
Definition paidProof : S402Proof :=
  mkS402Proof
    (mkPaymentData alice "1000000000000000" 2000001199 bob
       "0x000102030405060708090a0b0c0d0e0f101112131415161718191a1b1c1d1e1f")
    None (mkSignature 27 goodR someS) (Some hash1).

(** A stand-in for the ethers library in which every signature whose [r] is
    [goodR] is one of alice's. *)
Definition ethersOfAlice : Ethers :=
  mkEthers
    (fun v r s =>
       if andb (27 <=? v) (v <=? 28) then inr (mkSignature v r s)
       else inl (newError "invalid signature"))
    (fun _ _ _ sg =>
       if String.eqb (sig_r sg) goodR then inr alice else inr ZERO_ADDRESS)
    (parseLog ethers)
    (parseTransaction ethers).

(** A world for the client: alice signs, the token allowance is [al], the
    facilitator accepts every settlement as transaction [hash1], and the
    server answers as [server] says. *)
Definition worldWith (al : Z) (server : Sdk.FetchBody -> Sdk.HttpResponse)
  : Sdk.ClientWorld :=
  Sdk.mkClientWorld
    (fun _ b => inr (server b))
    (fun text => inr text)
    (inr alice)
    (fun _ _ _ => inr "alice-auth")
    (fun _ _ _ => inr "alice-permit")
    (fun _ => inr (mkSignature 27 goodR someS))
    (fun _ _ _ => inr al)
    (fun _ _ => inr (Sdk.mkSentTransaction hash1 (inr hash1)))
    (fun _ _ _ => inr (Sdk.mkSentTransaction hash1 (inr hash1))).

Definition challengeResponse : Sdk.HttpResponse :=
  Sdk.mkHttpResponse 402 "Payment Required" (inr (Sdk.JPaymentRequired challengeBody)).

(** A server that challenges whatever it is sent. *)
Definition greedyServer (b : Sdk.FetchBody) : Sdk.HttpResponse := challengeResponse.

(** A server that challenges a request without proof and serves one with. *)
Definition fairServer (b : Sdk.FetchBody) : Sdk.HttpResponse :=
  match b with
  | Sdk.BodyWithProof _ _ => Sdk.mkHttpResponse 200 "OK" (inr (Sdk.JValue "served"))
  | _ => challengeResponse
  end.

Definition sdkClient : Sdk.S402Client :=
  Sdk.newS402Client
    (Sdk.mkS402ClientOptions "http://localhost:5000/" None None None (Some 3) None None).

End Cases.

(** * Vocabulary of the specification *)

(** The checks of the verifier that precede the log scan: enough
    confirmations, a successful status, the facilitator as target. *)
Definition receiptAccepted (cfg : Config) (rc : TransactionReceipt) (cur : Z) : Prop :=
  MINIMUM_CONFIRMATIONS cfg <= cur - blockNumber rc + 1
  /\ status rc = Some 1
  /\ exists target, receipt_to rc = Some target
                    /\ toLowerCase target = toLowerCase S402_FACILITATOR.

(** What it means for the payment struct of a decoded call, and the
    transaction's sender, to be those of the expected payment: owner and
    recipient as addresses (case set aside), value by its decimal rendering,
    deadline by its decimal rendering against the rendering of the expected
    deadline as a [number], nonce, and the sender being the owner. *)
Definition CalldataAgrees (p : PaymentData) (txPayment : TxPayment)
    (tx : TransactionResponse) : Prop :=
  (exists o, tp_owner txPayment = Some o /\ toLowerCase o = toLowerCase (owner p))
  /\ (exists r, tp_recipient txPayment = Some r
                /\ toLowerCase r = toLowerCase (recipient p))
  /\ (exists v, tp_value txPayment = Some v /\ toString v = value p)
  /\ (exists d, tp_deadline txPayment = Some d
                /\ toString d = Number_toString (deadline p))
  /\ tp_nonce txPayment = Some (nonce p)
  /\ (exists sender, tx_from tx = Some sender
                     /\ toLowerCase sender = toLowerCase (owner p)).

(** A proof passes parameter validation: it names a transaction, its value
    is the rendering of the price, its recipient is the expected one, its
    deadline lies after the current second and the chain is chain 56. *)
Definition ParametersValid (cfg : Config) (dateNow : Z) (pf : S402Proof)
    (price : Z) (expectedRecipient : string) : Prop :=
  (exists h, txHash pf = Some h)
  /\ value (payment pf) = toString price
  /\ toLowerCase (recipient (payment pf)) = toLowerCase expectedRecipient
  /\ dateNow / 1000 < deadline (payment pf)
  /\ CHAIN_ID cfg = 56.

(** The reasons the settlement verifier gives for a failure. *)
Definition isVerifierReason (e : string) : Prop :=
  In e [ "Transaction not found"; "Transaction failed"; "Wrong contract called";
         "Transaction data unavailable"; "Unable to parse transaction calldata";
         "Unexpected function call"; "Missing payment arguments";
         "Payment parameters mismatch"; "Verification failed" ]
  \/ exists have need,
       e = "Insufficient confirmations: " ++ toString have ++ "/" ++ toString need.

(** The 403 response of the gating middlewares. *)
Definition verificationFailed403 (message : string) : Outcome :=
  Respond 403
    (BodyError "PAYMENT_VERIFICATION_FAILED" message
       (Some "Either the signature is invalid, payment parameters are incorrect, or the payment was not settled on-chain.")).

(** The 500 response of the global error handler; the stack goes with it
    when the environment variable NODE_ENV says "development". *)
Definition internalError500 (processEnv : string -> option string) (err : JsError)
  : Outcome :=
  Respond 500
    (BodyError "INTERNAL_ERROR" "An internal server error occurred"
       (if strictEqOpt (processEnv "NODE_ENV") "development"
        then Some (err_stack err) else None)).

(** The line the background callbacks log for a settled verification. *)
Definition backgroundLine (settled : JsError + VerifyResult) : Event :=
  match settled with
  | inr result =>
      if verified result
      then EvLog Info "✅ Background blockchain verification completed successfully"
      else EvLog Warn "⚠️ Background blockchain verification failed (API access already granted)"
  | inl _ =>
      EvLog Warn "⚠️ Background blockchain verification error (API access already granted)"
  end.

(** A log settles a payment: it decodes to a PaymentSettled event from the
    payment's owner to its recipient (addresses compared without regard to
    case) with exactly the payment's nonce, whose value, alone or with the
    platform fee added, is the payment's value. *)
Definition EventSettles (eth : Ethers) (p : PaymentData) (l : Log) : Prop :=
  exists args from to eventValue expected,
    parseLog eth l = inr (Some (mkLogDescription "PaymentSettled" args))
    /\ arg_from args = Some from /\ toLowerCase from = toLowerCase (owner p)
    /\ arg_to args = Some to /\ toLowerCase to = toLowerCase (recipient p)
    /\ arg_nonce args = Some (nonce p)
    /\ arg_value args = Some eventValue
    /\ BigInt (value p) = inr expected
    /\ (eventValue = expected
        \/ eventValue + match arg_platformFee args with Some fee => fee | None => 0 end
           = expected).

(** The call data of a transaction settles a payment: it decodes to one of
    the two settlement functions and the payment struct in it, and the
    transaction's sender, agree with the payment. *)
Definition CalldataSettles (eth : Ethers) (p : PaymentData) (tx : TransactionResponse)
  : Prop :=
  exists parsed txPayment,
    parseTransaction eth (tx_data tx) (tx_value tx) = inr (Some parsed)
    /\ (td_name parsed = "settlePayment" \/ td_name parsed = "settlePaymentWithPermit")
    /\ txPaymentOf parsed = Some txPayment
    /\ CalldataAgrees p txPayment tx.

(** A log the scan passes over: the decoder throws on it, knows no event
    for it, or decodes it to another event. *)
Definition ForeignLog (eth : Ethers) (l : Log) : Prop :=
  (exists e, parseLog eth l = inl e)
  \/ parseLog eth l = inr None
  \/ exists parsed, parseLog eth l = inr (Some parsed)
                    /\ ld_name parsed <> "PaymentSettled".

(** The number of settlement transactions a run of the client submitted. *)
Fixpoint settlements (t : list Sdk.ClientEvent) : nat :=
  match t with
  | [] => 0
  | Sdk.CSettlePayment _ _ :: rest => S (settlements rest)
  | Sdk.CSettlePaymentWithPermit _ _ _ :: rest => S (settlements rest)
  | _ :: rest => settlements rest
  end.

(** The signer and the verifier are two ends of one signature scheme, for a
    signer whose address is [address]: what the signer signs over a domain
    and a message, once split, is accepted by [Signature.from] and recovers
    under [verifyTypedData] to the signer's address. *)
Definition SignatureSchemeAgrees (world : Sdk.ClientWorld) (eth : Ethers)
    (address : string) : Prop :=
  forall d types message text sg,
    Sdk.signAuth world d types message = inr text ->
    Sdk.splitSignature world text = inr sg ->
    exists sg' recovered,
      Signature_from eth (sig_v sg) (sig_r sg) (sig_s sg) = inr sg'
      /\ verifyTypedData eth d types message sg' = inr recovered
      /\ toLowerCase recovered = toLowerCase address.

(** * Properties *)

(** ** Strings *)

Module StringFacts.

Lemma prefix_refl_app (a b : string) : prefix a (a ++ b) = true.
Proof.
  induction a as [| c a IH]; simpl.
  - now destruct b.
  - destruct (ascii_dec c c) as [_ | ne]; [exact IH | now elim ne].
Qed.

Lemma includes_unfold (sub s : string) :
  includes sub s =
  if prefix sub s then true
  else match s with
       | EmptyString => false
       | String _ t => includes sub t
       end.
Proof. now destruct s. Qed.

Lemma includes_here (a b : string) : includes a (a ++ b) = true.
Proof. now rewrite includes_unfold, prefix_refl_app. Qed.

Lemma append_empty_r (s : string) : s ++ EmptyString = s.
Proof. induction s as [| c s IH]; simpl; [reflexivity | now rewrite IH]. Qed.

Lemma includes_refl (a : string) : includes a a = true.
Proof. pose proof (includes_here a EmptyString) as H. now rewrite append_empty_r in H. Qed.

Lemma includes_cons (sub s : string) (c : ascii) :
  includes sub s = true -> includes sub (String c s) = true.
Proof.
  intros H. cbn [includes]. now destruct (prefix sub (String c s)).
Qed.

Lemma includes_app_l (sub p s : string) :
  includes sub s = true -> includes sub (p ++ s) = true.
Proof.
  intros H. induction p as [| c p IH]; simpl append; [exact H |].
  now apply includes_cons.
Qed.

Lemma prefix_app_r (sub s t : string) :
  prefix sub s = true -> prefix sub (s ++ t) = true.
Proof.
  revert sub. induction s as [| c s IH]; intros sub H.
  - destruct sub; [| discriminate]. now destruct t.
  - destruct sub as [| d sub]; [reflexivity |].
    simpl in *. destruct (ascii_dec d c); [now apply IH | discriminate].
Qed.

Lemma includes_app_r (sub s t : string) :
  includes sub s = true -> includes sub (s ++ t) = true.
Proof.
  induction s as [| c s IH]; intros H.
  - simpl in H. destruct sub; [| discriminate]. now destruct t.
  - cbn [includes] in H. destruct (prefix sub (String c s)) eqn:E.
    + pose proof (prefix_app_r _ _ t E) as E'. simpl append in E'.
      simpl append. cbn [includes]. now rewrite E'.
    + simpl append. apply includes_cons. now apply IH.
Qed.

(** Every element of a joined list occurs in the result. *)
Lemma includes_join (sep e : string) (l : list string) :
  In e l -> includes e (join sep l) = true.
Proof.
  unfold join. induction l as [| x l IH]; intros H; [destruct H |].
  destruct H as [-> | H].
  - destruct l as [| y l]; simpl String.concat.
    + apply includes_refl.
    + apply includes_here.
  - destruct l as [| y l]; [destruct H |].
    change (String.concat sep (x :: y :: l)) with (x ++ sep ++ String.concat sep (y :: l)).
    apply includes_app_l, includes_app_l. now apply IH.
Qed.

(** A needle whose first character does not occur in the text is not found. *)
Lemma includes_absent (c : ascii) (sub s : string) :
  allChars (fun x => negb (Ascii.eqb x c)) s = true ->
  includes (String c sub) s = false.
Proof.
  induction s as [| d s IH]; intros H; [reflexivity |].
  simpl in H. apply andb_true_iff in H as [Hd Hs].
  cbn [includes]. simpl prefix.
  destruct (ascii_dec c d) as [-> | _].
  - now rewrite Ascii.eqb_refl in Hd.
  - now apply IH.
Qed.

Lemma allChars_app (p : ascii -> bool) (s t : string) :
  allChars p (s ++ t) = andb (allChars p s) (allChars p t).
Proof.
  induction s as [| c s IH]; simpl; [reflexivity |].
  now rewrite IH, andb_assoc.
Qed.

Lemma allChars_impl (p q : ascii -> bool) (s : string) :
  (forall c, p c = true -> q c = true) -> allChars p s = true -> allChars q s = true.
Proof.
  intros Hpq. induction s as [| c s IH]; simpl; [easy |].
  rewrite !andb_true_iff. intros [H1 H2]. split; auto.
Qed.

End StringFacts.

(** ** Decimal renderings *)

Module NumberFacts.

Import StringFacts.

Lemma digits_of_uint (d : Decimal.uint) :
  allChars isDigit (NilEmpty.string_of_uint d) = true.
Proof.
  induction d; simpl; try reflexivity; exact IHd.
Qed.

Lemma digits_of_uint_nz (d : Decimal.uint) :
  isDecimalString (NilZero.string_of_uint d) = true.
Proof.
  destruct d; try reflexivity; simpl; apply digits_of_uint.
Qed.

Lemma toString_chars (z : Z) : allChars isNumberChar (toString z) = true.
Proof.
  unfold toString.
  assert (H : forall d, allChars isNumberChar (NilZero.string_of_uint d) = true).
  { intros d. apply allChars_impl with (p := isDigit).
    - intros c Hc. unfold isNumberChar. now rewrite Hc.
    - pose proof (digits_of_uint_nz d) as Hd. unfold isDecimalString in Hd.
      now destruct (NilZero.string_of_uint d). }
  destruct (Z.to_int z); simpl; [apply H |]. apply H.
Qed.

Lemma to_int_normal (z : Z) :
  Z.to_int z <> Decimal.Pos Decimal.Nil /\ Z.to_int z <> Decimal.Neg Decimal.Nil.
Proof.
  pose proof (DecimalZ.to_of (Z.to_int z)) as H. rewrite DecimalZ.of_to in H.
  rewrite H. unfold Decimal.norm, Decimal.unorm.
  destruct (Z.to_int z) as [d | d]; destruct (Decimal.nzhead d); split; discriminate.
Qed.

Lemma toString_inj (a b : Z) : toString a = toString b -> a = b.
Proof.
  unfold toString. intros H. apply DecimalZ.to_int_inj.
  destruct (to_int_normal a) as [Ha1 Ha2], (to_int_normal b) as [Hb1 Hb2].
  pose proof (NilZero.isi _ Ha1 Ha2) as Ea. pose proof (NilZero.isi _ Hb1 Hb2) as Eb.
  rewrite H in Ea. congruence.
Qed.

(** A safe integer is rendered by its decimal digits, so that two safe
    integers with the same rendering are the same. *)
Lemma Number_toString_safe (z : Z) :
  isSafeInteger z = true -> Number_toString z = toString z.
Proof. intros H. unfold Number_toString. now rewrite H. Qed.

(** Beyond the safe integers the rendering is the shortest that is read
    back as the same double. *)
Lemma Number_toString_large :
  Number_toString (2 ^ 53) = "9007199254740992"
  /\ Number_toString (2 ^ 60) = "1152921504606847000"
  /\ Number_toString (2 ^ 64) = "18446744073709552000"
  /\ Number_toString (10 ^ 21) = "1e+21"
  /\ Number_toString (2 ^ 70) = "1.1805916207174113e+21"
  /\ Number_toString (- 2 ^ 60) = "-1152921504606847000".
Proof. repeat split; vm_compute; reflexivity. Qed.

End NumberFacts.

(** ** The settlement verifier *)

Ltac unfold_verifier :=
  unfold verifyTransactionSettlement, verifyTransactionSettlement_try, verifyViaCalldata,
    callGetTransactionReceipt, callGetBlockNumber, callGetTransaction,
    getMinimumConfirmations, tryCatch, bind, log, ret, lift, throw in *.

(** Splits on the innermost scrutinee of the goal. *)
Ltac case_step :=
  match goal with
  | |- context [match ?x with _ => _ end] =>
      lazymatch x with
      | context [match _ with _ => _ end] => fail
      | _ => destruct x eqn:?
      end
  end.

(** Closes a goal whose hypothesis [H] claims an event is in a trace that
    does not hold it. *)
Ltac absent_event H :=
  simpl in H; repeat (destruct H as [H | H]; try discriminate H); try contradiction.

Section Verifier.

Variable cfg : Config.
Variable eth : Ethers.
Variable chain : ChainClient.
Variable h : string.
Variable p : PaymentData.

Local Abbreviation verify := (verifyTransactionSettlement cfg eth chain h p).

Lemma verify_total : exists t r, verify = (t, inr r).
Proof.
  unfold verifyTransactionSettlement, tryCatch.
  destruct (verifyTransactionSettlement_try cfg eth chain h p) as [t [e | r]];
    simpl; eauto.
Qed.

(** The verifier begins by asking for the receipt; up to there it runs as
    soon as it is called, the rest waits for the answer. *)
Lemma verify_started :
  startedEvents verify = [EvGetTransactionReceipt h]
  /\ fst verify = EvGetTransactionReceipt h :: pendingEvents verify.
Proof.
  assert (E : exists rest, fst verify = EvGetTransactionReceipt h :: rest).
  { unfold_verifier. repeat (case_step; simpl); eauto. }
  destruct E as [rest E]. unfold startedEvents, pendingEvents. rewrite E.
  split; reflexivity.
Qed.

(** Once the receipt and the chain head are known, the count reported is
    head - block + 1, unless a later call to the chain client is rejected. *)
Lemma verify_confirmations (rc : TransactionReceipt) (cur : Z) :
  getTransactionReceipt chain h = inr (Some rc) ->
  getBlockNumber chain = inr cur ->
  exists t r, verify = (t, inr r)
              /\ (confirmations r = cur - blockNumber rc + 1 \/ r = verificationFailed).
Proof.
  intros Hrc Hbn. unfold_verifier. rewrite Hrc, Hbn.
  repeat (case_step; simpl); eauto.
Qed.

(** The call data is fetched only after a receipt was found whose logs hold
    no matching event. *)
Lemma fallback_only_after_scan :
  In (EvGetTransaction h) (fst verify) ->
  exists rc, getTransactionReceipt chain h = inr (Some rc)
             /\ matchedEvent eth p (logs rc) = false.
Proof.
  unfold_verifier.
  destruct (getTransactionReceipt chain h) as [e | [rc |]] eqn:Hrc; simpl;
    [ intros H; absent_event H | | intros H; absent_event H ].
  destruct (matchedEvent eth p (logs rc)) eqn:Hscan; [| eauto].
  repeat (case_step; simpl); intros H; absent_event H.
Qed.


(** C5. When the receipt is found, the confirmations are head block number
    minus receipt block number plus 1, and when that count is below the
    configured minimum the verifier stops there: it returns verified false
    with the count and the error "Insufficient confirmations: have/need",
    whatever the receipt's status, target and logs are, and asks the chain
    client nothing more. *)
Theorem insufficient_confirmations_short_circuit (rc : TransactionReceipt) (cur : Z) :
  getTransactionReceipt chain h = inr (Some rc) ->
  getBlockNumber chain = inr cur ->
  cur - blockNumber rc + 1 < MINIMUM_CONFIRMATIONS cfg ->
  verify =
  ([ EvGetTransactionReceipt h; EvGetBlockNumber;
     EvLog Debug "Checking transaction confirmations";
     EvLog Warn "Insufficient confirmations" ],
   inr (mkVerifyResult false (cur - blockNumber rc + 1)
          (Some ("Insufficient confirmations: " ++ toString (cur - blockNumber rc + 1)
                 ++ "/" ++ toString (MINIMUM_CONFIRMATIONS cfg))))).
Proof.
  intros Hrc Hbn Hlt. unfold_verifier. rewrite Hrc, Hbn.
  apply Z.ltb_lt in Hlt. now rewrite Hlt.
Qed.

Lemma eqIgnoreCase_true (a b : string) :
  eqIgnoreCase a b = true <-> toLowerCase a = toLowerCase b.
Proof. unfold eqIgnoreCase. apply String.eqb_eq. Qed.

Lemma matchedEvent_In (l : Log) (ls : list Log) :
  In l ls -> logMatches eth p l = true -> matchedEvent eth p ls = true.
Proof.
  intros Hin Hl. induction ls as [| x ls IH]; [destruct Hin |].
  simpl. destruct (logMatches eth p x) eqn:Hx; [reflexivity |].
  destruct Hin as [-> | Hin]; [congruence | now apply IH].
Qed.

Lemma receiptAccepted_checks (rc : TransactionReceipt) (cur : Z) :
  receiptAccepted cfg rc cur ->
  (cur - blockNumber rc + 1 <? MINIMUM_CONFIRMATIONS cfg) = false
  /\ negb (match status rc with Some st => st =? 1 | None => false end) = false
  /\ negb (eqIgnoreCaseOpt (receipt_to rc) S402_FACILITATOR) = false.
Proof.
  intros (Hmin & Hst & target & Hto & Hlow). repeat split.
  - now apply Z.ltb_ge.
  - now rewrite Hst.
  - rewrite Hto. simpl. apply negb_false_iff. now apply eqIgnoreCase_true.
Qed.

(** C3. When the receipt passes the confirmation, status and target checks
    and one of its logs decodes to a PaymentSettled event whose sender is the
    payment's owner and whose destination is its recipient (addresses
    compared without regard to case), whose nonce is the payment's nonce and
    whose value, or value plus platform fee, is the payment's value, the
    verifier returns verified true through the event path, and the
    transaction's call data is never fetched. *)
Theorem settlement_event_verifies
    (rc : TransactionReceipt) (cur : Z) (l : Log) (args : EventArgs)
    (from to : string) (eventValue expected : Z) :
  getTransactionReceipt chain h = inr (Some rc) ->
  getBlockNumber chain = inr cur ->
  receiptAccepted cfg rc cur ->
  In l (logs rc) ->
  parseLog eth l = inr (Some (mkLogDescription "PaymentSettled" args)) ->
  arg_from args = Some from -> toLowerCase from = toLowerCase (owner p) ->
  arg_to args = Some to -> toLowerCase to = toLowerCase (recipient p) ->
  arg_nonce args = Some (nonce p) ->
  arg_value args = Some eventValue ->
  BigInt (value p) = inr expected ->
  (eventValue = expected
   \/ eventValue + match arg_platformFee args with Some fee => fee | None => 0 end
      = expected) ->
  verify =
  ([ EvGetTransactionReceipt h; EvGetBlockNumber;
     EvLog Debug "Checking transaction confirmations";
     EvLog Info "Transaction verified successfully via PaymentSettled event" ],
   inr (mkVerifyResult true (cur - blockNumber rc + 1) None))
  /\ ~ In (EvGetTransaction h) (fst verify).
Proof.
  intros Hrc Hbn Hacc Hin Hparse Hfrom Hfl Hto Htl Hnonce Hval Hexp Hamount.
  assert (Hl : logMatches eth p l = true).
  { unfold logMatches, paymentSettledMatches. rewrite Hparse. simpl.
    rewrite Hfrom, Hto, Hnonce, Hval, Hexp. simpl.
    apply eqIgnoreCase_true in Hfl, Htl. rewrite Hfl, Htl, String.eqb_refl. simpl.
    apply orb_true_iff. destruct Hamount as [-> | <-]; [left | right].
    - apply Z.eqb_refl.
    - destruct (arg_platformFee args) as [fee |]; [| apply Z.eqb_refl].
      destruct (fee =? 0) eqn:E; [| apply Z.eqb_refl].
      apply Z.eqb_eq in E. subst fee. apply Z.eqb_refl. }
  pose proof (matchedEvent_In l (logs rc) Hin Hl) as Hscan.
  destruct (receiptAccepted_checks rc cur Hacc) as (C1 & C2 & C3).
  assert (E : verify =
    ([ EvGetTransactionReceipt h; EvGetBlockNumber;
       EvLog Debug "Checking transaction confirmations";
       EvLog Info "Transaction verified successfully via PaymentSettled event" ],
     inr (mkVerifyResult true (cur - blockNumber rc + 1) None))).
  { unfold_verifier. rewrite Hrc, Hbn. simpl. rewrite C1, C2, C3, Hscan. reflexivity. }
  split; [exact E |]. rewrite E. intros H. absent_event H.
Qed.

Lemma eqIgnoreCaseOpt_true (a : option string) (b : string) :
  eqIgnoreCaseOpt a b = true <-> exists a', a = Some a' /\ toLowerCase a' = toLowerCase b.
Proof.
  destruct a as [a' |]; simpl.
  - rewrite eqIgnoreCase_true. split; [eauto | now intros (x & [= ->] & H)].
  - split; [discriminate | now intros (x & [=] & _)].
Qed.

Lemma strictEqOpt_true (a : option string) (b : string) :
  strictEqOpt a b = true <-> a = Some b.
Proof.
  destruct a as [a' |]; simpl.
  - rewrite String.eqb_eq. split; [now intros -> | now intros [= ->]].
  - split; discriminate.
Qed.

Lemma toStringEqOpt_true (a : option Z) (b : string) :
  toStringEqOpt a b = true <-> exists v, a = Some v /\ toString v = b.
Proof.
  destruct a as [v |]; simpl.
  - rewrite String.eqb_eq. split; [eauto | now intros (x & [= ->] & H)].
  - split; [discriminate | now intros (x & [=] & _)].
Qed.

Lemma calldataMatches_agrees (txPayment : TxPayment) (tx : TransactionResponse) :
  calldataMatches txPayment tx p = true <-> CalldataAgrees p txPayment tx.
Proof.
  unfold calldataMatches, CalldataAgrees. simpl.
  rewrite !andb_true_iff, !eqIgnoreCaseOpt_true, !toStringEqOpt_true, strictEqOpt_true.
  tauto.
Qed.

Lemma isSettlementFunction_true (name : string) :
  isSettlementFunction name = true
  <-> name = "settlePayment" \/ name = "settlePaymentWithPermit".
Proof. unfold isSettlementFunction. now rewrite orb_true_iff, !String.eqb_eq. Qed.

(** C4, as the code has it. The call-data path is entered only after the
    scan of a found receipt's logs matched no event. On it, with the
    transaction fetched, the verifier returns verified true exactly when the
    call data decodes to settlePayment or settlePaymentWithPermit, the
    embedded payment struct agrees with the expected payment and the
    transaction's sender is the payment's owner. Call data the decoder
    throws on fails with "Unable to parse transaction calldata"; call data
    that decodes to nothing, or to another function, fails with
    "Unexpected function call". The deadlines are compared as text, the
    struct's as a [bigint] and the expected one as a [number]: for an
    expected deadline that is a safe integer this is equality of the two
    numbers. *)
Theorem calldata_fallback :
  (In (EvGetTransaction h) (fst verify) ->
   exists rc, getTransactionReceipt chain h = inr (Some rc)
              /\ matchedEvent eth p (logs rc) = false)
  /\ (forall (rc : TransactionReceipt) (cur : Z) (tx : TransactionResponse),
      getTransactionReceipt chain h = inr (Some rc) ->
      getBlockNumber chain = inr cur ->
      receiptAccepted cfg rc cur ->
      matchedEvent eth p (logs rc) = false ->
      getTransaction chain h = inr (Some tx) ->
      exists t r,
        verify = (t, inr r)
        /\ In (EvGetTransaction h) t
        /\ (verified r = true <->
            exists parsed txPayment,
              parseTransaction eth (tx_data tx) (tx_value tx) = inr (Some parsed)
              /\ (td_name parsed = "settlePayment"
                  \/ td_name parsed = "settlePaymentWithPermit")
              /\ txPaymentOf parsed = Some txPayment
              /\ CalldataAgrees p txPayment tx)
        /\ ((exists e, parseTransaction eth (tx_data tx) (tx_value tx) = inl e) ->
            verified r = false
            /\ error r = Some "Unable to parse transaction calldata")
        /\ (forall parsedTx,
              parseTransaction eth (tx_data tx) (tx_value tx) = inr parsedTx ->
              (forall parsed, parsedTx = Some parsed ->
                              isSettlementFunction (td_name parsed) = false) ->
              verified r = false /\ error r = Some "Unexpected function call"))
  /\ (isSafeInteger (deadline p) = true ->
      forall d : Z, toString d = Number_toString (deadline p) <-> d = deadline p).
Proof.
  split; [apply fallback_only_after_scan |].
  split.
  2:{ intros Hsafe d. rewrite (NumberFacts.Number_toString_safe _ Hsafe).
      split; [apply NumberFacts.toString_inj | now intros ->]. }
  intros rc cur tx Hrc Hbn Hacc Hscan Htx.
  destruct (receiptAccepted_checks rc cur Hacc) as (C1 & C2 & C3).
  unfold_verifier. rewrite Hrc, Hbn. simpl. rewrite C1, C2, C3, Hscan. simpl.
  rewrite Htx. simpl.
  destruct (parseTransaction eth (tx_data tx) (tx_value tx))
    as [e | [parsed |]] eqn:Hparse; simpl.
  - do 2 eexists. split; [reflexivity |]. split; [simpl; tauto |]. simpl.
    split; [| split].
    + split; [discriminate | now intros (x & y & [=] & _)].
    + auto.
    + intros parsedTx [=].
  - destruct (isSettlementFunction (td_name parsed)) eqn:Hname; simpl.
    + destruct (txPaymentOf parsed) as [txPayment |] eqn:Htp; simpl.
      * destruct (calldataMatches txPayment tx p) eqn:Hm; simpl;
          do 2 eexists; (split; [reflexivity |]); (split; [simpl; tauto |]); simpl;
          (split; [| split]);
          try (now intros [e [=]]);
          try (intros parsedTx [= <-] Hall; specialize (Hall parsed eq_refl); congruence).
        -- split; [intros _ | reflexivity].
           exists parsed, txPayment.
           split; [reflexivity |]. split; [now apply isSettlementFunction_true |].
           split; [exact Htp |]. now apply calldataMatches_agrees.
        -- split; [discriminate |].
           intros (x & y & [= <-] & _ & Hy & Hag).
           rewrite Htp in Hy. injection Hy as <-.
           apply calldataMatches_agrees in Hag. congruence.
      * do 2 eexists. split; [reflexivity |]. split; [simpl; tauto |]. simpl.
        split; [| split].
        -- split; [discriminate |]. intros (x & y & [= <-] & _ & Hy & _). congruence.
        -- now intros [e [=]].
        -- intros parsedTx [= <-] Hall. specialize (Hall parsed eq_refl). congruence.
    + do 2 eexists. split; [reflexivity |]. split; [simpl; tauto |]. simpl.
      split; [| split].
      * split; [discriminate |]. intros (x & y & [= <-] & Hn & _).
        apply isSettlementFunction_true in Hn. congruence.
      * now intros [e [=]].
      * auto.
  - do 2 eexists. split; [reflexivity |]. split; [simpl; tauto |]. simpl.
    split; [| split].
    + split; [discriminate | now intros (x & y & [=] & _)].
    + now intros [e [=]].
    + auto.
Qed.

End Verifier.

(** ** The signature verifier *)

(** The domain the server verifies against names the facilitator, the very
    address the typed data carries as spender. *)
Lemma domain_verifyingContract (cfg : Config) :
  verifyingContract (buildEIP712Domain cfg) = S402_FACILITATOR.
Proof. reflexivity. Qed.

Lemma typedValue_spender (p : PaymentData) :
  typedValueOf p
  = mkTypedValue (owner p) S402_FACILITATOR (value p) (deadline p) (recipient p) (nonce p).
Proof. reflexivity. Qed.

(** C2. [verifyEIP712Signature] always returns a boolean. It is true exactly
    when the signature is well formed and the address recovered from the
    typed data of the payment, whose spender is the facilitator contract's
    address whatever the caller sent, is the payment's owner, case set
    aside. When the signature is malformed or recovery throws, it is false. *)
Theorem verifyEIP712Signature_iff (eth : Ethers) (p : PaymentData) (sg : Signature)
    (d : EIP712Domain) :
  exists t b,
    verifyEIP712Signature eth p sg d = (t, inr b)
    /\ (b = true <->
        exists signature recovered,
          Signature_from eth (sig_v sg) (sig_r sg) (sig_s sg) = inr signature
          /\ verifyTypedData eth d PAYMENT_AUTHORIZATION_TYPES
               (mkTypedValue (owner p) S402_FACILITATOR (value p) (deadline p)
                             (recipient p) (nonce p))
               signature = inr recovered
          /\ toLowerCase recovered = toLowerCase (owner p))
    /\ ((exists e, Signature_from eth (sig_v sg) (sig_r sg) (sig_s sg) = inl e) ->
        b = false)
    /\ (forall signature,
          Signature_from eth (sig_v sg) (sig_r sg) (sig_s sg) = inr signature ->
          (exists e, verifyTypedData eth d PAYMENT_AUTHORIZATION_TYPES
                       (typedValueOf p) signature = inl e) ->
          b = false)
    /\ (forall cfg, tv_spender (typedValueOf p) = verifyingContract (buildEIP712Domain cfg)).
Proof.
  unfold verifyEIP712Signature, tryCatch, bind, lift, log, ret.
  rewrite <- typedValue_spender.
  destruct (Signature_from eth (sig_v sg) (sig_r sg) (sig_s sg)) as [e | signature];
    simpl.
  - do 2 eexists. split; [reflexivity |]. repeat split; try discriminate; auto;
      try (now intros (x & y & [=] & _)); try (now intros x [=]).
  - destruct (verifyTypedData eth d PAYMENT_AUTHORIZATION_TYPES (typedValueOf p) signature)
      as [e | recovered] eqn:Hrec; simpl.
    + do 2 eexists. split; [reflexivity |]. repeat split; try discriminate; auto;
        try (intros (x & y & [= <-] & Hy & _); congruence).
    + destruct (eqIgnoreCase recovered (owner p)) eqn:Heq; simpl;
        do 2 eexists; (split; [reflexivity |]); (split; [| split; [| split]]);
        try (now intros [e [=]]);
        try (intros x [= <-] [e He]; congruence);
        try reflexivity.
      * split; [intros _ | reflexivity].
        exists signature, recovered. split; [reflexivity |].
        split; [exact Hrec | now apply eqIgnoreCase_true].
      * split; [discriminate |].
        intros (x & y & [= <-] & Hy & Hlow). rewrite Hrec in Hy. injection Hy as <-.
        apply eqIgnoreCase_true in Hlow. congruence.
Qed.

(** ** Numbers in proofs and prices *)

Module ValueFacts.

Import StringFacts NumberFacts.

Lemma digit_not_space (c : ascii) : isDigit c = true -> negb (isWhiteSpace c) = true.
Proof. destruct c as [[] [] [] [] [] [] [] []]; try discriminate; reflexivity. Qed.

Lemma number_char_not_space (c : ascii) :
  isNumberChar c = true -> negb (isWhiteSpace c) = true.
Proof. destruct c as [[] [] [] [] [] [] [] []]; try discriminate; reflexivity. Qed.

Lemma trimEnd_id (s : string) :
  allChars (fun c => negb (isWhiteSpace c)) s = true -> trimEnd s = s.
Proof.
  induction s as [| c s IH]; [reflexivity |].
  cbn [allChars trimEnd]. rewrite andb_true_iff. intros [Hc Hs]. rewrite (IH Hs).
  destruct s; [| reflexivity].
  apply negb_true_iff in Hc. now rewrite Hc.
Qed.

(** Text without white space is its own trimmed form. *)
Lemma trim_id (s : string) :
  allChars (fun c => negb (isWhiteSpace c)) s = true -> trim s = s.
Proof.
  intros H. unfold trim.
  assert (E : trimStart s = s).
  { destruct s as [| c s]; [reflexivity |].
    cbn [allChars trimStart] in *. apply andb_true_iff in H as [Hc _].
    apply negb_true_iff in Hc. now rewrite Hc. }
  rewrite E. now apply trimEnd_id.
Qed.

Lemma digit_no_sign (c : ascii) :
  isDigit c = true -> Ascii.eqb c "-" = false /\ Ascii.eqb c "+" = false.
Proof. destruct c as [[] [] [] [] [] [] [] []]; try discriminate; split; reflexivity. Qed.

Lemma digit_no_radix (x : ascii) :
  isDigit x = true ->
  orb (Ascii.eqb x "x") (Ascii.eqb x "X") = false
  /\ orb (Ascii.eqb x "o") (Ascii.eqb x "O") = false
  /\ orb (Ascii.eqb x "b") (Ascii.eqb x "B") = false.
Proof.
  destruct x as [[] [] [] [] [] [] [] []]; try discriminate; repeat split; reflexivity.
Qed.

(** A decimal digit string has no white space, no sign and no radix prefix,
    so it is read as its digits. *)
Lemma stringToBigInt_decimal (s : string) :
  isDecimalString s = true -> stringToBigInt s = digitsValue s.
Proof.
  intros Hs. destruct s as [| c s]; [discriminate |].
  cbn [isDecimalString] in Hs.
  unfold stringToBigInt.
  rewrite trim_id by (eapply allChars_impl; [apply digit_not_space | exact Hs]).
  cbn [allChars] in Hs. apply andb_true_iff in Hs as [Hc Ht].
  destruct (digit_no_sign c Hc) as [-> ->].
  unfold radixPrefix. destruct s as [| x t]; [reflexivity |].
  cbn [allChars] in Ht. apply andb_true_iff in Ht as [Hx _].
  destruct (digit_no_radix x Hx) as (-> & -> & ->).
  now destruct (Ascii.eqb c "0").
Qed.

Lemma BigInt_decimal (s : string) :
  isDecimalString s = true ->
  exists z, digitsValue s = Some z /\ BigInt s = inr z.
Proof.
  intros Hs.
  assert (Hd : exists z, digitsValue s = Some z).
  { unfold digitsValue. rewrite Hs.
    assert (G : forall t, allChars isDigit t = true ->
                          exists d, NilEmpty.uint_of_string t = Some d).
    { induction t as [| c t IH]; simpl; [eauto |].
      rewrite andb_true_iff. intros [Hc Ht]. destruct (IH Ht) as [d ->].
      destruct c as [[] [] [] [] [] [] [] []]; try discriminate Hc; simpl; eauto. }
    destruct s as [| c s]; [discriminate |].
    destruct (G (String c s) Hs) as [d Hd].
    exists (Z.of_uint d). unfold NilZero.uint_of_string. now rewrite Hd. }
  destruct Hd as [z Hz]. exists z. split; [exact Hz |].
  unfold BigInt. now rewrite (stringToBigInt_decimal s Hs), Hz.
Qed.

(** Reading back the rendering of a number gives the number. *)
Lemma digitsValue_toString (z : Z) :
  isDecimalString (toString z) = true -> digitsValue (toString z) = Some z.
Proof.
  unfold digitsValue. intros Hs. rewrite Hs. unfold toString in *.
  destruct (to_int_normal z) as [Hpos _].
  pose proof (DecimalZ.of_to z) as Hz.
  destruct (Z.to_int z) as [d | d]; simpl in *.
  - rewrite NilZero.usu; [simpl; now rewrite Hz | congruence].
  - discriminate.
Qed.

Lemma BigInt_of_rendering (s : string) (z : Z) :
  isDecimalString s = true -> s = toString z -> BigInt s = inr z.
Proof.
  intros Hs ->. destruct (BigInt_decimal _ Hs) as (z' & Hd & Hb).
  rewrite digitsValue_toString in Hd by exact Hs. congruence.
Qed.

Lemma number_char_other (c x : ascii) :
  isNumberChar c = false -> isNumberChar x = true -> negb (Ascii.eqb x c) = true.
Proof.
  intros Hc Hx. destruct (Ascii.eqb x c) eqn:E; [| reflexivity].
  apply Ascii.eqb_eq in E. congruence.
Qed.

(** A needle that starts with a letter does not occur in "have/need". *)
Lemma counts_lack (c : ascii) (sub : string) (a b : Z) :
  isNumberChar c = false -> Ascii.eqb "/" c = false ->
  includes (String c sub) (toString a ++ "/" ++ toString b) = false.
Proof.
  intros Hc Hslash. apply includes_absent. rewrite allChars_app.
  change ("/" ++ toString b) with (String "/" (toString b)). cbn [allChars].
  rewrite Hslash.
  now rewrite !(allChars_impl isNumberChar _ _ (fun x => number_char_other c x Hc)
                  (toString_chars _)).
Qed.

(** None of the verifier's reasons makes the message thrown by
    [validateSubmittedProof] one that the middleware's [catch] recognises. *)
Lemma reason_not_recognised (e : string) :
  isVerifierReason e ->
  includes "validation failed" ("Transaction verification failed: " ++ e) = false
  /\ includes "not settled" ("Transaction verification failed: " ++ e) = false
  /\ includes "Invalid signature" ("Transaction verification failed: " ++ e) = false.
Proof.
  intros [Hin | (a & b & ->)].
  - simpl in Hin.
    repeat (destruct Hin as [<- | Hin]; [now vm_compute |]). destruct Hin.
  - repeat split; cbn -[toString]; now apply counts_lack.
Qed.

End ValueFacts.

(** ** The gating middlewares *)

Section Gating.

Import StringFacts NumberFacts ValueFacts.

Variable cfg : Config.
Variable eth : Ethers.
Variable chain : ChainClient.
Variable dateNow : Z.
Variable entropy : nat -> Byte.byte.

Local Abbreviation sync := (requireS402 cfg eth chain dateNow entropy).
Local Abbreviation async := (requireS402Async cfg eth chain dateNow entropy).
Local Abbreviation errorsOf := (parameterErrors cfg dateNow).

(** Every failure of the verifier comes with one of its reasons. *)
Lemma verify_failure_reason (h : string) (p : PaymentData) (t : list Event)
    (r : VerifyResult) :
  verifyTransactionSettlement cfg eth chain h p = (t, inr r) ->
  verified r = false ->
  exists e, error r = Some e /\ isVerifierReason e.
Proof.
  unfold_verifier. unfold isVerifierReason.
  repeat (case_step; simpl); intros [= <- <-]; simpl; try discriminate; intros _;
    eexists; (split; [reflexivity |]);
    first [ left; simpl; tauto | right; eauto ].
Qed.

Lemma schema_value (pf : S402Proof) :
  s402ProofSchema pf = true -> isDecimalString (value (payment pf)) = true.
Proof.
  unfold s402ProofSchema, paymentDataSchema. rewrite !andb_true_iff. tauto.
Qed.

Lemma schema_txHash (pf : S402Proof) (h : string) :
  s402ProofSchema pf = true -> txHash pf = Some h -> truthy (txHash pf) = true.
Proof.
  unfold s402ProofSchema. rewrite !andb_true_iff. intros (_ & _ & _ & Hh) E.
  rewrite E in *. destruct h; [discriminate | reflexivity].
Qed.

Lemma parameterErrors_valid (pf : S402Proof) (price : Z) (expectedRecipient : string) :
  s402ProofSchema pf = true ->
  ParametersValid cfg dateNow pf price expectedRecipient ->
  errorsOf pf price expectedRecipient = [].
Proof.
  intros Hs ((h & Hh) & Hv & Hr & Hd & Hc). unfold parameterErrors, getChainId.
  rewrite (schema_txHash pf h Hs Hh), Hv, String.eqb_refl, Hc.
  apply eqIgnoreCase_true in Hr. rewrite Hr.
  apply Z.leb_gt in Hd. rewrite Hd. reflexivity.
Qed.


Lemma error_value (pf : S402Proof) (price : Z) (rcp : string) :
  value (payment pf) <> toString price ->
  In ("Invalid payment value: expected " ++ toString price ++ ", got " ++ value (payment pf))
     (errorsOf pf price rcp).
Proof.
  intros H. unfold parameterErrors. apply in_concat. eexists.
  split; [right; left; reflexivity |].
  apply String.eqb_neq in H. rewrite H. now left.
Qed.




Lemma listed_error_in_message (e : string) (errors : list string) :
  In e errors -> includes e ("Proof validation failed: " ++ join ", " errors) = true.
Proof. intros H. apply includes_app_l. now apply includes_join. Qed.

Lemma validate_rejects (pf : S402Proof) (price : Z) (rcp : string) :
  errorsOf pf price rcp <> [] ->
  validateParametersAndSignature cfg eth dateNow pf price rcp
  = ([EvLog Warn "Proof validation failed"],
     inl (newError ("Proof validation failed: " ++ join ", " (errorsOf pf price rcp)))).
Proof.
  intros Hne. unfold validateParametersAndSignature.
  destruct (errorsOf pf price rcp) as [| e es]; [now elim Hne | reflexivity].
Qed.

Lemma validate_accepts (pf : S402Proof) (price : Z) (rcp : string) (ts : list Event) :
  errorsOf pf price rcp = [] ->
  verifyEIP712Signature eth (payment pf) (authSig pf) (buildEIP712Domain cfg)
  = (ts, inr true) ->
  validateParametersAndSignature cfg eth dateNow pf price rcp
  = ((ts ++ [EvLog Debug "EIP-712 signature verified"])%list, inr tt).
Proof.
  intros He Hsig. unfold validateParametersAndSignature. rewrite He, Hsig. reflexivity.
Qed.

(** A proof with a failed parameter check is answered 403 by both
    middlewares, before the signature is looked at and before the chain
    client is asked anything. *)
Lemma rejected_when_errors (routeKey : string) (req : Request) (pf : S402Proof)
    (tp : list Event) (price : Z) :
  body_s402Proof req = Some pf ->
  s402ProofSchema pf = true ->
  getPriceForRoute cfg routeKey = (tp, inr price) ->
  errorsOf pf price (getRecipientForRoute cfg routeKey) <> [] ->
  sync routeKey req
  = ((tp ++ [ EvLog Debug "S402 middleware invoked";
              EvLog Info "S402 proof submitted - beginning validation";
              EvLog Warn "Proof validation failed";
              EvLog Error "❌ S402 verification failed" ])%list,
     verificationFailed403
       ("Proof validation failed: "
        ++ join ", " (errorsOf pf price (getRecipientForRoute cfg routeKey))))
  /\ async routeKey req
     = ((tp ++ [ EvLog Debug "S402 async middleware invoked";
                 EvLog Info "S402 proof submitted - beginning async validation";
                 EvLog Warn "Proof validation failed";
                 EvLog Error "❌ S402 async verification failed" ])%list,
        verificationFailed403
          ("Proof validation failed: "
           ++ join ", " (errorsOf pf price (getRecipientForRoute cfg routeKey))),
        []).
Proof.
  intros Hb Hs Hp He.
  assert (Hrec : forall x, includes "validation failed" ("Proof validation failed: " ++ x) = true).
  { intros x. now apply (includes_app_r _ "Proof validation failed: "). }
  unfold requireS402, requireS402Async, settle. rewrite Hp, Hb.
  unfold s402ProofSchema_parse. rewrite Hs.
  cbn [bind log ret lift throw app].
  unfold validateSubmittedProof, validateSubmittedProofAsync.
  rewrite validate_rejects by exact He.
  cbn [bind log ret lift throw app onVerificationError err_message newError err_name].
  rewrite Hrec. cbn [orb]. rewrite <- !app_assoc. split; reflexivity.
Qed.


(** C10. The value check compares text: a proof whose value denotes the
    expected price but is not written as the price's decimal rendering
    (leading zeros, which the schema admits) is answered 403 by both
    middlewares, the message naming the value mismatch. *)
Theorem value_compared_as_text (routeKey : string) (req : Request) (pf : S402Proof)
    (tp : list Event) (price : Z) :
  body_s402Proof req = Some pf ->
  s402ProofSchema pf = true ->
  getPriceForRoute cfg routeKey = (tp, inr price) ->
  BigInt (value (payment pf)) = inr price ->
  value (payment pf) <> toString price ->
  exists message,
    snd (sync routeKey req) = verificationFailed403 message
    /\ snd (fst (async routeKey req)) = verificationFailed403 message
    /\ includes ("Invalid payment value: expected " ++ toString price
                 ++ ", got " ++ value (payment pf)) message = true.
Proof.
  intros Hb Hs Hp _ Hne.
  pose proof (error_value pf price (getRecipientForRoute cfg routeKey) Hne) as Hin.
  assert (Hnil : errorsOf pf price (getRecipientForRoute cfg routeKey) <> []).
  { intros E. rewrite E in Hin. destruct Hin. }
  destruct (rejected_when_errors routeKey req pf tp price Hb Hs Hp Hnil) as [E1 E2].
  eexists. rewrite E1, E2. split; [reflexivity |]. split; [reflexivity |].
  now apply listed_error_in_message.
Qed.

Lemma toHex_length (bytes : list Byte.byte) :
  String.length (toHex bytes) = (2 * List.length bytes)%nat.
Proof. induction bytes as [| b bs IH]; simpl; [reflexivity | rewrite IH; lia]. Qed.

Lemma toHex_chars (bytes : list Byte.byte) : allChars isHexDigit (toHex bytes) = true.
Proof.
  induction bytes as [| b bs IH]; [reflexivity |].
  cbn [toHex allChars]. rewrite IH.
  now destruct b.
Qed.

Lemma randomBytes_length (n : nat) : List.length (randomBytes entropy n) = n.
Proof. unfold randomBytes. now rewrite length_map, length_seq. Qed.

(** C7. A request without a proof is answered 402 by both middlewares with
    a payment authorization whose nonce is "0x" followed by the hex of 32
    bytes drawn from the system's random generator, whose deadline is the
    current unix second plus 600, whose value is the rendering of the
    route's price, whose recipient is the route's recipient, and whose owner
    is the zero address when the caller declared none. *)
Theorem challenge_when_no_proof (routeKey : string) (req : Request)
    (tp : list Event) (price : Z) :
  body_s402Proof req = None ->
  getPriceForRoute cfg routeKey = (tp, inr price) ->
  exists challenge,
    snd (sync routeKey req)
    = Respond 402
        (BodyPaymentRequired
           (buildPaymentRequired S402_FACILITATOR USD1_TOKEN (getChainId cfg) routeKey
              challenge (buildEIP712Domain cfg)))
    /\ snd (fst (async routeKey req)) = snd (sync routeKey req)
    /\ nonce challenge = "0x" ++ toHex (randomBytes entropy 32)
    /\ List.length (randomBytes entropy 32) = 32%nat
    /\ hex32Schema (nonce challenge) = true
    /\ deadline challenge = dateNow / 1000 + 600
    /\ value challenge = toString price
    /\ recipient challenge = getRecipientForRoute cfg routeKey
    /\ (body_owner req = None -> owner challenge = ZERO_ADDRESS).
Proof.
  intros Hb Hp.
  unfold requireS402, requireS402Async, settle. rewrite Hp, Hb.
  unfold paymentRequired, buildPaymentRequest.
  cbn [bind log ret lift throw app fst snd].
  eexists. split; [reflexivity |]. split; [reflexivity |].
  cbn [nonce deadline value recipient owner].
  split; [reflexivity |]. split; [apply randomBytes_length |].
  split; [| split; [reflexivity | split; [reflexivity | split; [reflexivity |]]]].
  - unfold hex32Schema, generateNonce, isHexOfLength.
    change ("0x" ++ toHex (randomBytes entropy 32))
      with (String "0" (String "x" (toHex (randomBytes entropy 32)))).
    cbn [orb Ascii.eqb]. rewrite toHex_length, randomBytes_length, toHex_chars.
    reflexivity.
  - intros Ho. now rewrite Ho.
Qed.

Lemma price_events (routeKey : string) (tp : list Event) (price : Z) (ev : Event) :
  getPriceForRoute cfg routeKey = (tp, inr price) ->
  In ev tp -> exists level msg, ev = EvLog level msg.
Proof.
  unfold getPriceForRoute, bind, lift, log, ret.
  destruct (truthy (getProperty routeKey (PRICE_TABLE cfg)));
    repeat (case_step; simpl); intros E H; inversion E; subst; absent_event H; eauto.
Qed.

Lemma signature_events (p : PaymentData) (sg : Signature) (d : EIP712Domain)
    (ts : list Event) (b : bool) (ev : Event) :
  verifyEIP712Signature eth p sg d = (ts, inr b) ->
  In ev ts -> exists level msg, ev = EvLog level msg.
Proof.
  unfold verifyEIP712Signature, tryCatch, bind, lift, log, ret.
  repeat (case_step; simpl); intros E H; inversion E; subst; absent_event H; eauto.
Qed.

(** The way of a proof that passes the parameter and signature checks
    through the asynchronous middleware, whatever the chain client. *)
Lemma async_run (chain0 : ChainClient) (routeKey : string) (req : Request)
    (pf : S402Proof) (tp ts : list Event) (price : Z) :
  body_s402Proof req = Some pf ->
  s402ProofSchema pf = true ->
  getPriceForRoute cfg routeKey = (tp, inr price) ->
  ParametersValid cfg dateNow pf price (getRecipientForRoute cfg routeKey) ->
  verifyEIP712Signature eth (payment pf) (authSig pf) (buildEIP712Domain cfg)
  = (ts, inr true) ->
  let pending := verifyTransactionSettlement cfg eth chain0 (txHashOf pf) (payment pf) in
  requireS402Async cfg eth chain0 dateNow entropy routeKey req
  = ((tp ++ [ EvLog Debug "S402 async middleware invoked";
              EvLog Info "S402 proof submitted - beginning async validation" ]
         ++ ts
         ++ [ EvLog Debug "EIP-712 signature verified";
              EvGetTransactionReceipt (txHashOf pf);
              EvLog Info "✅ Payment ACCEPTED (signature verified, blockchain verification in background) - granting API access" ])%list,
     Next (mkS402Context (owner (payment pf)) price (payment pf) (txHash pf)
             (Some true) (Some pending)),
     (pendingEvents pending ++ [backgroundLine (snd pending)])%list).
Proof.
  intros Hb Hs Hp Hvalid Hsig pending.
  pose proof (parameterErrors_valid _ _ _ Hs Hvalid) as Hnil.
  assert (Hval : BigInt (value (payment pf)) = inr price).
  { apply BigInt_of_rendering; [now apply schema_value | apply Hvalid]. }
  destruct (verify_started cfg eth chain0 (txHashOf pf) (payment pf)) as [Hst _].
  unfold requireS402Async, settle. rewrite Hp, Hb.
  unfold s402ProofSchema_parse. rewrite Hs.
  cbn [bind log ret lift throw app].
  unfold validateSubmittedProofAsync.
  rewrite (validate_accepts _ _ _ ts Hnil Hsig). unfold start. rewrite Hst, Hval.
  cbn [bind log ret lift throw app].
  unfold backgroundVerification, backgroundLine. cbn [verificationPromise].
  fold pending.
  repeat rewrite <- app_assoc; cbn [app]; rewrite ?app_nil_r; reflexivity.
Qed.

(** C8. In the asynchronous discipline a schema-valid proof that passes the
    parameter and signature checks is let through to the protected handler
    at once, with a context that carries [verifiedAsync] true and the
    pending verification.  The verification has been started by then (its
    request for the receipt has gone out) but no answer of the chain client
    is waited for: what happens before the hand-over, and the grant, are
    the same whatever the chain client answers, and that request is the
    only call of the chain client before the hand-over.  What the
    verification yields later only adds, after the rest of its own events,
    one log line (info when verified, warning otherwise); the verifier
    never rejecting, the line is never the one for a rejected promise. *)
Theorem async_grants_before_settlement (routeKey : string) (req : Request)
    (pf : S402Proof) (tp ts : list Event) (price : Z) :
  body_s402Proof req = Some pf ->
  s402ProofSchema pf = true ->
  getPriceForRoute cfg routeKey = (tp, inr price) ->
  ParametersValid cfg dateNow pf price (getRecipientForRoute cfg routeKey) ->
  verifyEIP712Signature eth (payment pf) (authSig pf) (buildEIP712Domain cfg)
  = (ts, inr true) ->
  let pending := verifyTransactionSettlement cfg eth chain (txHashOf pf) (payment pf) in
  async routeKey req
  = ((tp ++ [ EvLog Debug "S402 async middleware invoked";
              EvLog Info "S402 proof submitted - beginning async validation" ]
         ++ ts
         ++ [ EvLog Debug "EIP-712 signature verified";
              EvGetTransactionReceipt (txHashOf pf);
              EvLog Info "✅ Payment ACCEPTED (signature verified, blockchain verification in background) - granting API access" ])%list,
     Next (mkS402Context (owner (payment pf)) price (payment pf) (txHash pf)
             (Some true) (Some pending)),
     (pendingEvents pending ++ [backgroundLine (snd pending)])%list)
  /\ fst pending = EvGetTransactionReceipt (txHashOf pf) :: pendingEvents pending
  /\ (exists result,
        snd pending = inr result
        /\ backgroundLine (snd pending)
           = if verified result
             then EvLog Info "✅ Background blockchain verification completed successfully"
             else EvLog Warn "⚠️ Background blockchain verification failed (API access already granted)")
  /\ (forall chain' : ChainClient,
        fst (fst (requireS402Async cfg eth chain' dateNow entropy routeKey req))
        = fst (fst (async routeKey req))
        /\ snd (fst (requireS402Async cfg eth chain' dateNow entropy routeKey req))
           = Next (mkS402Context (owner (payment pf)) price (payment pf) (txHash pf)
                     (Some true)
                     (Some (verifyTransactionSettlement cfg eth chain' (txHashOf pf)
                              (payment pf)))))
  /\ (forall ev, In ev (fst (fst (async routeKey req))) ->
                 (exists level msg, ev = EvLog level msg)
                 \/ ev = EvGetTransactionReceipt (txHashOf pf)).
Proof.
  intros Hb Hs Hp Hvalid Hsig pending.
  pose proof (async_run chain routeKey req pf tp ts price Hb Hs Hp Hvalid Hsig) as E.
  cbv zeta in E. fold pending in E.
  split; [exact E |].
  split; [apply (verify_started cfg eth chain (txHashOf pf) (payment pf)) |].
  split; [| split].
  - destruct (verify_total cfg eth chain (txHashOf pf) (payment pf)) as (t & r & Hr).
    exists r. fold pending in Hr. rewrite Hr. split; reflexivity.
  - intros chain'.
    pose proof (async_run chain' routeKey req pf tp ts price Hb Hs Hp Hvalid Hsig) as E'.
    cbv zeta in E'. rewrite E, E'. split; reflexivity.
  - rewrite E. cbn [fst]. intros ev H. rewrite !in_app_iff in H.
    destruct H as [H | [H | [H | H]]].
    + left. eapply price_events; eauto.
    + left. absent_event H; eauto.
    + left. eapply signature_events; eauto.
    + simpl in H. destruct H as [<- | [<- | [<- | []]]]; eauto.
Qed.

(** C1, as the code has it. In the synchronous discipline a schema-valid
    proof that passes the parameter and signature checks but whose
    settlement verification fails never reaches the protected handler; the
    error thrown, "Transaction verification failed: <reason>", matches none
    of the phrases the middleware answers 403 for, so it is handed to the
    global error handler, which answers 500 INTERNAL_ERROR. *)
Theorem settlement_failure_response (processEnv : string -> option string)
    (routeKey : string) (req : Request)
    (pf : S402Proof) (tp ts tv : list Event) (price : Z) (r : VerifyResult) :
  body_s402Proof req = Some pf ->
  s402ProofSchema pf = true ->
  getPriceForRoute cfg routeKey = (tp, inr price) ->
  ParametersValid cfg dateNow pf price (getRecipientForRoute cfg routeKey) ->
  verifyEIP712Signature eth (payment pf) (authSig pf) (buildEIP712Domain cfg)
  = (ts, inr true) ->
  verifyTransactionSettlement cfg eth chain (txHashOf pf) (payment pf) = (tv, inr r) ->
  verified r = false ->
  snd (sync routeKey req)
  = NextError (newError ("Transaction verification failed: " ++ renderError (error r)))
  /\ snd (gatedRoute cfg eth chain dateNow entropy processEnv routeKey req)
     = internalError500 processEnv
         (newError ("Transaction verification failed: " ++ renderError (error r))).
Proof.
  intros Hb Hs Hp Hvalid Hsig Hver Hfail.
  pose proof (parameterErrors_valid _ _ _ Hs Hvalid) as Hnil.
  destruct (verify_failure_reason _ _ _ _ Hver Hfail) as (e & He & Hreason).
  destruct (reason_not_recognised e Hreason) as (N1 & N2 & N3).
  assert (E : snd (sync routeKey req)
    = NextError (newError ("Transaction verification failed: " ++ renderError (error r)))).
  { unfold requireS402, settle. rewrite Hp, Hb.
    unfold s402ProofSchema_parse. rewrite Hs.
    cbn [bind log ret lift throw app].
    unfold validateSubmittedProof.
    rewrite (validate_accepts _ _ _ ts Hnil Hsig), Hver.
    cbn [bind log ret lift throw app]. rewrite Hfail.
    cbn [negb bind log ret lift throw app onVerificationError err_message newError
         err_name snd].
    rewrite He. cbn [renderError]. rewrite N1, N2, N3. reflexivity. }
  split; [exact E |].
  unfold gatedRoute. destruct (sync routeKey req) as [t o]. cbn [snd] in E. subst o.
  reflexivity.
Qed.

End Gating.

(** ** The properties at work on the concrete deployment *)

Module Witness.

Import Demo.

Lemma base_price :
  getPriceForRoute cfg "tool.example"
  = ([EvLog Debug "Using base price"], inr 1000000000000000).
Proof. reflexivity. Qed.

Lemma demo_parameters_valid :
  ParametersValid cfg now proof 1000000000000000 (getRecipientForRoute cfg "tool.example").
Proof.
  unfold ParametersValid. split; [now exists hash1 |].
  repeat split; vm_compute; reflexivity.
Qed.

Lemma demo_signature :
  verifyEIP712Signature ethers (payment proof) (authSig proof) (buildEIP712Domain cfg)
  = ([EvLog Debug "EIP-712 signature verified successfully"], inr true).
Proof. reflexivity. Qed.

Lemma demo_receipt_accepted (ls : list Log) : receiptAccepted cfg (receiptWith ls) 101.
Proof.
  unfold receiptAccepted. split; [vm_compute; discriminate |].
  split; [reflexivity |]. now exists S402_FACILITATOR.
Qed.


(** One confirmation where two are asked for. *)
Lemma insufficient_confirmations_witness :
  verifyTransactionSettlement cfg ethers (chainAt 100 [settledLog] "settlePayment")
    hash1 pay
  = ([ EvGetTransactionReceipt hash1; EvGetBlockNumber;
       EvLog Debug "Checking transaction confirmations";
       EvLog Warn "Insufficient confirmations" ],
     inr (mkVerifyResult false 1 (Some "Insufficient confirmations: 1/2"))).
Proof.
  apply (insufficient_confirmations_short_circuit
           cfg ethers (chainAt 100 [settledLog] "settlePayment") hash1 pay
           (receiptWith [settledLog]) 100);
    reflexivity.
Defined.

(** A matching event, with call data that would not have matched. *)
Lemma settlement_event_witness :
  verifyTransactionSettlement cfg ethers (chainAt 101 [settledLog] "pause") hash1 pay
  = ([ EvGetTransactionReceipt hash1; EvGetBlockNumber;
       EvLog Debug "Checking transaction confirmations";
       EvLog Info "Transaction verified successfully via PaymentSettled event" ],
     inr (mkVerifyResult true 2 None))
  /\ ~ In (EvGetTransaction hash1)
          (fst (verifyTransactionSettlement cfg ethers
                  (chainAt 101 [settledLog] "pause") hash1 pay)).
Proof.
  apply (settlement_event_verifies
           cfg ethers (chainAt 101 [settledLog] "pause") hash1 pay
           (receiptWith [settledLog]) 101 settledLog
           (mkEventArgs (Some alice) (Some bob) (Some nonce1)
                        (Some 1000000000000000) (Some 0))
           alice bob 1000000000000000 1000000000000000);
    try reflexivity.
  - apply demo_receipt_accepted.
  - now left.
  - now left.
Defined.

(** No event, and call data that settles the payment. *)
Lemma calldata_fallback_witness :
  exists t r,
    verifyTransactionSettlement cfg ethers (chainAt 101 [] "settlePayment") hash1 pay
    = (t, inr r)
    /\ In (EvGetTransaction hash1) t
    /\ verified r = true.
Proof.
  destruct (proj1 (proj2 (calldata_fallback cfg ethers (chainAt 101 [] "settlePayment")
                            hash1 pay))
              (receiptWith []) 101 (mkTransactionResponse "settlePayment" 0 (Some alice))
              eq_refl eq_refl (demo_receipt_accepted []) eq_refl eq_refl)
    as (t & r & E & Hin & Hiff & _).
  exists t, r. split; [exact E |]. split; [exact Hin |].
  apply Hiff.
  exists (mkTransactionDescription "settlePayment"
            (Some (mkTxPayment (Some alice) (Some bob) (Some 1000000000000000)
                               (Some 2000000600) (Some nonce1)))
            None),
         (mkTxPayment (Some alice) (Some bob) (Some 1000000000000000)
                      (Some 2000000600) (Some nonce1)).
  split; [reflexivity |]. split; [now left |]. split; [reflexivity |].
  unfold CalldataAgrees. simpl.
  repeat split; eauto.
Defined.

(** Call data that decodes to another function of the contract is refused
    as an unexpected call, not as unparseable call data. *)
Lemma unexpected_function_not_unparseable :
  exists t r,
    verifyTransactionSettlement cfg ethers (chainAt 101 [] "pause") hash1 pay = (t, inr r)
    /\ parseTransaction ethers "pause" 0
       = inr (Some (mkTransactionDescription "pause" None None))
    /\ isSettlementFunction "pause" = false
    /\ verified r = false
    /\ error r = Some "Unexpected function call"
    /\ error r <> Some "Unable to parse transaction calldata".
Proof.
  do 2 eexists. split; [reflexivity |]. simpl.
  repeat split; discriminate.
Qed.

(** A deadline beyond the safe integers: for the expected deadline 2^60,
    a double that the schema admits, the struct deadline that is accepted
    is the number the rendering of 2^60 spells, which is not 2^60; the
    struct deadline 2^60 itself is refused. *)
Lemma deadline_compared_as_text :
  let expected := mkPaymentData alice "1000000000000000" (2 ^ 60) bob nonce1 in
  let tx := mkTransactionResponse "settlePayment" 0 (Some alice) in
  let struct d :=
    mkTxPayment (Some alice) (Some bob) (Some 1000000000000000) (Some d) (Some nonce1) in
  paymentDataSchema expected = true
  /\ isDouble (2 ^ 60) = true
  /\ calldataMatches (struct 1152921504606847000) tx expected = true
  /\ calldataMatches (struct (2 ^ 60)) tx expected = false.
Proof. repeat split; vm_compute; reflexivity. Qed.

(** The owner's own signature verifies. *)
Lemma signature_witness :
  exists t,
    verifyEIP712Signature ethers pay (authSig proof) (buildEIP712Domain cfg)
    = (t, inr true).
Proof.
  destruct (verifyEIP712Signature_iff ethers pay (authSig proof) (buildEIP712Domain cfg))
    as (t & b & E & Hiff & _).
  exists t. rewrite E. do 2 f_equal. apply Hiff.
  exists (mkSignature 27 goodR someS), alice. repeat split.
Defined.


(** The price written with a leading zero. *)
Lemma value_compared_as_text_witness :
  exists message,
    snd (requireS402 cfg ethers (chainAt 101 [settledLog] "settlePayment") now entropy
           "tool.example" (requestWith proofLeadingZero))
    = verificationFailed403 message
    /\ includes "Invalid payment value: expected 1000000000000000, got 01000000000000000"
         message = true.
Proof.
  destruct (value_compared_as_text
              cfg ethers (chainAt 101 [settledLog] "settlePayment") now entropy
              "tool.example" (requestWith proofLeadingZero) proofLeadingZero
              [EvLog Debug "Using base price"] 1000000000000000
              eq_refl eq_refl base_price eq_refl)
    as (message & E & _ & Hin).
  - intros H. vm_compute in H. discriminate H.
  - exists message. split; [exact E | exact Hin].
Defined.

(** A request without a proof. *)
Lemma challenge_witness :
  exists challenge,
    snd (requireS402 cfg ethers chainDown now entropy "tool.example" requestWithoutProof)
    = Respond 402
        (BodyPaymentRequired
           (buildPaymentRequired S402_FACILITATOR USD1_TOKEN 56 "tool.example"
              challenge (buildEIP712Domain cfg)))
    /\ nonce challenge
       = "0x000102030405060708090a0b0c0d0e0f101112131415161718191a1b1c1d1e1f"
    /\ deadline challenge = 2000001199
    /\ value challenge = "1000000000000000"
    /\ recipient challenge = bob
    /\ owner challenge = ZERO_ADDRESS.
Proof.
  destruct (challenge_when_no_proof cfg ethers chainDown now entropy
              "tool.example" requestWithoutProof
              [EvLog Debug "Using base price"] 1000000000000000 eq_refl base_price)
    as (challenge & E & _ & Hn & _ & _ & Hd & Hv & Hr & Ho).
  exists challenge. split; [exact E |].
  split; [exact Hn |]. split; [exact Hd |]. split; [exact Hv |].
  split; [exact Hr | now apply Ho].
Defined.

(** One confirmation where two are asked for, asynchronous discipline: the
    handler runs, the failure is logged as a warning afterwards. *)
Lemma async_witness :
  exists t context background,
    requireS402Async cfg ethers (chainAt 100 [settledLog] "settlePayment") now entropy
      "tool.example" (requestWith proof)
    = (t, Next context, background)
    /\ verifiedAsync context = Some true
    /\ last background EvGetBlockNumber
       = EvLog Warn "⚠️ Background blockchain verification failed (API access already granted)".
Proof.
  destruct (async_grants_before_settlement
              cfg ethers (chainAt 100 [settledLog] "settlePayment") now entropy
              "tool.example" (requestWith proof) proof
              [EvLog Debug "Using base price"]
              [EvLog Debug "EIP-712 signature verified successfully"]
              1000000000000000
              eq_refl eq_refl base_price demo_parameters_valid demo_signature)
    as [E _].
  do 3 eexists. split; [exact E |]. split; reflexivity.
Defined.

(** One confirmation where two are asked for, synchronous discipline: the
    request ends in the error handler's 500. *)
Lemma settlement_failure_witness :
  snd (requireS402 cfg ethers (chainAt 100 [settledLog] "settlePayment") now entropy
         "tool.example" (requestWith proof))
  = NextError (newError "Transaction verification failed: Insufficient confirmations: 1/2")
  /\ snd (gatedRoute cfg ethers (chainAt 100 [settledLog] "settlePayment") now entropy
            processEnv "tool.example" (requestWith proof))
     = Respond 500 (BodyError "INTERNAL_ERROR" "An internal server error occurred" None).
Proof.
  apply (settlement_failure_response
           cfg ethers (chainAt 100 [settledLog] "settlePayment") now entropy
           processEnv "tool.example" (requestWith proof) proof
           [EvLog Debug "Using base price"]
           [EvLog Debug "EIP-712 signature verified successfully"]
           [ EvGetTransactionReceipt hash1; EvGetBlockNumber;
             EvLog Debug "Checking transaction confirmations";
             EvLog Warn "Insufficient confirmations" ]
           1000000000000000
           (mkVerifyResult false 1 (Some "Insufficient confirmations: 1/2"))
           eq_refl eq_refl base_price demo_parameters_valid demo_signature
           eq_refl eq_refl).
Defined.

End Witness.

(** * Further properties of the server *)

(** ** The settlement verifier, continued *)

Section VerifierMore.

Variable cfg : Config.
Variable eth : Ethers.
Variable chain : ChainClient.
Variable h : string.
Variable p : PaymentData.

Local Abbreviation verify := (verifyTransactionSettlement cfg eth chain h p).

Lemma receiptAccepted_of_checks (rc : TransactionReceipt) (cur : Z) :
  (cur - blockNumber rc + 1 <? MINIMUM_CONFIRMATIONS cfg) = false ->
  negb (match status rc with Some st => st =? 1 | None => false end) = false ->
  negb (eqIgnoreCaseOpt (receipt_to rc) S402_FACILITATOR) = false ->
  receiptAccepted cfg rc cur.
Proof.
  intros H1 H2 H3. unfold receiptAccepted. split; [now apply Z.ltb_ge |]. split.
  - destruct (status rc) as [st |]; [| discriminate].
    apply negb_false_iff, Z.eqb_eq in H2. now subst.
  - apply negb_false_iff in H3. now apply eqIgnoreCaseOpt_true.
Qed.

Lemma logMatches_settles (l : Log) :
  logMatches eth p l = true <-> EventSettles eth p l.
Proof.
  unfold logMatches, EventSettles, paymentSettledMatches, required, ebind. split.
  - destruct (parseLog eth l) as [e | [[name args] |]]; try discriminate.
    cbn [ld_name ld_args].
    destruct (String.eqb name "PaymentSettled") eqn:Hname; [| discriminate].
    apply String.eqb_eq in Hname. subst name.
    destruct (arg_from args) as [from |] eqn:Hf; [| discriminate].
    destruct (arg_to args) as [to |] eqn:Ht; [| discriminate].
    destruct (arg_value args) as [ev |] eqn:Hv; [| discriminate].
    destruct (BigInt (value p)) as [e | expected] eqn:Hb; [discriminate |].
    rewrite !andb_true_iff, orb_true_iff, !eqIgnoreCase_true, strictEqOpt_true, !Z.eqb_eq.
    intros [[Hfl Htl] [Hn Ha]].
    exists args, from, to, ev, expected. repeat split; auto.
    destruct Ha as [Ha | Ha]; [now left | right].
    destruct (arg_platformFee args) as [fee |]; [| exact Ha].
    destruct (fee =? 0) eqn:E; [| exact Ha].
    apply Z.eqb_eq in E. now subst fee.
  - intros (args & from & to & ev & expected & Hp & Hf & Hfl & Ht & Htl & Hn & Hv & Hb & Ha).
    rewrite Hp. cbn [ld_name ld_args]. rewrite String.eqb_refl, Hf, Ht, Hv, Hb.
    rewrite !andb_true_iff, orb_true_iff, !eqIgnoreCase_true, strictEqOpt_true, !Z.eqb_eq.
    repeat split; auto.
    destruct Ha as [Ha | Ha]; [now left | right].
    destruct (arg_platformFee args) as [fee |]; [| exact Ha].
    destruct (fee =? 0) eqn:E; [| exact Ha].
    apply Z.eqb_eq in E. now subst fee.
Qed.

Lemma matchedEvent_found (ls : list Log) :
  matchedEvent eth p ls = true -> exists l, In l ls /\ logMatches eth p l = true.
Proof.
  induction ls as [| x ls IH]; simpl; [discriminate |].
  destruct (logMatches eth p x) eqn:Hx.
  - intros _. exists x. split; [now left | exact Hx].
  - intros H. destruct (IH H) as (l & Hin & Hl). exists l. split; [now right | exact Hl].
Qed.

(** X6. The scan of the receipt's logs succeeds exactly when some log
    settles the payment, wherever in the list it stands. *)
Theorem matchedEvent_iff (ls : list Log) :
  matchedEvent eth p ls = true <-> exists l, In l ls /\ EventSettles eth p l.
Proof.
  split.
  - intros H. destruct (matchedEvent_found ls H) as (l & Hin & Hl).
    exists l. split; [exact Hin |]. now apply logMatches_settles.
  - intros (l & Hin & Hl). apply (matchedEvent_In eth p l ls Hin).
    now apply logMatches_settles.
Qed.

(** X7. Logs the decoder throws on, does not know, or decodes to another
    event do not change the outcome of the scan, wherever they stand. *)
Theorem foreign_logs_skipped (before after : list Log) (l : Log) :
  ForeignLog eth l ->
  matchedEvent eth p (before ++ l :: after) = matchedEvent eth p (before ++ after).
Proof.
  intros Hl.
  assert (Hno : logMatches eth p l = false).
  { unfold logMatches. destruct Hl as [[e ->] | [-> | (parsed & -> & Hname)]];
      try reflexivity.
    apply String.eqb_neq in Hname. now rewrite Hname. }
  induction before as [| x before IH]; simpl; [now rewrite Hno |].
  now rewrite IH.
Qed.

(** X1. The verifier never reports verified true unless the receipt was
    found with at least the configured confirmations, a successful status
    and the facilitator as target, and either one of its logs settles the
    payment or the fetched transaction's call data does (its payment
    struct and sender agreeing with the payment, the deadlines through
    their renderings); the count it reports is then head - block + 1 and no
    error is set. *)
Theorem verified_sound (t : list Event) (r : VerifyResult) :
  verify = (t, inr r) ->
  verified r = true ->
  exists rc cur,
    getTransactionReceipt chain h = inr (Some rc)
    /\ getBlockNumber chain = inr cur
    /\ receiptAccepted cfg rc cur
    /\ confirmations r = cur - blockNumber rc + 1
    /\ error r = None
    /\ ((exists l, In l (logs rc) /\ EventSettles eth p l)
        \/ (exists tx, getTransaction chain h = inr (Some tx)
                       /\ CalldataSettles eth p tx)).
Proof.
  unfold_verifier.
  destruct (getTransactionReceipt chain h) as [e | [rc |]] eqn:Hrc; simpl;
    try (intros [= <- <-]; discriminate).
  destruct (getBlockNumber chain) as [e | cur] eqn:Hbn; simpl;
    try (intros [= <- <-]; discriminate).
  destruct (cur - blockNumber rc + 1 <? MINIMUM_CONFIRMATIONS cfg) eqn:C1; simpl;
    try (intros [= <- <-]; discriminate).
  destruct (negb match status rc with Some st => st =? 1 | None => false end) eqn:C2;
    simpl; try (intros [= <- <-]; discriminate).
  destruct (negb (eqIgnoreCaseOpt (receipt_to rc) S402_FACILITATOR)) eqn:C3; simpl;
    try (intros [= <- <-]; discriminate).
  pose proof (receiptAccepted_of_checks rc cur C1 C2 C3) as Hacc.
  destruct (matchedEvent eth p (logs rc)) eqn:Hscan; simpl.
  - intros [= <- <-] _. exists rc, cur. repeat split; try apply Hacc.
    left. destruct (matchedEvent_found _ Hscan) as (l & Hin & Hl).
    exists l. split; [exact Hin |]. now apply logMatches_settles.
  - destruct (getTransaction chain h) as [e | [tx |]] eqn:Htx; simpl;
      try (intros [= <- <-]; discriminate).
    destruct (parseTransaction eth (tx_data tx) (tx_value tx)) as [e | [parsed |]] eqn:Hp;
      simpl; try (intros [= <- <-]; discriminate).
    destruct (isSettlementFunction (td_name parsed)) eqn:Hname; simpl;
      try (intros [= <- <-]; discriminate).
    destruct (txPaymentOf parsed) as [txPayment |] eqn:Htp; simpl;
      try (intros [= <- <-]; discriminate).
    destruct (calldataMatches txPayment tx p) eqn:Hm; simpl;
      try (intros [= <- <-]; discriminate).
    intros [= <- <-] _. exists rc, cur. repeat split; try apply Hacc.
    right. exists tx. split; [reflexivity |].
    exists parsed, txPayment. split; [exact Hp |].
    split; [now apply isSettlementFunction_true |]. split; [exact Htp |].
    now apply calldataMatches_agrees.
Qed.

(** A transaction the node has no receipt for is reported as not found,
    with zero confirmations, after that one lookup. *)
Theorem transaction_not_found :
  getTransactionReceipt chain h = inr None ->
  verify
  = ([ EvGetTransactionReceipt h; EvLog Warn "Transaction not found on-chain" ],
     inr (mkVerifyResult false 0 (Some "Transaction not found"))).
Proof. intros H. unfold_verifier. now rewrite H. Qed.

(** X2. With enough confirmations, a receipt whose status is not 1 (a
    reverted transaction, or no status at all) is rejected as a failed
    transaction before its target and logs are looked at, even when a log of
    it would settle the payment. *)
Theorem failed_transaction_rejected (rc : TransactionReceipt) (cur : Z) :
  getTransactionReceipt chain h = inr (Some rc) ->
  getBlockNumber chain = inr cur ->
  MINIMUM_CONFIRMATIONS cfg <= cur - blockNumber rc + 1 ->
  status rc <> Some 1 ->
  verify
  = ([ EvGetTransactionReceipt h; EvGetBlockNumber;
       EvLog Debug "Checking transaction confirmations";
       EvLog Warn "Transaction failed on-chain" ],
     inr (mkVerifyResult false (cur - blockNumber rc + 1) (Some "Transaction failed"))).
Proof.
  intros Hrc Hbn Hmin Hst. unfold_verifier. rewrite Hrc, Hbn. simpl.
  apply Z.ltb_ge in Hmin. rewrite Hmin.
  destruct (status rc) as [st |]; [| reflexivity].
  destruct (st =? 1) eqn:E; [| reflexivity].
  apply Z.eqb_eq in E. now subst.
Qed.

(** X3. A successful, confirmed transaction sent to any address other than
    the facilitator contract (or creating a contract) is rejected as calling
    the wrong contract, whatever its logs and call data say. *)
Theorem wrong_contract_rejected (rc : TransactionReceipt) (cur : Z) :
  getTransactionReceipt chain h = inr (Some rc) ->
  getBlockNumber chain = inr cur ->
  MINIMUM_CONFIRMATIONS cfg <= cur - blockNumber rc + 1 ->
  status rc = Some 1 ->
  (forall target, receipt_to rc = Some target ->
                  toLowerCase target <> toLowerCase S402_FACILITATOR) ->
  verify
  = ([ EvGetTransactionReceipt h; EvGetBlockNumber;
       EvLog Debug "Checking transaction confirmations";
       EvLog Warn "Transaction did not call S402Facilitator contract" ],
     inr (mkVerifyResult false (cur - blockNumber rc + 1) (Some "Wrong contract called"))).
Proof.
  intros Hrc Hbn Hmin Hst Hto. unfold_verifier. rewrite Hrc, Hbn. simpl.
  apply Z.ltb_ge in Hmin. rewrite Hmin, Hst. simpl.
  destruct (eqIgnoreCaseOpt (receipt_to rc) S402_FACILITATOR) eqn:E; [| reflexivity].
  apply eqIgnoreCaseOpt_true in E as (target & Ht & Hl). now elim (Hto target Ht).
Qed.

(** X4. On the call-data path, call data that decodes to a settlement
    function but whose payment struct or sender does not agree with the
    expected payment (another owner, recipient, value or nonce, a deadline
    whose rendering is not that of the expected deadline, or a transaction
    sent by someone other than the owner) is rejected with
    "Payment parameters mismatch". *)
Theorem calldata_mismatch_rejected (rc : TransactionReceipt) (cur : Z)
    (tx : TransactionResponse) (parsed : TransactionDescription) (txPayment : TxPayment) :
  getTransactionReceipt chain h = inr (Some rc) ->
  getBlockNumber chain = inr cur ->
  receiptAccepted cfg rc cur ->
  matchedEvent eth p (logs rc) = false ->
  getTransaction chain h = inr (Some tx) ->
  parseTransaction eth (tx_data tx) (tx_value tx) = inr (Some parsed) ->
  isSettlementFunction (td_name parsed) = true ->
  txPaymentOf parsed = Some txPayment ->
  ~ CalldataAgrees p txPayment tx ->
  snd verify
  = inr (mkVerifyResult false (cur - blockNumber rc + 1)
           (Some "Payment parameters mismatch")).
Proof.
  intros Hrc Hbn Hacc Hscan Htx Hp Hname Htp Hno.
  destruct (receiptAccepted_checks cfg rc cur Hacc) as (C1 & C2 & C3).
  unfold_verifier. rewrite Hrc, Hbn. simpl. rewrite C1, C2, C3, Hscan. simpl.
  rewrite Htx. simpl. rewrite Hp, Hname, Htp.
  destruct (calldataMatches txPayment tx p) eqn:Hm; [| reflexivity].
  apply calldataMatches_agrees in Hm. now elim Hno.
Qed.

(** On the call-data path, a transaction the node cannot return is
    reported as "Transaction data unavailable", and a decoded settlement
    call without a payment argument as "Missing payment arguments"; both
    keep the confirmations count. *)
Theorem calldata_unavailable (rc : TransactionReceipt) (cur : Z) :
  getTransactionReceipt chain h = inr (Some rc) ->
  getBlockNumber chain = inr cur ->
  receiptAccepted cfg rc cur ->
  matchedEvent eth p (logs rc) = false ->
  (getTransaction chain h = inr None ->
   snd verify
   = inr (mkVerifyResult false (cur - blockNumber rc + 1)
            (Some "Transaction data unavailable")))
  /\ (forall tx parsed,
        getTransaction chain h = inr (Some tx) ->
        parseTransaction eth (tx_data tx) (tx_value tx) = inr (Some parsed) ->
        isSettlementFunction (td_name parsed) = true ->
        txPaymentOf parsed = None ->
        snd verify
        = inr (mkVerifyResult false (cur - blockNumber rc + 1)
                 (Some "Missing payment arguments"))).
Proof.
  intros Hrc Hbn Hacc Hscan.
  destruct (receiptAccepted_checks cfg rc cur Hacc) as (C1 & C2 & C3).
  split.
  - intros Htx. unfold_verifier. rewrite Hrc, Hbn. simpl.
    rewrite C1, C2, C3, Hscan. simpl. now rewrite Htx.
  - intros tx parsed Htx Hp Hname Htp. unfold_verifier. rewrite Hrc, Hbn. simpl.
    rewrite C1, C2, C3, Hscan. simpl. rewrite Htx. simpl. now rewrite Hp, Hname, Htp.
Qed.

End VerifierMore.

(** X5. Verification survives the growth of the chain: when a transaction
    is verified at some chain head, it is verified at every later head,
    the receipt and the transaction staying as they are, with the
    confirmations counted from the new head. *)
Theorem verified_at_later_head (cfg : Config) (eth : Ethers) (chain chain' : ChainClient)
    (h : string) (p : PaymentData) (rc : TransactionReceipt) (cur cur' : Z)
    (t : list Event) (r : VerifyResult) :
  getTransactionReceipt chain h = inr (Some rc) ->
  getTransactionReceipt chain' h = inr (Some rc) ->
  getTransaction chain' h = getTransaction chain h ->
  getBlockNumber chain = inr cur ->
  getBlockNumber chain' = inr cur' ->
  cur <= cur' ->
  verifyTransactionSettlement cfg eth chain h p = (t, inr r) ->
  verified r = true ->
  verifyTransactionSettlement cfg eth chain' h p
  = (t, inr (mkVerifyResult true (cur' - blockNumber rc + 1) None)).
Proof.
  intros Hrc Hrc' Htx Hbn Hbn' Hle.
  unfold_verifier. rewrite Hrc, Hrc', Hbn, Hbn', Htx. simpl.
  destruct (cur - blockNumber rc + 1 <? MINIMUM_CONFIRMATIONS cfg) eqn:C1; simpl;
    try (intros [= <- <-]; discriminate).
  assert (C1' : (cur' - blockNumber rc + 1 <? MINIMUM_CONFIRMATIONS cfg) = false).
  { apply Z.ltb_ge. apply Z.ltb_ge in C1. lia. }
  rewrite C1'.
  repeat (case_step; simpl); intros [= <- <-]; try discriminate; reflexivity.
Qed.

(** ** The gating middlewares, continued *)

(** Brings a trace built by nested appends to its right-nested form. *)
Ltac normalize_trace :=
  repeat (rewrite <- app_assoc || rewrite <- app_comm_cons || rewrite app_nil_r
          || rewrite app_nil_l).

Section GatingMore.

Import StringFacts NumberFacts ValueFacts.

Variable cfg : Config.
Variable eth : Ethers.
Variable chain : ChainClient.
Variable dateNow : Z.
Variable entropy : nat -> Byte.byte.

Local Abbreviation sync := (requireS402 cfg eth chain dateNow entropy).
Local Abbreviation async := (requireS402Async cfg eth chain dateNow entropy).
Local Abbreviation optional := (optionalS402 cfg eth chain dateNow).
Local Abbreviation errorsOf := (parameterErrors cfg dateNow).

Lemma signature_total (p : PaymentData) (sg : Signature) (d : EIP712Domain) :
  exists ts b, verifyEIP712Signature eth p sg d = (ts, inr b).
Proof.
  unfold verifyEIP712Signature, tryCatch, bind, lift, log, ret.
  repeat (case_step; simpl); eauto.
Qed.

Lemma parameterErrors_nil (pf : S402Proof) (price : Z) (rcp : string) :
  errorsOf pf price rcp = [] -> ParametersValid cfg dateNow pf price rcp.
Proof.
  unfold parameterErrors, ParametersValid, getChainId.
  destruct (truthy (txHash pf)) eqn:Hh; [| discriminate].
  destruct (String.eqb (value (payment pf)) (toString price)) eqn:Hv; [| discriminate].
  destruct (eqIgnoreCase (recipient (payment pf)) rcp) eqn:Hr; [| discriminate].
  destruct (deadline (payment pf) <=? dateNow / 1000) eqn:Hd; [discriminate |].
  destruct (CHAIN_ID cfg =? 56) eqn:Hc; [| discriminate].
  intros _. split; [| split; [| split; [| split]]].
  - destruct (txHash pf) as [x |]; [now exists x | discriminate].
  - now apply String.eqb_eq.
  - now apply eqIgnoreCase_true.
  - now apply Z.leb_gt.
  - now apply Z.eqb_eq.
Qed.

Lemma validate_bad_signature (pf : S402Proof) (price : Z) (rcp : string)
    (ts : list Event) :
  errorsOf pf price rcp = [] ->
  verifyEIP712Signature eth (payment pf) (authSig pf) (buildEIP712Domain cfg)
  = (ts, inr false) ->
  validateParametersAndSignature cfg eth dateNow pf price rcp
  = ((ts ++ [EvLog Error "Invalid EIP-712 signature - rejecting proof"])%list,
     inl (newError "Invalid signature: EIP-712 signature verification failed")).
Proof.
  intros He Hsig. unfold validateParametersAndSignature. rewrite He, Hsig.
  cbn [List.length Z.of_nat Z.ltb Z.compare bind ret log throw negb app].
  rewrite ?app_nil_r. reflexivity.
Qed.

(** The checks both validators share pass exactly when no parameter error
    is found and the signature verifies. *)
Lemma validate_passes (pf : S402Proof) (price : Z) (rcp : string) (t : list Event) :
  validateParametersAndSignature cfg eth dateNow pf price rcp = (t, inr tt) ->
  errorsOf pf price rcp = []
  /\ exists ts, verifyEIP712Signature eth (payment pf) (authSig pf) (buildEIP712Domain cfg)
                = (ts, inr true)
                /\ t = (ts ++ [EvLog Debug "EIP-712 signature verified"])%list.
Proof.
  destruct (errorsOf pf price rcp) as [| e es] eqn:He.
  - destruct (signature_total (payment pf) (authSig pf) (buildEIP712Domain cfg))
      as (ts & [|] & Hsig).
    + rewrite (validate_accepts cfg eth dateNow pf price rcp ts He Hsig).
      intros [= <-]. split; [reflexivity |]. now exists ts.
    + rewrite (validate_bad_signature pf price rcp ts He Hsig). discriminate.
  - rewrite validate_rejects by (rewrite He; discriminate). discriminate.
Qed.

(** What a granted context of the synchronous validator stands for. *)
Lemma validateSubmittedProof_granted (pf : S402Proof) (price : Z) (rcp : string)
    (t : list Event) (context : S402Context) :
  validateSubmittedProof cfg eth chain dateNow pf price rcp = (t, inr context) ->
  errorsOf pf price rcp = []
  /\ (exists ts, verifyEIP712Signature eth (payment pf) (authSig pf)
                   (buildEIP712Domain cfg) = (ts, inr true))
  /\ (exists tv rv, verifyTransactionSettlement cfg eth chain (txHashOf pf) (payment pf)
                    = (tv, inr rv) /\ verified rv = true)
  /\ BigInt (value (payment pf)) = inr (ctx_value context)
  /\ context = mkS402Context (owner (payment pf)) (ctx_value context) (payment pf)
                 (txHash pf) None None.
Proof.
  unfold validateSubmittedProof.
  destruct (validateParametersAndSignature cfg eth dateNow pf price rcp)
    as [t0 [e | []]] eqn:Hv; [discriminate |].
  destruct (validate_passes pf price rcp t0 Hv) as (He & ts & Hsig & _).
  destruct (verifyTransactionSettlement cfg eth chain (txHashOf pf) (payment pf))
    as [tv [e | rv]] eqn:Hver; [discriminate |].
  cbn [bind log ret lift throw app].
  destruct (verified rv) eqn:Hok; cbn [negb bind log ret lift throw app]; [| discriminate].
  destruct (BigInt (value (payment pf))) as [e | z] eqn:Hb; [discriminate |].
  intros [= <- <-]. cbn [ctx_value]. repeat split; eauto.
Qed.

Lemma error_outcome_not_next (logged : string) (e : JsError) (t : list Event)
    (context : S402Context) :
  snd (let (t', o) := onVerificationError logged e in ((t ++ t')%list, o))
  <> Next context.
Proof.
  unfold onVerificationError. cbn [snd].
  destruct (_ || _); [discriminate |]. destruct (String.eqb _ _); discriminate.
Qed.

(** X8. The synchronous middleware hands a request to the protected
    handler only when it carried a schema-valid proof that passes the
    parameter checks, whose signature verifies, and whose transaction the
    settlement verifier reported as verified; the context then holds the
    proof's owner, payment and transaction hash and the price as value. *)
Theorem sync_grant_sound (routeKey : string) (req : Request) (context : S402Context) :
  snd (sync routeKey req) = Next context ->
  exists pf tp price h,
    body_s402Proof req = Some pf
    /\ s402ProofSchema pf = true
    /\ getPriceForRoute cfg routeKey = (tp, inr price)
    /\ ParametersValid cfg dateNow pf price (getRecipientForRoute cfg routeKey)
    /\ (exists ts, verifyEIP712Signature eth (payment pf) (authSig pf)
                     (buildEIP712Domain cfg) = (ts, inr true))
    /\ txHash pf = Some h
    /\ (exists tv rv, verifyTransactionSettlement cfg eth chain h (payment pf)
                      = (tv, inr rv) /\ verified rv = true)
    /\ context = mkS402Context (owner (payment pf)) price (payment pf) (Some h) None None.
Proof.
  unfold requireS402, settle.
  destruct (getPriceForRoute cfg routeKey) as [tp [e | price]] eqn:Hp.
  { cbn [bind]. intros H. now apply error_outcome_not_next in H. }
  destruct (body_s402Proof req) as [pf |] eqn:Hb.
  2:{ unfold paymentRequired, buildPaymentRequest.
      cbn [bind log ret lift throw app snd]. discriminate. }
  unfold s402ProofSchema_parse.
  destruct (s402ProofSchema pf) eqn:Hs.
  2:{ cbn [bind log ret lift throw app]. intros H. now apply error_outcome_not_next in H. }
  cbn [bind log ret lift throw app].
  destruct (validateSubmittedProof cfg eth chain dateNow pf price
              (getRecipientForRoute cfg routeKey)) as [t [e | c]] eqn:Hv.
  { cbn [bind log ret lift throw app]. intros H. now apply error_outcome_not_next in H. }
  cbn [bind log ret lift throw app snd]. intros [= <-].
  destruct (validateSubmittedProof_granted _ _ _ _ _ Hv)
    as (He & Hsig & Hver & Hval & Hc).
  pose proof (parameterErrors_nil _ _ _ He) as Hvalid.
  destruct Hvalid as ((h & Hh) & Hvalue & Hrest).
  assert (Hprice : ctx_value c = price).
  { rewrite (BigInt_of_rendering _ price (schema_value pf Hs) Hvalue) in Hval.
    now injection Hval. }
  exists pf, tp, price, h. split; [reflexivity |]. split; [exact Hs |].
  split; [reflexivity |].
  split; [split; [now exists h | split; [exact Hvalue | exact Hrest]] |].
  split; [exact Hsig |]. split; [exact Hh |].
  unfold txHashOf in Hver. rewrite Hh in Hver. split; [exact Hver |].
  rewrite Hc, Hprice, Hh. reflexivity.
Qed.

(** X9. A schema-valid proof that passes the parameter checks, whose
    signature verifies and whose transaction is verified is let through by
    the synchronous middleware, which logs each stage and attaches the
    context without the asynchronous marks. *)
Theorem sync_grant_complete (routeKey : string) (req : Request) (pf : S402Proof)
    (tp ts tv : list Event) (price : Z) (rv : VerifyResult) :
  body_s402Proof req = Some pf ->
  s402ProofSchema pf = true ->
  getPriceForRoute cfg routeKey = (tp, inr price) ->
  ParametersValid cfg dateNow pf price (getRecipientForRoute cfg routeKey) ->
  verifyEIP712Signature eth (payment pf) (authSig pf) (buildEIP712Domain cfg)
  = (ts, inr true) ->
  verifyTransactionSettlement cfg eth chain (txHashOf pf) (payment pf) = (tv, inr rv) ->
  verified rv = true ->
  sync routeKey req
  = ((tp ++ [ EvLog Debug "S402 middleware invoked";
              EvLog Info "S402 proof submitted - beginning validation" ]
         ++ ts
         ++ [ EvLog Debug "EIP-712 signature verified";
              EvLog Debug "Verifying transaction on-chain..." ]
         ++ tv
         ++ [ EvLog Info "Payment proof validated successfully with on-chain transaction verification";
              EvLog Info "✅ Payment VERIFIED (signature + on-chain) - granting API access" ])%list,
     Next (mkS402Context (owner (payment pf)) price (payment pf) (txHash pf) None None)).
Proof.
  intros Hb Hs Hp Hvalid Hsig Hver Hok.
  pose proof (parameterErrors_valid cfg dateNow _ _ _ Hs Hvalid) as Hnil.
  assert (Hval : BigInt (value (payment pf)) = inr price).
  { apply BigInt_of_rendering; [now apply schema_value | apply Hvalid]. }
  unfold requireS402, settle. rewrite Hp, Hb.
  unfold s402ProofSchema_parse. rewrite Hs.
  cbn [bind log ret lift throw app].
  unfold validateSubmittedProof.
  rewrite (validate_accepts cfg eth dateNow _ _ _ ts Hnil Hsig), Hver.
  cbn [bind log ret lift throw app]. rewrite Hok, Hval.
  cbn [negb bind log ret lift throw app].
  normalize_trace. reflexivity.
Qed.

Lemma validateSubmittedProofAsync_granted (pf : S402Proof) (price : Z) (rcp : string)
    (t : list Event) (context : S402Context) :
  validateSubmittedProofAsync cfg eth chain dateNow pf price rcp = (t, inr context) ->
  errorsOf pf price rcp = []
  /\ (exists ts, verifyEIP712Signature eth (payment pf) (authSig pf)
                   (buildEIP712Domain cfg) = (ts, inr true))
  /\ BigInt (value (payment pf)) = inr (ctx_value context)
  /\ context = mkS402Context (owner (payment pf)) (ctx_value context) (payment pf)
                 (txHash pf) (Some true)
                 (Some (verifyTransactionSettlement cfg eth chain (txHashOf pf)
                          (payment pf))).
Proof.
  unfold validateSubmittedProofAsync.
  destruct (validateParametersAndSignature cfg eth dateNow pf price rcp)
    as [t0 [e | []]] eqn:Hv; [discriminate |].
  destruct (validate_passes pf price rcp t0 Hv) as (He & ts & Hsig & _).
  cbn [bind log ret lift throw app].
  destruct (BigInt (value (payment pf))) as [e | z] eqn:Hb; [discriminate |].
  intros [= <- <-]. cbn [ctx_value]. repeat split; eauto.
Qed.

(** X10. The asynchronous middleware hands a request to the protected
    handler only when it carried a schema-valid proof that passes the
    parameter checks and whose signature verifies; settlement is not among
    the conditions, and the context is marked as asynchronously verified. *)
Theorem async_grant_sound (routeKey : string) (req : Request) (context : S402Context) :
  snd (fst (async routeKey req)) = Next context ->
  exists pf tp price h,
    body_s402Proof req = Some pf
    /\ s402ProofSchema pf = true
    /\ getPriceForRoute cfg routeKey = (tp, inr price)
    /\ ParametersValid cfg dateNow pf price (getRecipientForRoute cfg routeKey)
    /\ (exists ts, verifyEIP712Signature eth (payment pf) (authSig pf)
                     (buildEIP712Domain cfg) = (ts, inr true))
    /\ txHash pf = Some h
    /\ context = mkS402Context (owner (payment pf)) price (payment pf) (Some h)
                   (Some true)
                   (Some (verifyTransactionSettlement cfg eth chain h (payment pf))).
Proof.
  unfold requireS402Async, settle.
  destruct (getPriceForRoute cfg routeKey) as [tp [e | price]] eqn:Hp.
  { cbn [bind]. unfold onVerificationError. cbn [fst snd].
    destruct (_ || _); [discriminate |]. destruct (String.eqb _ _); discriminate. }
  destruct (body_s402Proof req) as [pf |] eqn:Hb.
  2:{ unfold paymentRequired, buildPaymentRequest.
      cbn [bind log ret lift throw app fst snd]. discriminate. }
  unfold s402ProofSchema_parse.
  destruct (s402ProofSchema pf) eqn:Hs.
  2:{ cbn [bind log ret lift throw app]. unfold onVerificationError. cbn [fst snd].
      destruct (_ || _); [discriminate |]. destruct (String.eqb _ _); discriminate. }
  cbn [bind log ret lift throw app].
  destruct (validateSubmittedProofAsync cfg eth chain dateNow pf price
              (getRecipientForRoute cfg routeKey)) as [t [e | c]] eqn:Hv.
  { cbn [bind log ret lift throw app]. unfold onVerificationError. cbn [fst snd].
    destruct (_ || _); [discriminate |]. destruct (String.eqb _ _); discriminate. }
  cbn [bind log ret lift throw app fst snd]. intros [= <-].
  destruct (validateSubmittedProofAsync_granted _ _ _ _ _ Hv) as (He & Hsig & Hval & Hc).
  pose proof (parameterErrors_nil _ _ _ He) as Hvalid.
  destruct Hvalid as ((h & Hh) & Hvalue & Hrest).
  assert (Hprice : ctx_value c = price).
  { rewrite (BigInt_of_rendering _ price (schema_value pf Hs) Hvalue) in Hval.
    now injection Hval. }
  exists pf, tp, price, h. split; [reflexivity |]. split; [exact Hs |].
  split; [reflexivity |].
  split; [split; [now exists h | split; [exact Hvalue | exact Hrest]] |].
  split; [exact Hsig |]. split; [exact Hh |].
  rewrite Hc, Hprice. unfold txHashOf. rewrite Hh. reflexivity.
Qed.

(** X11. A schema-valid proof that passes the parameter checks but whose
    signature does not verify is answered 403 "Invalid signature" by both
    middlewares; the settlement verifier is never started and the chain
    client never asked. *)
Theorem invalid_signature_rejected (routeKey : string) (req : Request) (pf : S402Proof)
    (tp ts : list Event) (price : Z) :
  body_s402Proof req = Some pf ->
  s402ProofSchema pf = true ->
  getPriceForRoute cfg routeKey = (tp, inr price) ->
  ParametersValid cfg dateNow pf price (getRecipientForRoute cfg routeKey) ->
  verifyEIP712Signature eth (payment pf) (authSig pf) (buildEIP712Domain cfg)
  = (ts, inr false) ->
  sync routeKey req
  = ((tp ++ [ EvLog Debug "S402 middleware invoked";
              EvLog Info "S402 proof submitted - beginning validation" ]
         ++ ts
         ++ [ EvLog Error "Invalid EIP-712 signature - rejecting proof";
              EvLog Error "❌ S402 verification failed" ])%list,
     verificationFailed403 "Invalid signature: EIP-712 signature verification failed")
  /\ async routeKey req
     = ((tp ++ [ EvLog Debug "S402 async middleware invoked";
                 EvLog Info "S402 proof submitted - beginning async validation" ]
            ++ ts
            ++ [ EvLog Error "Invalid EIP-712 signature - rejecting proof";
                 EvLog Error "❌ S402 async verification failed" ])%list,
        verificationFailed403 "Invalid signature: EIP-712 signature verification failed",
        []).
Proof.
  intros Hb Hs Hp Hvalid Hsig.
  pose proof (parameterErrors_valid cfg dateNow _ _ _ Hs Hvalid) as Hnil.
  unfold requireS402, requireS402Async, settle. rewrite Hp, Hb.
  unfold s402ProofSchema_parse. rewrite Hs.
  cbn [bind log ret lift throw app].
  unfold validateSubmittedProof, validateSubmittedProofAsync.
  rewrite (validate_bad_signature _ _ _ ts Hnil Hsig).
  cbn [bind log ret lift throw app onVerificationError err_message newError err_name].
  change (includes "validation failed"
            "Invalid signature: EIP-712 signature verification failed") with false.
  change (includes "not settled"
            "Invalid signature: EIP-712 signature verification failed") with false.
  change (includes "Invalid signature"
            "Invalid signature: EIP-712 signature verification failed") with true.
  cbn [orb]. normalize_trace. split; reflexivity.
Qed.

(** X12. A proof that fails the schema is answered 400 INVALID_PROOF_FORMAT
    by both middlewares before any parameter, signature or settlement check
    is made. *)
Theorem malformed_proof_rejected (routeKey : string) (req : Request) (pf : S402Proof)
    (tp : list Event) (price : Z) :
  body_s402Proof req = Some pf ->
  s402ProofSchema pf = false ->
  getPriceForRoute cfg routeKey = (tp, inr price) ->
  sync routeKey req
  = ((tp ++ [ EvLog Debug "S402 middleware invoked";
              EvLog Error "❌ S402 verification failed" ])%list,
     Respond 400 (BodyError "INVALID_PROOF_FORMAT" "S402 proof has invalid format"
                    (Some (err_message zodError))))
  /\ async routeKey req
     = ((tp ++ [ EvLog Debug "S402 async middleware invoked";
                 EvLog Error "❌ S402 async verification failed" ])%list,
        Respond 400 (BodyError "INVALID_PROOF_FORMAT" "S402 proof has invalid format"
                       (Some (err_message zodError))),
        []).
Proof.
  intros Hb Hs Hp.
  unfold requireS402, requireS402Async, settle. rewrite Hp, Hb.
  unfold s402ProofSchema_parse. rewrite Hs.
  cbn [bind log ret lift throw app onVerificationError].
  normalize_trace. split; reflexivity.
Qed.

(** X13. The optional middleware attaches a context exactly when the
    synchronous middleware would have let the same request through, and
    then the same context; in every other case the request goes on without
    one. *)
Theorem optional_agrees_with_required (routeKey : string) (req : Request)
    (context : S402Context) :
  snd (optional routeKey req) = Some context
  <-> snd (sync routeKey req) = Next context.
Proof.
  unfold optionalS402, requireS402, settle.
  destruct (body_s402Proof req) as [pf |] eqn:Hb.
  2:{ destruct (getPriceForRoute cfg routeKey) as [tp [e | price]].
      - cbn [bind ret snd]. split; [discriminate |].
        intros H. now apply error_outcome_not_next in H.
      - unfold paymentRequired, buildPaymentRequest.
        cbn [bind log ret lift throw app snd]. split; discriminate. }
  unfold s402ProofSchema_parse.
  destruct (s402ProofSchema pf) eqn:Hs;
    destruct (getPriceForRoute cfg routeKey) as [tp [e | price]];
    cbn [bind log ret lift throw app snd];
    try (split; [discriminate | intros H; now apply error_outcome_not_next in H]).
  destruct (validateSubmittedProof cfg eth chain dateNow pf price
              (getRecipientForRoute cfg routeKey)) as [t [e | c]];
    cbn [bind log ret lift throw app snd].
  - split; [discriminate | intros H; now apply error_outcome_not_next in H].
  - split; intros [= <-]; reflexivity.
Qed.

Lemma toString_decimal (z : Z) : 0 <= z -> isDecimalString (toString z) = true.
Proof.
  intros Hz. unfold toString. destruct z as [| q | q]; [reflexivity | | lia].
  simpl. apply digits_of_uint_nz.
Qed.

Lemma generateNonce_hex32 : hex32Schema (generateNonce entropy) = true.
Proof.
  unfold hex32Schema, generateNonce, isHexOfLength.
  change ("0x" ++ toHex (randomBytes entropy 32))
    with (String "0" (String "x" (toHex (randomBytes entropy 32)))).
  cbn [orb Ascii.eqb].
  rewrite toHex_length, randomBytes_length, toHex_chars. reflexivity.
Qed.

(** X14. The challenge and the parameter checks agree: a schema-valid proof
    that carries the value, recipient and deadline of a challenge issued
    for the current price, and names a transaction, passes the parameter
    checks on chain 56 exactly as long as the current second is earlier
    than the second of issue plus 600; from then on it is refused. *)
Theorem challenge_valid_for_600_seconds (routeKey : string) (price : Z) (rcp : string)
    (declared : option string) (issuedAt : Z) (t : list Event)
    (challenge : PaymentData) (d : EIP712Domain) (types : list (string * string))
    (pf : S402Proof) (h : string) :
  buildPaymentRequest cfg issuedAt entropy routeKey price rcp declared
  = (t, inr (challenge, d, types)) ->
  value (payment pf) = value challenge ->
  recipient (payment pf) = recipient challenge ->
  deadline (payment pf) = deadline challenge ->
  txHash pf = Some h ->
  s402ProofSchema pf = true ->
  getChainId cfg = 56 ->
  (errorsOf pf price rcp = [] <-> dateNow / 1000 < issuedAt / 1000 + 600).
Proof.
  unfold buildPaymentRequest. cbn [bind log ret app].
  intros [= _ <- _ _] Hv Hr Hd Hh Hs Hc. cbn [value recipient deadline] in Hv, Hr, Hd.
  split.
  - intros He. apply parameterErrors_nil in He.
    destruct He as (_ & _ & _ & Hdl & _). now rewrite Hd in Hdl.
  - intros Hlt. apply parameterErrors_valid; [exact Hs |].
    unfold ParametersValid. split; [now exists h |]. split; [exact Hv |].
    split; [now rewrite Hr |]. split; [now rewrite Hd | exact Hc].
Qed.

(** X15. The price is resolved anew at verification: a schema-valid proof
    written for an earlier price of the route is answered 403 by both
    middlewares once the price has changed, the message naming the value
    expected now and the value received. *)
Theorem stale_price_rejected (routeKey : string) (req : Request) (pf : S402Proof)
    (tp : list Event) (price earlier : Z) :
  body_s402Proof req = Some pf ->
  s402ProofSchema pf = true ->
  getPriceForRoute cfg routeKey = (tp, inr price) ->
  value (payment pf) = toString earlier ->
  earlier <> price ->
  exists message,
    snd (sync routeKey req) = verificationFailed403 message
    /\ snd (fst (async routeKey req)) = verificationFailed403 message
    /\ includes ("Invalid payment value: expected " ++ toString price
                 ++ ", got " ++ toString earlier) message = true.
Proof.
  intros Hb Hs Hp Hv Hne.
  assert (Hdiff : value (payment pf) <> toString price).
  { rewrite Hv. intros E. apply toString_inj in E. contradiction. }
  pose proof (error_value cfg dateNow pf price (getRecipientForRoute cfg routeKey) Hdiff)
    as Hin.
  assert (Hnil : errorsOf pf price (getRecipientForRoute cfg routeKey) <> []).
  { intros E. rewrite E in Hin. destruct Hin. }
  destruct (rejected_when_errors cfg eth chain dateNow entropy routeKey req pf tp price
              Hb Hs Hp Hnil) as [E1 E2].
  eexists. rewrite E1, E2. split; [reflexivity |]. split; [reflexivity |].
  rewrite <- Hv. now apply listed_error_in_message.
Qed.

(** X16. The payment authorization the server issues passes the server's
    own payment schema whenever the price is not negative, the deadline is
    positive, the configured recipient is an address and the owner the
    caller declared, if any, is an address (an empty declaration counts as
    none). *)
Theorem challenge_is_schema_valid (routeKey : string) (price : Z) (rcp : string)
    (declared : option string) (t : list Event) (challenge : PaymentData)
    (d : EIP712Domain) (types : list (string * string)) :
  buildPaymentRequest cfg dateNow entropy routeKey price rcp declared
  = (t, inr (challenge, d, types)) ->
  0 <= price ->
  0 < dateNow / 1000 + 600 ->
  addressSchema rcp = true ->
  (forall o, declared = Some o -> o = EmptyString \/ addressSchema o = true) ->
  paymentDataSchema challenge = true.
Proof.
  unfold buildPaymentRequest. cbn [bind log ret app].
  intros [= _ <- _ _] Hprice Hdl Hrcp Howner.
  unfold paymentDataSchema. cbn [owner value deadline recipient nonce].
  rewrite (toString_decimal price Hprice), Hrcp, generateNonce_hex32.
  apply Z.ltb_lt in Hdl. rewrite Hdl.
  destruct declared as [o |]; [| reflexivity].
  destruct (Howner o eq_refl) as [-> | Ho]; [reflexivity |].
  cbn [truthy]. destruct (String.eqb o "") eqn:E; cbn [negb]; [reflexivity |].
  now rewrite Ho.
Qed.

End GatingMore.

(** ** The global error handler, continued *)

(** X17. Unless the environment variable NODE_ENV is set to "development",
    the stack of an error never reaches the response: two errors that
    differ only in their stack get the same answer from the error handler.
    The environment named in the configuration plays no part. *)
Theorem stack_not_disclosed (processEnv : string -> option string)
    (name message : string) (status' : option Z) (code : option string)
    (stack stack' : string) :
  processEnv "NODE_ENV" <> Some "development" ->
  errorHandler processEnv (mkJsError name message status' code stack)
  = errorHandler processEnv (mkJsError name message status' code stack').
Proof.
  intros Hdev.
  assert (E : strictEqOpt (processEnv "NODE_ENV") "development" = false).
  { destruct (strictEqOpt (processEnv "NODE_ENV") "development") eqn:E; [| reflexivity].
    apply strictEqOpt_true in E. contradiction. }
  unfold errorHandler. cbn [err_name err_message err_status err_code err_stack].
  now rewrite E.
Qed.

(** ** Numbers, prices and hex strings *)

Section Utilities.

Import StringFacts NumberFacts ValueFacts.

Lemma digitsValue_leading_zero (s : string) (z : Z) :
  digitsValue s = Some z -> digitsValue (String "0" s) = Some z.
Proof.
  unfold digitsValue.
  destruct (isDecimalString s) eqn:Hs; [| discriminate].
  assert (Hs' : isDecimalString (String "0" s) = true).
  { destruct s; [discriminate | exact Hs]. }
  rewrite Hs'. unfold NilZero.uint_of_string.
  destruct s as [| c s]; [discriminate |].
  change (NilEmpty.uint_of_string (String "0" (String c s)))
    with (uint_of_char "0" (NilEmpty.uint_of_string (String c s))).
  destruct (NilEmpty.uint_of_string (String c s)) as [d |]; [| discriminate].
  intros [= <-]. reflexivity.
Qed.

(** Reading back the rendering of any integer, negative or not. *)
Lemma BigInt_toString (z : Z) : BigInt (toString z) = inr z.
Proof.
  destruct (Z.le_gt_cases 0 z) as [Hz | Hz].
  - now apply BigInt_of_rendering; [apply toString_decimal |].
  - destruct z as [| q | q]; try lia.
    pose proof (toString_decimal (Z.pos q) ltac:(lia)) as Hd.
    pose proof (digitsValue_toString (Z.pos q) Hd) as Hv.
    change (toString (Z.neg q)) with (String "-" (toString (Z.pos q))).
    unfold BigInt, stringToBigInt.
    rewrite trim_id
      by (eapply allChars_impl; [apply number_char_not_space |];
          change (String "-" (toString (Z.pos q))) with (toString (Z.neg q));
          apply toString_chars).
    change (Ascii.eqb "-" "-") with true. cbv iota. now rewrite Hv.
Qed.

(** X18. [stringToBigint] undoes [bigintToString] on every non-negative
    number, and refuses the rendering of a negative one as an invalid
    decimal string. *)
Theorem stringToBigint_round_trip (z : Z) :
  (0 <= z -> stringToBigint (bigintToString z) = inr z)
  /\ (z < 0 ->
      stringToBigint (bigintToString z)
      = inl (newError ("Invalid decimal string: " ++ bigintToString z))).
Proof.
  unfold stringToBigint, bigintToString. split.
  - intros Hz. rewrite (toString_decimal z Hz). cbn [negb]. apply BigInt_toString.
  - intros Hz. destruct z as [| q | q]; try lia. reflexivity.
Qed.

(** X19. [validatePrice] compares numbers, not text: it accepts the
    rendering of the expected price and the same digits behind a leading
    zero (a different decimal string), and refuses the rendering of any
    other number. *)
Theorem validatePrice_numeric (price other : Z) :
  0 <= price ->
  validatePrice (toString price) price = true
  /\ validatePrice (String "0" (toString price)) price = true
  /\ isDecimalString (String "0" (toString price)) = true
  /\ String "0" (toString price) <> toString price
  /\ (other <> price -> validatePrice (toString other) price = false).
Proof.
  intros Hp. pose proof (toString_decimal price Hp) as Hd.
  pose proof (digitsValue_toString price Hd) as Hv.
  unfold validatePrice. split; [| split; [| split; [| split]]].
  - rewrite BigInt_toString. apply Z.eqb_refl.
  - assert (Hd0 : isDecimalString (String "0" (toString price)) = true).
    { destruct (toString price); [discriminate | exact Hd]. }
    destruct (BigInt_decimal _ Hd0) as (z & Hz & ->).
    rewrite (digitsValue_leading_zero _ _ Hv) in Hz. injection Hz as <-.
    apply Z.eqb_refl.
  - destruct (toString price); [discriminate | exact Hd].
  - intros E. apply (f_equal String.length) in E. simpl in E. lia.
  - intros Hne. rewrite BigInt_toString. now apply Z.eqb_neq.
Qed.

Lemma prefix_0x (s : string) :
  prefix "0x" s = true <-> exists t, s = String "0" (String "x" t).
Proof.
  split.
  - destruct s as [| a [| b t]]; try discriminate.
    + destruct a as [[] [] [] [] [] [] [] []]; discriminate.
    + destruct a as [[] [] [] [] [] [] [] []]; try discriminate.
      destruct b as [[] [] [] [] [] [] [] []]; try discriminate.
      intros _. now exists t.
  - intros (t & ->). now destruct t.
Qed.

Lemma isHexOfLength_0x (n : nat) (t : string) :
  isHexOfLength n (String "0" (String "x" t))
  = andb (Nat.eqb (String.length t) n) (allChars isHexDigit t).
Proof. reflexivity. Qed.

(** X20. [ensureHexPrefix] leaves a string that starts with "0x" as it is
    and puts "0x" before any other; its result always starts with "0x", and
    applying it twice is the same as applying it once. *)
Theorem ensureHexPrefix_idempotent (hex : string) :
  prefix "0x" (ensureHexPrefix hex) = true
  /\ ensureHexPrefix (ensureHexPrefix hex) = ensureHexPrefix hex
  /\ (prefix "0x" hex = true -> ensureHexPrefix hex = hex)
  /\ (prefix "0x" hex = false -> ensureHexPrefix hex = "0x" ++ hex).
Proof.
  assert (H : prefix "0x" (ensureHexPrefix hex) = true).
  { unfold ensureHexPrefix. destruct (prefix "0x" hex) eqn:E; [exact E |].
    apply prefix_0x. now exists hex. }
  split; [exact H |]. split.
  - unfold ensureHexPrefix at 1. now rewrite H.
  - unfold ensureHexPrefix. split; intros ->; reflexivity.
Qed.

Lemma isValidHex_iff (hex : string) (n : nat) :
  (0 < n)%nat ->
  (isValidHex hex (Some (Z.of_nat n)) = true
   <-> isHexOfLength (2 * n) hex = true /\ prefix "0x" hex = true).
Proof.
  intros Hn. unfold isValidHex. split.
  - destruct (prefix "0x" hex) eqn:Hp; cbn [negb]; [| discriminate].
    apply prefix_0x in Hp as (t & ->). cbn [slice2].
    destruct (Z.of_nat n =? 0) eqn:E0; [apply Z.eqb_eq in E0; lia |].
    cbn [negb andb].
    destruct (Z.of_nat (String.length t) =? Z.of_nat n * 2) eqn:El; cbn [negb];
      [| discriminate].
    apply Z.eqb_eq in El.
    intros Hc. split; [| reflexivity].
    rewrite isHexOfLength_0x.
    assert (Hlen : String.length t = (2 * n)%nat) by lia.
    rewrite Hlen, Nat.eqb_refl. cbn [andb].
    destruct t; [discriminate | exact Hc].
  - intros [Hs Hp]. rewrite Hp. cbn [negb].
    apply prefix_0x in Hp as (t & ->). cbn [slice2].
    rewrite isHexOfLength_0x in Hs.
    apply andb_true_iff in Hs as [Hlen Hc]. apply Nat.eqb_eq in Hlen.
    destruct (Z.of_nat n =? 0) eqn:E0; [apply Z.eqb_eq in E0; lia |].
    cbn [negb andb].
    assert (El : (Z.of_nat (String.length t) =? Z.of_nat n * 2) = true)
      by (apply Z.eqb_eq; lia).
    rewrite El. cbn [negb].
    destruct t; [simpl in Hlen; lia | exact Hc].
Qed.

(** X21. With a byte count [n > 0], [isValidHex] accepts exactly the strings
    the schema pattern for [2n] hex digits accepts that are written with a
    lower-case "0x"; a string written with "0X", which the case-insensitive
    schema pattern admits, it refuses whatever the count. *)
Theorem isValidHex_against_schema (hex : string) (n : nat) :
  (0 < n)%nat ->
  (isValidHex hex (Some (Z.of_nat n)) = true
   <-> isHexOfLength (2 * n) hex = true /\ prefix "0x" hex = true)
  /\ (forall t bytes, isValidHex (String "0" (String "X" t)) bytes = false)
  /\ (forall t, isHexOfLength (2 * n) (String "0" (String "x" t))
                = isHexOfLength (2 * n) (String "0" (String "X" t))).
Proof.
  intros Hn. split; [now apply isValidHex_iff |].
  split; intros; reflexivity.
Qed.

(** X22. Every nonce [generateNonce] produces, whatever the random bytes,
    is a valid 32-byte hex string for [isValidHex] and for the schema. *)
Theorem generateNonce_valid (entropy : nat -> Byte.byte) :
  isValidHex (generateNonce entropy) (Some 32) = true
  /\ hex32Schema (generateNonce entropy) = true
  /\ String.length (generateNonce entropy) = 66%nat.
Proof.
  pose proof (generateNonce_hex32 entropy) as Hs.
  split; [| split; [exact Hs |]].
  - apply (isValidHex_iff _ 32); [lia |]. split; [exact Hs |].
    apply prefix_0x. now exists (toHex (randomBytes entropy 32)).
  - unfold generateNonce.
    change ("0x" ++ toHex (randomBytes entropy 32))
      with (String "0" (String "x" (toHex (randomBytes entropy 32)))).
    cbn [String.length]. now rewrite toHex_length, randomBytes_length.
Qed.

Lemma lookup_setKey_same (key v : string) (table : list (string * string)) :
  lookup key (setKey key v table) = Some v.
Proof.
  induction table as [| [k w] rest IH]; simpl.
  - now rewrite String.eqb_refl.
  - destruct (String.eqb k key) eqn:E; simpl; rewrite E; [reflexivity | exact IH].
Qed.

Lemma lookup_setKey_other (key v k : string) (table : list (string * string)) :
  k <> key -> lookup k (setKey key v table) = lookup k table.
Proof.
  intros Hne. induction table as [| [k' w] rest IH]; simpl.
  - assert (E : String.eqb key k = false) by (apply String.eqb_neq; congruence).
    now rewrite E.
  - destruct (String.eqb k' key) eqn:E; simpl.
    + apply String.eqb_eq in E. subst k'.
      assert (E' : String.eqb key k = false) by (apply String.eqb_neq; congruence).
      now rewrite E'.
    + destruct (String.eqb k' k); [reflexivity | exact IH].
Qed.

(** X23. The listing of route prices reports the base price under "_base",
    even when the price table has an entry of that name, and every other
    route's entry unchanged. *)
Theorem getAllRoutePrices_lookup (cfg : Config) :
  lookup "_base" (getAllRoutePrices cfg) = Some (BASE_PRICE_USD1 cfg)
  /\ (forall routeKey, routeKey <> "_base" ->
        lookup routeKey (getAllRoutePrices cfg) = lookup routeKey (PRICE_TABLE cfg)).
Proof.
  unfold getAllRoutePrices. split; [apply lookup_setKey_same |].
  intros routeKey Hne. now apply lookup_setKey_other.
Qed.

(** The members every object inherits are truthy, and none of them reads
    as a number. *)
Lemma inherited_member (key member : string) :
  lookup key objectPrototype = Some member ->
  truthy (Some member) = true
  /\ BigInt member = inl (syntaxError ("Cannot convert " ++ member ++ " to a BigInt")).
Proof.
  unfold objectPrototype. cbn [lookup].
  repeat (match goal with
          | |- context [String.eqb ?k key] => destruct (String.eqb k key)
          end; [intros [= <-]; split; vm_compute; reflexivity |]).
  discriminate.
Qed.

(** X24. The listing tells the price charged, but for the names every
    object inherits: for a route other than "_base" that the price table
    has, or whose name is not that of a member of [Object.prototype],
    [getPriceForRoute] resolves to the number written under the route in
    the listing when there is a non-empty entry, and to the number written
    under "_base" when there is none; for a route the table does not have
    and whose name is such a member's (toString, constructor, ...), it
    throws a SyntaxError and logs nothing, whatever the listing says. *)
Theorem listing_matches_charged (cfg : Config) (routeKey : string) :
  routeKey <> "_base" ->
  (lookup routeKey (PRICE_TABLE cfg) <> None \/ lookup routeKey objectPrototype = None ->
   snd (getPriceForRoute cfg routeKey)
   = BigInt (match lookup routeKey (getAllRoutePrices cfg) with
             | Some v => if String.eqb v "" then BASE_PRICE_USD1 cfg else v
             | None => BASE_PRICE_USD1 cfg
             end))
  /\ (forall member,
        lookup routeKey (PRICE_TABLE cfg) = None ->
        lookup routeKey objectPrototype = Some member ->
        getPriceForRoute cfg routeKey
        = ([], inl (syntaxError ("Cannot convert " ++ member ++ " to a BigInt")))).
Proof.
  intros Hne. unfold getAllRoutePrices.
  rewrite (lookup_setKey_other "_base" _ routeKey _ Hne).
  unfold getPriceForRoute, getProperty, bind, lift, log, ret. split.
  - intros Hown. destruct (lookup routeKey (PRICE_TABLE cfg)) as [v |].
    + unfold truthy. destruct (String.eqb v ""); cbn [negb];
        match goal with |- context [BigInt ?x] => destruct (BigInt x) end; reflexivity.
    + destruct Hown as [Hown | ->]; [now elim Hown |].
      cbn [truthy]. destruct (BigInt (BASE_PRICE_USD1 cfg)); reflexivity.
  - intros member -> Hin. rewrite Hin.
    destruct (inherited_member routeKey member Hin) as [-> ->]. reflexivity.
Qed.

Lemma lowerChar_idempotent (c : ascii) : lowerChar (lowerChar c) = lowerChar c.
Proof. destruct c as [[] [] [] [] [] [] [] []]; reflexivity. Qed.

Lemma lowerChar_hex (c : ascii) : isHexDigit c = true -> isHexDigit (lowerChar c) = true.
Proof. destruct c as [[] [] [] [] [] [] [] []]; try discriminate; reflexivity. Qed.

Lemma toLowerCase_length (s : string) :
  String.length (toLowerCase s) = String.length s.
Proof. induction s as [| c s IH]; simpl; [reflexivity | now rewrite IH]. Qed.

Lemma isHexOfLength_inv (n : nat) (s : string) :
  isHexOfLength n s = true ->
  exists x t, s = String "0" (String x t)
              /\ (x = "x"%char \/ x = "X"%char)
              /\ String.length t = n
              /\ allChars isHexDigit t = true.
Proof.
  unfold isHexOfLength.
  destruct s as [| a [| x t]]; try discriminate.
  - destruct a as [[] [] [] [] [] [] [] []]; discriminate.
  - destruct a as [[] [] [] [] [] [] [] []]; try discriminate.
    rewrite !andb_true_iff, orb_true_iff, !Ascii.eqb_eq, Nat.eqb_eq.
    intros [Hx [Hlen Hc]]. now exists x, t.
Qed.

(** X25. [normalizeAddress] is idempotent and keeps an address an address:
    the lower-cased form of a string the address schema accepts is accepted
    too, and compares equal to the original without regard to case. *)
Theorem normalizeAddress_stable (address : string) :
  normalizeAddress (normalizeAddress address) = normalizeAddress address
  /\ eqIgnoreCase (normalizeAddress address) address = true
  /\ (addressSchema address = true -> addressSchema (normalizeAddress address) = true).
Proof.
  unfold normalizeAddress.
  assert (Hidem : forall s, toLowerCase (toLowerCase s) = toLowerCase s).
  { induction s as [| c s IH]; simpl; [reflexivity |].
    now rewrite lowerChar_idempotent, IH. }
  split; [apply Hidem |]. split.
  - unfold eqIgnoreCase. rewrite Hidem. apply String.eqb_refl.
  - unfold addressSchema. intros Hs.
    destruct (isHexOfLength_inv _ _ Hs) as (x & t & -> & Hx & Hlen & Hc).
    assert (Hlow : toLowerCase (String "0" (String x t))
                   = String "0" (String "x" (toLowerCase t))).
    { destruct Hx as [-> | ->]; reflexivity. }
    rewrite Hlow, isHexOfLength_0x, toLowerCase_length, Hlen. cbn [Nat.eqb andb].
    clear -Hc. induction t as [| c t IH]; [reflexivity |].
    simpl in *. apply andb_true_iff in Hc as [H1 H2].
    now rewrite (lowerChar_hex c H1), IH.
Qed.

End Utilities.

(** ** The asynchronous validator, continued *)

(** When the asynchronous validator throws, it is the checks it shares with
    the synchronous one that threw: nothing is thrown once the verifier has
    been started, so no started verification goes on unobserved. *)
Lemma async_validator_throws_before_start (cfg : Config) (eth : Ethers)
    (chain : ChainClient) (dateNow : Z) (pf : S402Proof) (price : Z) (rcp : string)
    (t : list Event) (e : JsError) :
  validateSubmittedProofAsync cfg eth chain dateNow pf price rcp = (t, inl e) ->
  validateParametersAndSignature cfg eth dateNow pf price rcp = (t, inl e).
Proof.
  unfold validateSubmittedProofAsync.
  destruct (validateParametersAndSignature cfg eth dateNow pf price rcp)
    as [t0 [e0 | []]] eqn:Hv.
  - cbn [bind]. now intros [= <- <-].
  - destruct (validate_passes _ _ _ _ _ _ _ Hv) as (He & _).
    apply parameterErrors_nil in He. destruct He as (_ & Hvalue & _).
    rewrite Hvalue, BigInt_toString. unfold start.
    cbn [bind log ret lift throw app]. discriminate.
Qed.

(** * Properties of the client *)

Section ClientFacts.

Import Sdk.

Variable world : ClientWorld.
Variable client : S402Client.

Ltac unfold_client :=
  unfold payChallenge, signPaymentAuth, signPermit, checkAllowance, awaitHash,
    call, consoleLog, cbind, cret, cthrow in *.

Lemma settlements_app (t t' : list ClientEvent) :
  settlements (t ++ t') = (settlements t + settlements t')%nat.
Proof.
  induction t as [| ev t IH]; [reflexivity |].
  destruct ev; simpl; rewrite IH; reflexivity.
Qed.

(** X26. What the client signs is what the server verifies exactly when the
    domain names the facilitator as verifying contract, as the domain of
    every challenge of the server does: the message then is the typed value
    the server rebuilds from the payment, under the same type description. *)
Theorem client_signs_what_server_verifies (d : EIP712Domain) (p : PaymentData) :
  atd_types (buildAuthTypedData d p) = PAYMENT_AUTHORIZATION_TYPES
  /\ (atd_message (buildAuthTypedData d p) = typedValueOf p
      <-> verifyingContract d = S402_FACILITATOR)
  /\ (forall cfg, atd_message (buildAuthTypedData (buildEIP712Domain cfg) p)
                  = typedValueOf p).
Proof.
  split; [reflexivity |]. split; [| reflexivity].
  unfold buildAuthTypedData, typedValueOf. cbn [atd_message]. split.
  - now intros [= E].
  - now intros ->.
Qed.

(** What a finished payment of a challenge leaves: the proof's payment is
    the challenge's with the signer as owner, the signature is the split of
    what the signer signed over the challenge's domain, and the proof names
    a transaction and no permit. *)
Lemma payChallenge_finished (paymentReq : PaymentRequired402) (t : list ClientEvent)
    (pf : S402Proof) :
  payChallenge world client paymentReq = (t, Finished (inr pf)) ->
  exists address text v al h,
    getAddress world = inr address
    /\ payment pf = mkPaymentData address (value (pr_payment paymentReq))
                      (deadline (pr_payment paymentReq))
                      (recipient (pr_payment paymentReq))
                      (nonce (pr_payment paymentReq))
    /\ signAuth world (pr_domain paymentReq) PAYMENT_AUTHORIZATION_TYPES
         (atd_message (buildAuthTypedData (pr_domain paymentReq) (payment pf)))
       = inr text
    /\ splitSignature world text = inr (authSig pf)
    /\ BigInt (value (pr_payment paymentReq)) = inr v
    /\ allowance world (token client) address (facilitator client) = inr al
    /\ txHash pf = Some h
    /\ permitSig pf = None
    /\ settlements t = 1%nat
    /\ (v <= al ->
        In (CSettlePayment (payment pf) (authSig pf)) t
        /\ forall data, ~ In (CSignPermit data) t)
    /\ (al < v ->
        In (CSignPermit
              (buildPermitTypedData (token client) (chainId client) address
                 (facilitator client) (value (pr_payment paymentReq))
                 (deadline (pr_payment paymentReq)) None)) t
        /\ (exists permitSig', In (CSettlePaymentWithPermit (payment pf) permitSig'
                                     (authSig pf)) t)
        /\ forall sg, ~ In (CSettlePayment (payment pf) sg) t).
Proof.
  unfold_client.
  destruct (getAddress world) as [e | address] eqn:Ha; [discriminate |].
  cbn [buildAuthTypedData atd_domain atd_types atd_message].
  destruct (signAuth world _ _ _) as [e | text] eqn:Hs; [discriminate |].
  destruct (splitSignature world text) as [e | [v0 r0 s0]] eqn:Hsp; [discriminate |].
  cbn [sig_v sig_r sig_s app].
  destruct (allowance world _ _ _) as [e | al] eqn:Hal; [discriminate |].
  cbn [value deadline app].
  destruct (BigInt (value (pr_payment paymentReq))) as [e | v] eqn:Hv; [discriminate |].
  cbn [app].
  destruct (v <=? al) eqn:Hle.
  - apply Z.leb_le in Hle.
    destruct (settlePayment world _ _) as [e | tx] eqn:Hset; [discriminate |].
    destruct (asyncMode client); [| destruct (sent_wait tx) as [e | h]; [discriminate |]];
      intros [= <- <-]; exists address, text, v, al; eexists;
      cbn [payment authSig txHash permitSig];
      repeat (split; [solve [reflexivity | eassumption] |]);
      (split; [intros _ | intros Hlt; lia]);
      (split; [simpl; tauto | intros data H; absent_event H]).
  - apply Z.leb_gt in Hle.
    cbn [buildPermitTypedData ptd_domain ptd_types ptd_message].
    destruct (signPermitData world _ _ _) as [e | ptext]; [discriminate |].
    destruct (splitSignature world ptext) as [e | [pv pr' ps]]; [discriminate |].
    cbn [sig_v sig_r sig_s app].
    destruct (settlePaymentWithPermit world _ _ _) as [e | tx]; [discriminate |].
    destruct (asyncMode client); [| destruct (sent_wait tx) as [e | h]; [discriminate |]];
      intros [= <- <-]; exists address, text, v, al; eexists;
      cbn [payment authSig txHash permitSig];
      repeat (split; [solve [reflexivity | eassumption] |]);
      (split; [intros Hlt; lia | intros _]);
      (split; [simpl; tauto |]);
      (split; [eexists; simpl; eauto 10 | intros sg H; absent_event H]).
Qed.

(** X28. The client settles once per challenge, with a permit exactly when
    the token allowance is below the payment's value: with enough allowance
    it calls settlePayment and signs no permit; otherwise it signs a permit
    for exactly the payment's value and deadline, with the facilitator as
    spender and nonce 0, and calls settlePaymentWithPermit. The proof it
    builds never carries the permit signature. *)
Theorem permit_only_when_allowance_short (paymentReq : PaymentRequired402)
    (t : list ClientEvent) (pf : S402Proof) (address : string) (v al : Z) :
  payChallenge world client paymentReq = (t, Finished (inr pf)) ->
  getAddress world = inr address ->
  BigInt (value (pr_payment paymentReq)) = inr v ->
  allowance world (token client) address (facilitator client) = inr al ->
  permitSig pf = None
  /\ settlements t = 1%nat
  /\ (v <= al ->
      In (CSettlePayment (payment pf) (authSig pf)) t
      /\ forall data, ~ In (CSignPermit data) t)
  /\ (al < v ->
      In (CSignPermit
            (buildPermitTypedData (token client) (chainId client) address
               (facilitator client) (value (pr_payment paymentReq))
               (deadline (pr_payment paymentReq)) None)) t
      /\ pm_nonce (ptd_message
                     (buildPermitTypedData (token client) (chainId client) address
                        (facilitator client) (value (pr_payment paymentReq))
                        (deadline (pr_payment paymentReq)) None)) = 0
      /\ (exists permitSig', In (CSettlePaymentWithPermit (payment pf) permitSig'
                                   (authSig pf)) t)
      /\ forall sg, ~ In (CSettlePayment (payment pf) sg) t).
Proof.
  intros Hpay Ha Hv Hal.
  destruct (payChallenge_finished paymentReq t pf Hpay)
    as (a' & text & v' & al' & h & Ha' & _ & _ & _ & Hv' & Hal' & _ & Hperm & Hone
        & Henough & Hshort).
  rewrite Ha in Ha'. injection Ha' as <-.
  rewrite Hv in Hv'. injection Hv' as <-.
  rewrite Hal in Hal'. injection Hal' as <-.
  split; [exact Hperm |]. split; [exact Hone |]. split; [exact Henough |].
  intros Hlt. destruct (Hshort Hlt) as (H1 & H2 & H3).
  split; [exact H1 |]. split; [reflexivity |]. split; [exact H2 | exact H3].
Qed.

(** The object sent along with a proof: the caller's body parsed, or the
    empty object when there is none. *)
Lemma request_step (steps : nat) (path : string) (body : option string)
    (proof : option S402Proof) :
  request world client (S steps) path body proof
  = cbind
      (match proof with
       | Some pf =>
           cbind (match body with
                  | Some text =>
                      if String.eqb text "" then cret "{}"
                      else ([], Finished (jsonParse world text))
                  | None => cret "{}"
                  end)
                 (fun object => cret (BodyWithProof object pf))
       | None => cret (match body with Some text => RawBody text | None => NoBody end)
       end)
      (fun requestBody =>
         cbind (call (CFetch (baseUrl client ++ path) requestBody)
                  (fetch world (baseUrl client ++ path) requestBody))
           (fun response =>
              if negb (resp_status response =? 402) then
                if negb (resp_ok response)
                then cthrow (newError (failureMessage response))
                else ([], Finished (resp_json response))
              else if negb (autoSettle client) then
                cthrow (newError "Payment required (autoSettle disabled)")
              else
                match resp_json response with
                | inl e => cthrow e
                | inr (JPaymentRequired paymentReq) =>
                    cbind (payChallenge world client paymentReq)
                      (fun proof' => request world client steps path body (Some proof'))
                | inr _ =>
                    cbind (call CGetAddress (getAddress world))
                      (fun _ => cthrow (typeError
                         "Cannot read properties of undefined (reading 'domain')"))
                end)).
Proof. reflexivity. Qed.

(** X29. Nothing bounds the retries, and [maxRetries] plays no part: against
    a server that answers 402 to every request, the client pays every
    challenge it is given; however many calls of [request] are allowed, the
    run has submitted one settlement per call and has not come to an end. *)
Theorem retries_not_bounded (path : string) (body : option string) (object : string)
    (response : HttpResponse) (paymentReq : PaymentRequired402)
    (tpay : list ClientEvent) (pf : S402Proof) :
  autoSettle client = true ->
  (forall b, fetch world (baseUrl client ++ path) b = inr response) ->
  resp_status response = 402 ->
  resp_json response = inr (JPaymentRequired paymentReq) ->
  payChallenge world client paymentReq = (tpay, Finished (inr pf)) ->
  match body with
  | Some text => if String.eqb text "" then inr "{}" else jsonParse world text
  | None => inr "{}"
  end = inr object ->
  forall (steps : nat) (proof : option S402Proof),
  exists t,
    request world client steps path body proof = (t, Unfinished)
    /\ settlements t = steps.
Proof.
  intros Hauto Hfetch Hst Hjson Hpay Hbody.
  destruct (payChallenge_finished paymentReq tpay pf Hpay)
    as (a0 & text0 & v0 & al0 & h0 & _ & _ & _ & _ & _ & _ & _ & _ & Hone & _).
  induction steps as [| steps IH]; intros proof.
  - exists []. split; reflexivity.
  - rewrite request_step.
    destruct (IH (Some pf)) as (t & Ht & Hn).
    assert (Hprep : exists b,
      match proof with
      | Some pf0 =>
          cbind (match body with
                 | Some text =>
                     if String.eqb text "" then cret "{}"
                     else ([], Finished (jsonParse world text))
                 | None => cret "{}"
                 end)
                (fun object0 => cret (BodyWithProof object0 pf0))
      | None => cret (match body with Some text => RawBody text | None => NoBody end)
      end = ([], Finished (inr b))).
    { destruct proof as [pf0 |]; [| eexists; reflexivity].
      destruct body as [text |]; [| eexists; reflexivity].
      destruct (String.eqb text ""); [eexists; reflexivity |].
      rewrite Hbody. eexists. reflexivity. }
    destruct Hprep as (b & ->).
    unfold cbind at 1. unfold call. rewrite (Hfetch b).
    unfold cbind at 1. rewrite Hst. cbn [Z.eqb Pos.eqb negb].
    rewrite Hauto. cbn [negb]. rewrite Hjson, Hpay.
    unfold cbind at 1. rewrite Ht.
    eexists. split; [reflexivity |].
    cbn [app settlements]. rewrite settlements_app, Hone, Hn. reflexivity.
Qed.

(** X30. Against a server that answers 402 to the request without proof
    and a successful response to the request with one, the client, allowed
    two calls of [request] or more, returns that response's body after two
    fetches and exactly one settlement. *)
Theorem pays_once (path : string) (body : option string) (object : string)
    (challenged answered : HttpResponse) (paymentReq : PaymentRequired402)
    (tpay : list ClientEvent) (pf : S402Proof) (result : Json) :
  autoSettle client = true ->
  fetch world (baseUrl client ++ path)
    (match body with Some text => RawBody text | None => NoBody end) = inr challenged ->
  resp_status challenged = 402 ->
  resp_json challenged = inr (JPaymentRequired paymentReq) ->
  payChallenge world client paymentReq = (tpay, Finished (inr pf)) ->
  match body with
  | Some text => if String.eqb text "" then inr "{}" else jsonParse world text
  | None => inr "{}"
  end = inr object ->
  fetch world (baseUrl client ++ path) (BodyWithProof object pf) = inr answered ->
  resp_ok answered = true ->
  resp_json answered = inr result ->
  forall steps, (2 <= steps)%nat ->
  request world client steps path body None
  = ((CFetch (baseUrl client ++ path)
        (match body with Some text => RawBody text | None => NoBody end)
      :: tpay ++ [CFetch (baseUrl client ++ path) (BodyWithProof object pf)])%list,
     Finished (inr result))
  /\ settlements (fst (request world client steps path body None)) = 1%nat.
Proof.
  intros Hauto Hf1 Hst Hjson Hpay Hbody Hf2 Hok Hres steps Hsteps.
  destruct (payChallenge_finished paymentReq tpay pf Hpay)
    as (a0 & text0 & v0 & al0 & h0 & _ & _ & _ & _ & _ & _ & _ & _ & Hone & _).
  destruct steps as [| [| steps]]; try lia.
  assert (Hnot402 : (resp_status answered =? 402) = false).
  { unfold resp_ok in Hok. apply andb_true_iff in Hok as [_ Hle].
    apply Z.leb_le in Hle. apply Z.eqb_neq. lia. }
  assert (E : request world client (S (S steps)) path body None
    = ((CFetch (baseUrl client ++ path)
          (match body with Some text => RawBody text | None => NoBody end)
        :: tpay ++ [CFetch (baseUrl client ++ path) (BodyWithProof object pf)])%list,
       Finished (inr result))).
  { rewrite request_step. unfold cret at 1. unfold cbind at 1. unfold call.
    rewrite Hf1. unfold cbind at 1. rewrite Hst. cbn [Z.eqb Pos.eqb negb].
    rewrite Hauto. cbn [negb]. rewrite Hjson, Hpay.
    unfold cbind at 1. rewrite request_step.
    assert (Hprep :
      cbind (match body with
             | Some text =>
                 if String.eqb text "" then cret "{}"
                 else ([], Finished (jsonParse world text))
             | None => cret "{}"
             end)
            (fun object0 => cret (BodyWithProof object0 pf))
      = ([], Finished (inr (BodyWithProof object pf)))).
    { destruct body as [text |]; [| now injection Hbody as <-].
      destruct (String.eqb text ""); [now injection Hbody as <- |].
      now rewrite Hbody. }
    rewrite Hprep. unfold cbind at 1. unfold call. rewrite Hf2.
    unfold cbind at 1. rewrite Hnot402, Hok. cbn [negb]. rewrite Hres.
    cbn [app]. rewrite ?app_nil_r. reflexivity. }
  split; [exact E |]. rewrite E. cbn [fst settlements].
  rewrite settlements_app, Hone. reflexivity.
Qed.

End ClientFacts.

(** * Client and server together *)

Section EndToEnd.

Import Sdk StringFacts NumberFacts ValueFacts.

Variable cfg : Config.
Variable eth : Ethers.
Variable chain : ChainClient.
Variable entropy : nat -> Byte.byte.

(** The way through the asynchronous middleware for a proof that passes the
    parameter and signature checks. *)
Lemma async_accepts (dateNow : Z) (routeKey : string) (req : Request) (pf : S402Proof)
    (tp ts : list Event) (price : Z) :
  body_s402Proof req = Some pf ->
  s402ProofSchema pf = true ->
  getPriceForRoute cfg routeKey = (tp, inr price) ->
  ParametersValid cfg dateNow pf price (getRecipientForRoute cfg routeKey) ->
  verifyEIP712Signature eth (payment pf) (authSig pf) (buildEIP712Domain cfg)
  = (ts, inr true) ->
  snd (fst (requireS402Async cfg eth chain dateNow entropy routeKey req))
  = Next (mkS402Context (owner (payment pf)) price (payment pf) (txHash pf) (Some true)
            (Some (verifyTransactionSettlement cfg eth chain (txHashOf pf) (payment pf)))).
Proof.
  intros Hb Hs Hp Hvalid Hsig.
  pose proof (parameterErrors_valid cfg dateNow _ _ _ Hs Hvalid) as Hnil.
  assert (Hval : BigInt (value (payment pf)) = inr price).
  { apply BigInt_of_rendering; [now apply schema_value | apply Hvalid]. }
  unfold requireS402Async, settle. rewrite Hp, Hb.
  unfold s402ProofSchema_parse. rewrite Hs.
  cbn [bind log ret lift throw app].
  unfold validateSubmittedProofAsync.
  rewrite (validate_accepts cfg eth dateNow _ _ _ ts Hnil Hsig), Hval.
  reflexivity.
Qed.

(** X27. Client and server agree on the wire: when the client pays a
    challenge the server issued for a route and sends the proof back within
    600 seconds of the second of issue, the price unchanged and the chain
    being chain 56, the asynchronous middleware lets the request through
    with the signer as owner, provided the proof is well formed and the
    signer's signatures are ones the server's library recovers the signer
    from. *)
Theorem client_proof_accepted (world : ClientWorld) (client : S402Client)
    (routeKey : string) (tp tb : list Event) (price issuedAt dateNow : Z)
    (declared : option string) (challenge : PaymentData) (d : EIP712Domain)
    (types : list (string * string)) (t : list ClientEvent) (pf : S402Proof)
    (address : string) (req : Request) :
  getPriceForRoute cfg routeKey = (tp, inr price) ->
  buildPaymentRequest cfg issuedAt entropy routeKey price
    (getRecipientForRoute cfg routeKey) declared
  = (tb, inr (challenge, d, types)) ->
  payChallenge world client
    (buildPaymentRequired S402_FACILITATOR USD1_TOKEN (getChainId cfg) routeKey
       challenge d)
  = (t, Finished (inr pf)) ->
  getAddress world = inr address ->
  SignatureSchemeAgrees world eth address ->
  s402ProofSchema pf = true ->
  body_s402Proof req = Some pf ->
  getChainId cfg = 56 ->
  dateNow / 1000 < issuedAt / 1000 + 600 ->
  snd (fst (requireS402Async cfg eth chain dateNow entropy routeKey req))
  = Next (mkS402Context address price (payment pf) (txHash pf) (Some true)
            (Some (verifyTransactionSettlement cfg eth chain (txHashOf pf) (payment pf)))).
Proof.
  intros Hp Hbuild Hpay Ha Hagree Hs Hb Hc Hwin.
  unfold buildPaymentRequest in Hbuild. cbn [bind log ret app] in Hbuild.
  injection Hbuild as _ Hch Hd _. subst challenge d.
  destruct (payChallenge_finished world client _ t pf Hpay)
    as (a' & text & v & al & h & Ha' & Hpayment & Hsign & Hsplit & _ & _ & Hh & _).
  rewrite Ha in Ha'. injection Ha' as <-.
  cbn [buildPaymentRequired pr_payment pr_domain value deadline recipient nonce]
    in Hpayment, Hsign.
  destruct (Hagree _ _ _ _ _ Hsign Hsplit) as (sg' & recovered & Hfrom & Hrec & Hlow).
  assert (Hsig : verifyEIP712Signature eth (payment pf) (authSig pf) (buildEIP712Domain cfg)
                 = ([EvLog Debug "EIP-712 signature verified successfully"], inr true)).
  { unfold verifyEIP712Signature, tryCatch, bind, lift, log, ret.
    rewrite Hfrom.
    change (typedValueOf (payment pf))
      with (atd_message (buildAuthTypedData (buildEIP712Domain cfg) (payment pf))).
    rewrite Hrec.
    assert (E : eqIgnoreCase recovered (owner (payment pf)) = true).
    { apply eqIgnoreCase_true. now rewrite Hpayment. }
    rewrite E. reflexivity. }
  assert (Hvalid : ParametersValid cfg dateNow pf price (getRecipientForRoute cfg routeKey)).
  { unfold ParametersValid. rewrite Hpayment. cbn [value recipient deadline].
    split; [now exists h |]. split; [reflexivity |]. split; [reflexivity |].
    split; [exact Hwin | exact Hc]. }
  rewrite (async_accepts dateNow routeKey req pf tp _ price Hb Hs Hp Hvalid Hsig).
  now rewrite Hpayment.
Qed.

End EndToEnd.

(** * The further properties at work on the concrete deployment *)

Module Checks.

Import Demo Cases.

Lemma accepted_at (ls : list Log) (head : Z) :
  101 <= head -> receiptAccepted cfg (receiptWith ls) head.
Proof.
  intros Hh. unfold receiptAccepted. split; [simpl; lia |].
  split; [reflexivity |]. now exists S402_FACILITATOR.
Qed.

(** A log of another contract between two settling logs changes nothing. *)
Lemma foreign_logs_witness :
  matchedEvent ethers pay ([foreignLog] ++ foreignLog :: [settledLog])
  = matchedEvent ethers pay ([foreignLog] ++ [settledLog]).
Proof.
  apply (foreign_logs_skipped ethers pay [foreignLog] [settledLog] foreignLog).
  right. left. reflexivity.
Defined.

(** The verified transaction of the demo chain has an accepted receipt. *)
Lemma verified_sound_witness :
  exists rc cur,
    getTransactionReceipt (chainAt 101 [settledLog] "pause") hash1 = inr (Some rc)
    /\ getBlockNumber (chainAt 101 [settledLog] "pause") = inr cur
    /\ receiptAccepted cfg rc cur.
Proof.
  destruct (verified_sound cfg ethers (chainAt 101 [settledLog] "pause") hash1 pay
              _ _ eq_refl eq_refl)
    as (rc & cur & H1 & H2 & H3 & _).
  now exists rc, cur.
Defined.

Lemma not_found_witness :
  verifyTransactionSettlement cfg ethers (chainAt 101 [] "pause") nonce1 pay
  = ([ EvGetTransactionReceipt nonce1; EvLog Warn "Transaction not found on-chain" ],
     inr (mkVerifyResult false 0 (Some "Transaction not found"))).
Proof.
  apply (transaction_not_found cfg ethers (chainAt 101 [] "pause") nonce1 pay).
  reflexivity.
Defined.

(** A reverted transaction is refused although its log would settle. *)
Lemma failed_transaction_witness :
  verifyTransactionSettlement cfg ethers (chainOf revertedReceipt 101 None) hash1 pay
  = ([ EvGetTransactionReceipt hash1; EvGetBlockNumber;
       EvLog Debug "Checking transaction confirmations";
       EvLog Warn "Transaction failed on-chain" ],
     inr (mkVerifyResult false 2 (Some "Transaction failed"))).
Proof.
  apply (failed_transaction_rejected cfg ethers (chainOf revertedReceipt 101 None)
           hash1 pay revertedReceipt 101);
    [ reflexivity | reflexivity | vm_compute; discriminate | discriminate ].
Defined.

Lemma wrong_contract_witness :
  verifyTransactionSettlement cfg ethers (chainOf strayReceipt 101 None) hash1 pay
  = ([ EvGetTransactionReceipt hash1; EvGetBlockNumber;
       EvLog Debug "Checking transaction confirmations";
       EvLog Warn "Transaction did not call S402Facilitator contract" ],
     inr (mkVerifyResult false 2 (Some "Wrong contract called"))).
Proof.
  apply (wrong_contract_rejected cfg ethers (chainOf strayReceipt 101 None)
           hash1 pay strayReceipt 101);
    [ reflexivity | reflexivity | vm_compute; discriminate | reflexivity
    | intros target [= <-]; vm_compute; discriminate ].
Defined.

(** The owner's settlement call relayed by bob is refused. *)
Lemma calldata_mismatch_witness :
  snd (verifyTransactionSettlement cfg ethers
         (chainOf (receiptWith []) 101 (Some relayedTransaction)) hash1 pay)
  = inr (mkVerifyResult false 2 (Some "Payment parameters mismatch")).
Proof.
  apply (calldata_mismatch_rejected cfg ethers
           (chainOf (receiptWith []) 101 (Some relayedTransaction)) hash1 pay
           (receiptWith []) 101 relayedTransaction
           (mkTransactionDescription "settlePayment"
              (Some (mkTxPayment (Some alice) (Some bob) (Some 1000000000000000)
                                 (Some 2000000600) (Some nonce1)))
              None)
           (mkTxPayment (Some alice) (Some bob) (Some 1000000000000000)
                        (Some 2000000600) (Some nonce1)));
    try reflexivity.
  - apply accepted_at. lia.
  - intros (_ & _ & _ & _ & _ & sender & [= <-] & Hlow). vm_compute in Hlow.
    discriminate Hlow.
Defined.

Lemma calldata_unavailable_witness :
  snd (verifyTransactionSettlement cfg ethers (chainOf (receiptWith []) 101 None) hash1 pay)
  = inr (mkVerifyResult false 2 (Some "Transaction data unavailable")).
Proof.
  apply (proj1 (calldata_unavailable cfg ethers (chainOf (receiptWith []) 101 None)
                  hash1 pay (receiptWith []) 101 eq_refl eq_refl
                  (accepted_at [] 101 ltac:(lia)) eq_refl)).
  reflexivity.
Defined.

(** Verified at head 101, still verified at head 105, with 6 confirmations. *)
Lemma later_head_witness :
  snd (verifyTransactionSettlement cfg ethers (chainAt 105 [settledLog] "pause") hash1 pay)
  = inr (mkVerifyResult true 6 None).
Proof.
  rewrite (verified_at_later_head cfg ethers
             (chainAt 101 [settledLog] "pause") (chainAt 105 [settledLog] "pause")
             hash1 pay (receiptWith [settledLog]) 101 105 _ _
             eq_refl eq_refl eq_refl eq_refl eq_refl ltac:(lia) eq_refl eq_refl).
  reflexivity.
Defined.

(** The request the demo server lets through was settled. *)
Lemma sync_grant_sound_witness :
  exists tv rv,
    verifyTransactionSettlement cfg ethers (chainAt 101 [settledLog] "pause") hash1 pay
    = (tv, inr rv)
    /\ verified rv = true.
Proof.
  destruct (sync_grant_sound cfg ethers (chainAt 101 [settledLog] "pause") now entropy
              "tool.example" (requestWith proof) _ eq_refl)
    as (pf & tp & price & h & Hb & _ & _ & _ & _ & Hh & Hver & _).
  injection Hb as <-. injection Hh as <-. exact Hver.
Defined.

Lemma sync_grant_complete_witness :
  snd (requireS402 cfg ethers (chainAt 101 [settledLog] "pause") now entropy
         "tool.example" (requestWith proof))
  = Next (mkS402Context alice 1000000000000000 pay (Some hash1) None None).
Proof.
  rewrite (sync_grant_complete cfg ethers (chainAt 101 [settledLog] "pause") now entropy
             "tool.example" (requestWith proof) proof _ _ _ 1000000000000000 _
             eq_refl eq_refl Witness.base_price Witness.demo_parameters_valid
             Witness.demo_signature eq_refl eq_refl).
  reflexivity.
Defined.

(** The asynchronous grant of an unconfirmed payment still had a valid
    signature. *)
Lemma async_grant_sound_witness :
  exists ts,
    verifyEIP712Signature ethers pay (authSig proof) (buildEIP712Domain cfg)
    = (ts, inr true).
Proof.
  destruct (async_grant_sound cfg ethers (chainAt 100 [] "pause") now entropy
              "tool.example" (requestWith proof) _ eq_refl)
    as (pf & tp & price & h & Hb & _ & _ & _ & Hsig & _).
  injection Hb as <-. exact Hsig.
Defined.

Lemma forged_parameters_valid :
  ParametersValid cfg now proofForged 1000000000000000
    (getRecipientForRoute cfg "tool.example").
Proof.
  unfold ParametersValid. split; [now exists hash1 |].
  repeat split; vm_compute; reflexivity.
Qed.

Lemma invalid_signature_witness :
  snd (requireS402 cfg ethers (chainAt 101 [settledLog] "pause") now entropy
         "tool.example" (requestWith proofForged))
  = verificationFailed403 "Invalid signature: EIP-712 signature verification failed".
Proof.
  rewrite (proj1 (invalid_signature_rejected cfg ethers
                    (chainAt 101 [settledLog] "pause") now entropy
                    "tool.example" (requestWith proofForged) proofForged _ _
                    1000000000000000
                    eq_refl eq_refl Witness.base_price forged_parameters_valid eq_refl)).
  reflexivity.
Defined.

Lemma malformed_proof_witness :
  snd (requireS402 cfg ethers chainDown now entropy "tool.example"
         (requestWith proofMalformed))
  = Respond 400 (BodyError "INVALID_PROOF_FORMAT" "S402 proof has invalid format"
                   (Some "[zod issues]")).
Proof.
  rewrite (proj1 (malformed_proof_rejected cfg ethers chainDown now entropy
                    "tool.example" (requestWith proofMalformed) proofMalformed _
                    1000000000000000 eq_refl eq_refl Witness.base_price)).
  reflexivity.
Defined.

(** The challenge of the demo server, 599 seconds after its issue. *)
Lemma challenge_window_witness :
  parameterErrors cfg (now + 599000) paidProof 1000000000000000 bob = [].
Proof.
  apply (challenge_valid_for_600_seconds cfg (now + 599000) entropy
           "tool.example" 1000000000000000 bob None now _ _ _ _ paidProof hash1
           eq_refl eq_refl eq_refl eq_refl eq_refl eq_refl eq_refl).
  vm_compute. reflexivity.
Defined.

Lemma stale_price_witness :
  exists message,
    snd (requireS402 cfg ethers chainDown now entropy "tool.example"
           (requestWith proofStale))
    = verificationFailed403 message
    /\ includes "Invalid payment value: expected 1000000000000000, got 999" message = true.
Proof.
  destruct (stale_price_rejected cfg ethers chainDown now entropy "tool.example"
              (requestWith proofStale) proofStale _ 1000000000000000 999
              eq_refl eq_refl Witness.base_price eq_refl ltac:(lia))
    as (message & E & _ & Hin).
  exists message. split; [exact E | exact Hin].
Defined.

Lemma challenge_schema_witness : paymentDataSchema challenge = true.
Proof.
  apply (challenge_is_schema_valid cfg now entropy "tool.example" 1000000000000000 bob
           None _ challenge _ _ eq_refl);
    try (vm_compute; reflexivity).
  - vm_compute. discriminate.
  - intros o [=].
Defined.

Lemma stack_witness :
  errorHandler processEnv (mkJsError "Error" "boom" None None "Error: boom at handler.ts:1")
  = errorHandler processEnv (mkJsError "Error" "boom" None None "").
Proof.
  apply (stack_not_disclosed processEnv "Error" "boom" None None). discriminate.
Defined.

Lemma round_trip_witness : stringToBigint (bigintToString 1000000000000000) = inr 1000000000000000.
Proof. apply (proj1 (stringToBigint_round_trip 1000000000000000)). lia. Defined.

Lemma validatePrice_witness : validatePrice "0100" 100 = true.
Proof.
  apply (proj1 (proj2 (validatePrice_numeric 100 0 ltac:(lia)))).
Defined.

(** "0X" is the schema's, not [isValidHex]'s. *)
Lemma isValidHex_witness :
  isValidHex nonce1 (Some 32) = true
  /\ hex32Schema (String "0" (String "X" (slice2 nonce1))) = true
  /\ isValidHex (String "0" (String "X" (slice2 nonce1))) (Some 32) = false.
Proof.
  split; [| split; reflexivity].
  apply (proj1 (isValidHex_against_schema nonce1 32 ltac:(lia))). split; reflexivity.
Defined.

Lemma listing_witness :
  snd (getPriceForRoute cfg "tool.analytics") = inr 2000000000000000
  /\ snd (getPriceForRoute cfg "tool.example") = inr 1000000000000000
  /\ snd (getPriceForRoute cfg "toString")
     = inl (syntaxError "Cannot convert function toString() { [native code] } to a BigInt").
Proof.
  split; [| split].
  - rewrite (proj1 (listing_matches_charged cfg "tool.analytics" ltac:(discriminate)));
      [reflexivity | left; discriminate].
  - rewrite (proj1 (listing_matches_charged cfg "tool.example" ltac:(discriminate)));
      [reflexivity | right; reflexivity].
  - rewrite (proj2 (listing_matches_charged cfg "toString" ltac:(discriminate))
               "function toString() { [native code] }" eq_refl eq_refl).
    reflexivity.
Defined.

Lemma alice_scheme (al : Z) (server : Sdk.FetchBody -> Sdk.HttpResponse) :
  SignatureSchemeAgrees (worldWith al server) ethersOfAlice alice.
Proof.
  intros d types message text sg _ [= <-].
  exists (mkSignature 27 goodR someS), alice. repeat split.
Qed.

(** The proof the client builds for the demo challenge is let through. *)
Lemma client_proof_witness :
  snd (fst (requireS402Async cfg ethersOfAlice chainDown now entropy "tool.example"
              (requestWith paidProof)))
  = Next (mkS402Context alice 1000000000000000 (payment paidProof) (Some hash1)
            (Some true)
            (Some (verifyTransactionSettlement cfg ethersOfAlice chainDown hash1
                     (payment paidProof)))).
Proof.
  apply (client_proof_accepted cfg ethersOfAlice chainDown entropy
           (worldWith 0 fairServer) sdkClient "tool.example"
           [EvLog Debug "Using base price"] [EvLog Debug "Built payment request"]
           1000000000000000 now now None challenge (buildEIP712Domain cfg)
           PAYMENT_AUTHORIZATION_TYPES _ paidProof alice (requestWith paidProof)
           Witness.base_price eq_refl eq_refl eq_refl (alice_scheme 0 fairServer)
           eq_refl eq_refl eq_refl).
  vm_compute. reflexivity.
Defined.

(** Without allowance the client signs a permit with nonce 0. *)
Lemma permit_witness :
  exists t pf,
    Sdk.payChallenge (worldWith 0 fairServer) sdkClient challengeBody
    = (t, Sdk.Finished (inr pf))
    /\ permitSig pf = None
    /\ In (Sdk.CSignPermit
             (Sdk.buildPermitTypedData USD1_TOKEN 56 alice S402_FACILITATOR
                "1000000000000000" 2000001199 None)) t.
Proof.
  do 2 eexists. split; [reflexivity |].
  destruct (permit_only_when_allowance_short (worldWith 0 fairServer) sdkClient
              challengeBody _ _ alice 1000000000000000 0 eq_refl eq_refl eq_refl eq_refl)
    as (Hperm & _ & _ & Hshort).
  split; [exact Hperm |]. apply Hshort. lia.
Defined.

(** Five calls allowed with [maxRetries] 3: five settlements, no end. *)
Lemma retries_witness :
  exists t,
    Sdk.request (worldWith 1000000000000000 greedyServer) sdkClient 5
      "/api/v1/tool/example" None None
    = (t, Sdk.Unfinished)
    /\ settlements t = 5%nat
    /\ Sdk.maxRetries sdkClient = 3.
Proof.
  destruct (retries_not_bounded (worldWith 1000000000000000 greedyServer) sdkClient
              "/api/v1/tool/example" None "{}" challengeResponse challengeBody _ _
              eq_refl (fun _ => eq_refl) eq_refl eq_refl eq_refl eq_refl 5%nat None)
    as (t & E & Hn).
  exists t. split; [exact E |]. split; [exact Hn | reflexivity].
Defined.

Lemma pays_once_witness :
  snd (Sdk.request (worldWith 1000000000000000 fairServer) sdkClient 3
         "/api/v1/tool/example" None None)
  = Sdk.Finished (inr (Sdk.JValue "served"))
  /\ settlements (fst (Sdk.request (worldWith 1000000000000000 fairServer) sdkClient 3
                         "/api/v1/tool/example" None None)) = 1%nat.
Proof.
  destruct (pays_once (worldWith 1000000000000000 fairServer) sdkClient
              "/api/v1/tool/example" None "{}" challengeResponse
              (Sdk.mkHttpResponse 200 "OK" (inr (Sdk.JValue "served")))
              challengeBody _ _ (Sdk.JValue "served")
              eq_refl eq_refl eq_refl eq_refl eq_refl eq_refl eq_refl eq_refl eq_refl
              3%nat ltac:(lia))
    as [E Hn].
  split; [now rewrite E | exact Hn].
Defined.

End Checks.
